(** * Sentiment analytics and burnout detection of the engagement-pulse app

    A shallow embedding of the analytic queries of [src/lib/database.ts],
    of the key-value backend [database-kv] that this file loads in
    production (its text follows the page component in
    [src/app/page.tsx]), of the alert generator of
    [src/app/api/alerts/route.ts] and of the reaction blending of
    [src/app/api/slack/messages/route.ts]; then of the table
    operations of both backends, of the weekly insight and the
    executive summary of the alerts route, and of the handlers of the
    dashboard, of the sentiment analysis, of the ingestion of Slack
    messages and of the message evidence.

    Conventions of the embedding.
    - Every SQL [REAL] and every JavaScript number is an exact rational
      ([Q]); equality of computed values is [Qeq] (written [==]).
    - A message timestamp is ISO-8601 UTC text.  It is kept as the pair of
      its calendar day (a Julian day number) and the milliseconds elapsed
      in that day.
    - The queries are written with relational operators ([group_by],
      [ORDER_BY], [ROW_NUMBER], aggregates) that follow SQLite's
      semantics; each query below is laid out clause by clause like its
      SQL text.
    - Two things that the exact rationals leave out are embedded where
      a result hangs on them.  [Nullable] has [getDailyMoodTrends] and
      [getChannelSummary] on a table whose scores can be [NULL], with
      [ROUND] as a parameter; on a table without [NULL] they are the
      queries of [Database].  [Binary64] rounds the operations of
      JavaScript to binary64 numbers. *)

From Stdlib Require Import ZArith QArith Qround Qabs Lia Lqa.
From Stdlib Require Import String Bool List Permutation Sorted.
From Stdlib Require PrimFloat FloatOps SpecFloat Uint63.
Import ListNotations.

(* ------------------------------------------------------------------ *)
(** ** Relational operators *)
(* ------------------------------------------------------------------ *)

Module Sql.

(** Comparison of two [REAL] values, as booleans. *)
Definition Qltb (x y : Q) : bool := negb (Qle_bool y x).

Section Grouping.
Context {A K : Type}.
Variable K_dec : forall x y : K, {x = y} + {x <> y}.
Variable key : A -> K.

Definition has_key (k : K) (a : A) : bool :=
  if K_dec (key a) k then true else false.

(** [GROUP BY key]: one group per distinct key, holding the rows of
    that key in table order. *)
Definition group_by (rows : list A) : list (K * list A) :=
  map (fun k => (k, filter (has_key k) rows)) (nodup K_dec (map key rows)).
End Grouping.

(** Aggregates.  A group produced by [group_by] is never empty, so the
    [NULL] that SQLite gives for [AVG], [MIN] and [MAX] of no rows does
    not arise; on the empty list these functions return 0. *)
Definition COUNT {A} (rows : list A) : Z := Z.of_nat (length rows).

Definition COUNT_CASE {A} (when : A -> bool) (rows : list A) : Z :=
  COUNT (filter when rows).

Definition COUNT_DISTINCT {K} (K_dec : forall x y : K, {x = y} + {x <> y})
  (vals : list K) : Z :=
  COUNT (nodup K_dec vals).

Definition SUM (vals : list Q) : Q := fold_right Qplus 0 vals.

Definition SUMZ (vals : list Z) : Z := fold_right Z.add 0%Z vals.

Definition AVG (vals : list Q) : Q := SUM vals / inject_Z (COUNT vals).

Definition MINZ (vals : list Z) : Z :=
  match vals with
  | [] => 0%Z
  | v :: rest => fold_right Z.min v rest
  end.

Definition MAXZ (vals : list Z) : Z :=
  match vals with
  | [] => 0%Z
  | v :: rest => fold_right Z.max v rest
  end.

(** [ROUND(x, digits)]: nearest value with [digits] decimals, halves
    rounded away from zero. *)
Definition ROUND (x : Q) (digits : nat) : Q :=
  let scale := inject_Z (10 ^ Z.of_nat digits) in
  if Qle_bool 0 x
  then inject_Z (Qfloor (x * scale + (1#2))) / scale
  else - (inject_Z (Qfloor ((- x) * scale + (1#2))) / scale).

(** [ROW_NUMBER() OVER (PARTITION BY .. ORDER BY ..)] for a row [r] of
    [rows]: one more than the number of rows of its partition that come
    before it.  The queries only order partitions by a column that is
    unique inside the partition, so no tie has to be broken. *)
Definition ROW_NUMBER {A} (same_partition before : A -> A -> bool)
  (rows : list A) (r : A) : Z :=
  1 + COUNT (filter (fun r' => same_partition r' r && before r' r) rows).

(** [ORDER BY]: a stable insertion sort. *)
Fixpoint insert_by {A} (le : A -> A -> bool) (x : A) (l : list A) : list A :=
  match l with
  | [] => [x]
  | y :: rest => if le x y then x :: l else y :: insert_by le x rest
  end.

Definition ORDER_BY {A} (le : A -> A -> bool) (rows : list A) : list A :=
  fold_right (insert_by le) [] rows.

End Sql.

(* ------------------------------------------------------------------ *)
(** ** SQLite date functions, on Julian day numbers *)
(* ------------------------------------------------------------------ *)

Module Calendar.
Local Open Scope Z_scope.

(** Julian day number of the first of January of year [y]. *)
Definition jan01 (y : Z) : Z :=
  1461 * (y + 4799) / 4 + 336 - 3 * ((y + 4899) / 100) / 4 - 32074.

(** Gregorian year of a Julian day number. *)
Definition year_of (jdn : Z) : Z :=
  let f := jdn + 1401 + (4 * jdn + 274277) / 146097 * 3 / 4 - 38 in
  let e := 4 * f + 3 in
  let h := 5 * (e mod 1461 / 4) + 2 in
  let m := (h / 153 + 2) mod 12 + 1 in
  e / 1461 - 4716 + (14 - m) / 12.

(** [strftime('%w')]: 0 is Sunday, 6 is Saturday. *)
Definition weekday (jdn : Z) : Z := (jdn + 1) mod 7.

Definition Sunday : Z := 0.
Definition Monday : Z := 1.

(** The modifier ['weekday N']: the date moves forward to the next day
    whose weekday is [N], and stays where it is when it already is one. *)
Definition modifier_weekday (n : Z) (jdn : Z) : Z :=
  let z := weekday jdn in
  let z := if n <? z then z - 7 else z in
  jdn + (n - z).

(** The modifier ['+-K days']. *)
Definition modifier_days (k : Z) (jdn : Z) : Z := jdn + k.

(** [strftime('%W')]: week of the year, 00 to 53, the first Monday of
    the year opening week 01. *)
Definition days_after_jan01 (jdn : Z) : Z := jdn - jan01 (year_of jdn).
Definition days_after_monday (jdn : Z) : Z := jdn mod 7.
Definition strftime_W (jdn : Z) : Z :=
  (days_after_jan01 jdn - days_after_monday jdn + 7) / 7.

(** [strftime('%Y-%W')], kept as the pair of its two numbers. *)
Definition strftime_Y_W (jdn : Z) : Z * Z := (year_of jdn, strftime_W jdn).

End Calendar.

(* ------------------------------------------------------------------ *)
(** ** The analytic queries of [src/lib/database.ts] *)
(* ------------------------------------------------------------------ *)

Module Database.
Import Sql.
Local Open Scope Q_scope.

Record Timestamp := {
  ts_day : Z;   (* the calendar day, as a Julian day number *)
  ts_ms : Z     (* milliseconds since midnight UTC *)
}.

Record Channel := {
  chan_id : string;
  chan_name : string
}.

Record Message := {
  id : Z;
  channel_id : string;
  user_id : string;
  text : string;
  timestamp : Timestamp;
  sentiment_score : Q
}.

(** [DATE(timestamp)]. *)
Definition DATE (t : Timestamp) : Z := ts_day t.

(** [WHERE timestamp >= datetime('now', '-N days')].  Both sides are
    text: the timestamp reads [YYYY-MM-DDTHH:MM:SS.sssZ] and the bound
    reads [YYYY-MM-DD HH:MM:SS].  The first ten characters compare the
    days; on equal days the eleventh character decides, and ['T'] is
    above the space, so every message of the bound's own day passes.
    [now] is the Julian day number of the current day. *)
Definition since (now : Z) (days : Z) (m : Message) : bool :=
  (now - days <=? DATE (timestamp m))%Z.

Definition pair_dec {X Y : Type}
  (X_dec : forall a b : X, {a = b} + {a <> b})
  (Y_dec : forall a b : Y, {a = b} + {a <> b})
  (p q : X * Y) : {p = q} + {p <> q}.
Proof. decide equality. Defined.

Definition scores (ms : list Message) : list Q := map sentiment_score ms.

(** The three sentiment classes of the [CASE WHEN] filters. *)
Definition is_positive (m : Message) : bool := Qle_bool 7 (sentiment_score m).
Definition is_negative (m : Message) : bool := Qltb (sentiment_score m) 4.
Definition is_neutral (m : Message) : bool :=
  Qle_bool 4 (sentiment_score m) && Qltb (sentiment_score m) 7.

(** [ROUND((COUNT(CASE WHEN c THEN 1 END) * 100.0) / COUNT( * ), 1)]. *)
Definition percentage (when : Message -> bool) (ms : list Message) : Q :=
  ROUND (inject_Z (COUNT_CASE when ms) * 100 / inject_Z (COUNT ms)) 1.

(** *** getDailyMoodTrends *)

Record DailyMood := {
  dm_date : Z;
  overall_mood : Q;
  dm_total_messages : Z;
  active_channels : Z;
  dm_active_users : Z;
  positive_percentage : Q;
  negative_percentage : Q;
  neutral_percentage : Q
}.

Definition daily_mood_row (g : Z * list Message) : DailyMood :=
  let (date, ms) := g in
  {| dm_date := date;
     overall_mood := AVG (scores ms);
     dm_total_messages := COUNT ms;
     active_channels := COUNT_DISTINCT string_dec (map channel_id ms);
     dm_active_users := COUNT_DISTINCT string_dec (map user_id ms);
     positive_percentage := percentage is_positive ms;
     negative_percentage := percentage is_negative ms;
     neutral_percentage := percentage is_neutral ms |}.

Definition getDailyMoodTrends (days : Z) (now : Z) (messages : list Message)
  : list DailyMood :=
  let rows := filter (since now days) messages in
  let groups := group_by Z.eq_dec (fun m => DATE (timestamp m)) rows in
  ORDER_BY (fun a b => (dm_date a <=? dm_date b)%Z) (map daily_mood_row groups).

(** *** getWeeklyMoodTrends *)

(** [DATE(timestamp, 'weekday 0', '-6 days')]. *)
Definition week_start_of (t : Timestamp) : Z :=
  Calendar.modifier_days (-6) (Calendar.modifier_weekday 0 (DATE t)).

Record WeeklyMood := {
  week : Z * Z;
  week_start : Z;
  weekly_mood : Q;
  wm_total_messages : Z;
  unique_contributors : Z;
  wm_avg_sentiment : Q;
  wm_burnout_risk_percentage : Q
}.

(** [week_start] is a bare column of an aggregate query: SQLite reads
    it from one row of the group.  The first row is taken here. *)
Definition weekly_mood_row (g : (Z * Z) * list Message) : WeeklyMood :=
  let (wk, ms) := g in
  {| week := wk;
     week_start := match ms with
                   | m :: _ => week_start_of (timestamp m)
                   | [] => 0%Z
                   end;
     weekly_mood := AVG (scores ms);
     wm_total_messages := COUNT ms;
     unique_contributors := COUNT_DISTINCT string_dec (map user_id ms);
     wm_avg_sentiment := ROUND (AVG (scores ms)) 2;
     wm_burnout_risk_percentage := percentage is_negative ms |}.

Definition getWeeklyMoodTrends (weeks : Z) (now : Z) (messages : list Message)
  : list WeeklyMood :=
  let rows := filter (since now (weeks * 7)) messages in
  let groups :=
    group_by (pair_dec Z.eq_dec Z.eq_dec)
      (fun m => Calendar.strftime_Y_W (DATE (timestamp m))) rows in
  ORDER_BY (fun a b => (week_start a <=? week_start b)%Z)
    (map weekly_mood_row groups).

(** *** getChannelSummary *)

Record ChannelSummary := {
  cs_id : string;
  cs_name : string;
  cs_avg_sentiment : Q;
  cs_total_messages : Z;
  last_message : Timestamp;
  cs_active_users : Z;
  cs_burnout_risk_percentage : Q
}.

Definition ts_leb (a b : Timestamp) : bool :=
  (ts_day a <? ts_day b)%Z || ((ts_day a =? ts_day b)%Z && (ts_ms a <=? ts_ms b)%Z).

Definition MAX_timestamp (ms : list Message) : Timestamp :=
  fold_right (fun m acc => if ts_leb acc (timestamp m) then timestamp m else acc)
    {| ts_day := 0; ts_ms := 0 |} ms.

(** [FROM channels c LEFT JOIN messages m ON c.id = m.channel_id
    WHERE m.timestamp >= datetime('now', '-7 days')]: the [WHERE]
    clause drops the [NULL]-padded row of a channel without messages,
    so the rows are the pairs of a channel and one of its messages of
    the window. *)
Definition channel_join (now : Z) (channels : list Channel)
  (messages : list Message) : list (Channel * Message) :=
  flat_map (fun c =>
    map (fun m => (c, m))
      (filter (fun m => String.eqb (chan_id c) (channel_id m) && since now 7 m)
         messages)) channels.

Definition channel_summary_row (g : (string * string) * list (Channel * Message))
  : ChannelSummary :=
  let (k, rows) := g in
  let ms := map snd rows in
  {| cs_id := fst k;
     cs_name := snd k;
     cs_avg_sentiment := AVG (scores ms);
     cs_total_messages := COUNT ms;
     last_message := MAX_timestamp ms;
     cs_active_users := COUNT_DISTINCT string_dec (map user_id ms);
     cs_burnout_risk_percentage := percentage is_negative ms |}.

(** [GROUP BY c.id, c.name]. *)
Definition channel_key (r : Channel * Message) : string * string :=
  (chan_id (fst r), chan_name (fst r)).

Definition getChannelSummary (now : Z) (channels : list Channel)
  (messages : list Message) : list ChannelSummary :=
  let rows := channel_join now channels messages in
  let groups := group_by (pair_dec string_dec string_dec) channel_key rows in
  ORDER_BY (fun a b => Qle_bool (cs_avg_sentiment a) (cs_avg_sentiment b))
    (map channel_summary_row groups).

(** *** detectBurnoutRisks: consecutive low days *)

Record DailySentiment := {
  ds_channel_id : string;
  ds_date : Z;
  daily_sentiment : Q
}.

Definition channel_day (m : Message) : string * Z :=
  (channel_id m, DATE (timestamp m)).

Definition daily_sentiment_row (g : (string * Z) * list Message) : DailySentiment :=
  {| ds_channel_id := fst (fst g);
     ds_date := snd (fst g);
     daily_sentiment := AVG (scores (snd g)) |}.

(** The CTE [daily_sentiment] of the streak query. *)
Definition streak_daily_sentiment (now : Z) (messages : list Message)
  : list DailySentiment :=
  let rows := filter (since now 7) messages in
  map daily_sentiment_row
    (group_by (pair_dec string_dec Z.eq_dec) channel_day rows).

Record LowSentimentDay := {
  lsd_channel_id : string;
  lsd_date : Z;
  lsd_daily_sentiment : Q;
  grp : Z
}.

Definition is_low (r : DailySentiment) : bool := Qltb (daily_sentiment r) 4.

(** [CASE WHEN daily_sentiment < 4.0 THEN 1 ELSE 0 END]. *)
Definition low_case (r : DailySentiment) : Z := if is_low r then 1%Z else 0%Z.

Definition same_channel (a b : DailySentiment) : bool :=
  String.eqb (ds_channel_id a) (ds_channel_id b).

Definition same_channel_and_case (a b : DailySentiment) : bool :=
  same_channel a b && (low_case a =? low_case b)%Z.

Definition earlier (a b : DailySentiment) : bool := (ds_date a <? ds_date b)%Z.

(** A row of the CTE [low_sentiment_days], computed among the rows
    [rows] that the [WHERE] clause selected. *)
Definition low_sentiment_day (rows : list DailySentiment) (r : DailySentiment)
  : LowSentimentDay :=
  {| lsd_channel_id := ds_channel_id r;
     lsd_date := ds_date r;
     lsd_daily_sentiment := daily_sentiment r;
     grp := (ROW_NUMBER same_channel earlier rows r
             - ROW_NUMBER same_channel_and_case earlier rows r)%Z |}.

(** The CTE [low_sentiment_days].  The [WHERE] clause selects the rows
    first; both window functions then number the selected rows only. *)
Definition low_sentiment_days (now : Z) (messages : list Message)
  : list LowSentimentDay :=
  let rows := filter is_low (streak_daily_sentiment now messages) in
  map (low_sentiment_day rows) rows.

Record Streak := {
  st_channel_id : string;
  streak_start : Z;
  streak_end : Z;
  consecutive_days : Z;
  avg_sentiment_in_streak : Q
}.

Definition streak_row (g : (string * Z) * list LowSentimentDay) : Streak :=
  {| st_channel_id := fst (fst g);
     streak_start := MINZ (map lsd_date (snd g));
     streak_end := MAXZ (map lsd_date (snd g));
     consecutive_days := COUNT (snd g);
     avg_sentiment_in_streak := AVG (map lsd_daily_sentiment (snd g)) |}.

Definition consecutiveLowDays (now : Z) (messages : list Message) : list Streak :=
  let groups :=
    group_by (pair_dec string_dec Z.eq_dec)
      (fun r => (lsd_channel_id r, grp r)) (low_sentiment_days now messages) in
  let having := filter (fun g => (3 <=? COUNT (snd g))%Z) groups in
  map streak_row having.

(** *** detectBurnoutRisks: declining trends *)

Record TrendDay := {
  td_channel_id : string;
  td_date : Z;
  td_daily_sentiment : Q;
  day_num : Z
}.

(** A row of the trend query's [daily_sentiment], numbered among the
    rows [rows] that [HAVING] kept. *)
Definition trend_day (rows : list DailySentiment) (r : DailySentiment) : TrendDay :=
  {| td_channel_id := ds_channel_id r;
     td_date := ds_date r;
     td_daily_sentiment := daily_sentiment r;
     day_num := ROW_NUMBER same_channel earlier rows r |}.

(** The rows of the trend query's [daily_sentiment] before they are
    numbered: [HAVING COUNT( * ) >= 3] keeps the days with at least
    three messages. *)
Definition trend_days (now : Z) (messages : list Message) : list DailySentiment :=
  let rows := filter (since now 5) messages in
  let groups := group_by (pair_dec string_dec Z.eq_dec) channel_day rows in
  let having := filter (fun g => (3 <=? COUNT (snd g))%Z) groups in
  map daily_sentiment_row having.

(** The CTE [daily_sentiment] of the trend query; [day_num] numbers
    the days that were kept. *)
Definition trend_daily_sentiment (now : Z) (messages : list Message)
  : list TrendDay :=
  let selected := trend_days now messages in
  map (trend_day selected) selected.

(** SQLite's [/]: a zero divisor gives [NULL]. *)
Definition divide (num : Q) (den : Z) : option Q :=
  if (den =? 0)%Z then None else Some (num / inject_Z den).

(** The [trend_slope] expression, over the points ([day_num],
    [daily_sentiment]) of one channel. *)
Definition slope_of (points : list (Z * Q)) : option Q :=
  let n := COUNT points in
  let xs := map fst points in
  let ys := map snd points in
  divide
    (inject_Z n * SUM (map (fun p => inject_Z (fst p) * snd p) points)
     - inject_Z (SUMZ xs) * SUM ys)
    (n * SUMZ (map (fun x => x * x)%Z xs) - SUMZ xs * SUMZ xs)%Z.

Definition MINQ (vals : list Q) : Q :=
  match vals with
  | [] => 0
  | v :: rest => fold_right (fun a b => if Qle_bool a b then a else b) v rest
  end.

Definition MAXQ (vals : list Q) : Q :=
  match vals with
  | [] => 0
  | v :: rest => fold_right (fun a b => if Qle_bool a b then b else a) v rest
  end.

Record TrendAnalysis := {
  ta_channel_id : string;
  days_count : Z;
  trend_slope : option Q;
  ta_avg_sentiment : Q;
  min_sentiment : Q;
  max_sentiment : Q
}.

Definition trend_points (ds : list TrendDay) : list (Z * Q) :=
  map (fun d => (day_num d, td_daily_sentiment d)) ds.

Definition trend_analysis_row (g : string * list TrendDay) : TrendAnalysis :=
  let ds := snd g in
  {| ta_channel_id := fst g;
     days_count := COUNT ds;
     trend_slope := slope_of (trend_points ds);
     ta_avg_sentiment := AVG (map td_daily_sentiment ds);
     min_sentiment := MINQ (map td_daily_sentiment ds);
     max_sentiment := MAXQ (map td_daily_sentiment ds) |}.

(** The CTE [trend_analysis]. *)
Definition trend_analysis (now : Z) (messages : list Message)
  : list TrendAnalysis :=
  map trend_analysis_row
    (group_by string_dec td_channel_id (trend_daily_sentiment now messages)).

(** A row of the result: its slope passed [trend_slope < -0.3], so it
    is not [NULL]. *)
Record DecliningTrend := {
  dt_channel_id : string;
  dt_days_count : Z;
  dt_trend_slope : Q;
  dt_avg_sentiment : Q;
  dt_min_sentiment : Q;
  dt_max_sentiment : Q
}.

(** [WHERE days_count >= 3 AND trend_slope < -0.3 AND avg_sentiment < 6.0];
    a comparison with [NULL] does not hold. *)
Definition declining (t : TrendAnalysis) : list DecliningTrend :=
  match trend_slope t with
  | Some slope =>
      if (3 <=? days_count t)%Z && Qltb slope (-3#10)
         && Qltb (ta_avg_sentiment t) 6
      then [ {| dt_channel_id := ta_channel_id t;
                dt_days_count := days_count t;
                dt_trend_slope := slope;
                dt_avg_sentiment := ta_avg_sentiment t;
                dt_min_sentiment := min_sentiment t;
                dt_max_sentiment := max_sentiment t |} ]
      else []
  | None => []
  end.

Definition decliningTrends (now : Z) (messages : list Message)
  : list DecliningTrend :=
  flat_map declining (trend_analysis now messages).

(** *** detectBurnoutRisks: users at risk *)

Record UserRisk := {
  ur_user_id : string;
  channels_active : Z;
  ur_total_messages : Z;
  ur_avg_sentiment : Q;
  lowest_sentiment : Q;
  negative_message_percentage : Q;
  last_activity : Timestamp
}.

Definition user_risk_row (g : string * list Message) : UserRisk :=
  let ms := snd g in
  {| ur_user_id := fst g;
     channels_active := COUNT_DISTINCT string_dec (map channel_id ms);
     ur_total_messages := COUNT ms;
     ur_avg_sentiment := AVG (scores ms);
     lowest_sentiment := MINQ (scores ms);
     negative_message_percentage := percentage is_negative ms;
     last_activity := MAX_timestamp ms |}.

(** [HAVING avg_sentiment < 4.5 AND negative_message_percentage > 30]. *)
Definition at_risk (u : UserRisk) : bool :=
  Qltb (ur_avg_sentiment u) (9#2) && Qltb 30 (negative_message_percentage u).

Definition userBurnoutRisks (now : Z) (messages : list Message) : list UserRisk :=
  let rows := filter (since now 7) messages in
  let groups := group_by string_dec user_id rows in
  let having := filter at_risk (map user_risk_row groups) in
  ORDER_BY (fun a b => Qle_bool (ur_avg_sentiment a) (ur_avg_sentiment b)) having.

Record BurnoutRisks := {
  consecutive_low_channels : list Streak;
  declining_trend_channels : list DecliningTrend;
  at_risk_users : list UserRisk
}.

Definition detectBurnoutRisks (now : Z) (messages : list Message) : BurnoutRisks :=
  {| consecutive_low_channels := consecutiveLowDays now messages;
     declining_trend_channels := decliningTrends now messages;
     at_risk_users := userBurnoutRisks now messages |}.

End Database.

(* ------------------------------------------------------------------ *)
(** ** The key-value backend, [database-kv] *)
(* ------------------------------------------------------------------ *)

(** [src/lib/database.ts] loads this module instead of the SQLite
    queries in production.  It keeps the messages of a channel under
    the key [messages:<channel id>] and aggregates them in JavaScript. *)
Module DatabaseKV.
Import Sql Database.
Local Open Scope Q_scope.

(** [kv.get(`messages:${channel.id}`)]. *)
Definition stored (messages : list Message) (channel : Channel) : list Message :=
  filter (fun m => String.eqb (channel_id m) (chan_id channel)) messages.

(** [cutoffDate.setDate(cutoffDate.getDate() - days)], from the current
    instant [now]. *)
Definition cutoffDate (now : Timestamp) (days : Z) : Timestamp :=
  {| ts_day := (ts_day now - days)%Z; ts_ms := ts_ms now |}.

(** [new Date(m.timestamp) >= cutoffDate]. *)
Definition recent (now : Timestamp) (days : Z) (m : Message) : bool :=
  ts_leb (cutoffDate now days) (timestamp m).

(** An object used as a map from keys to arrays, filled by
    [if (!groups[k]) groups[k] = []; groups[k].push(x)]:
    [Object.entries] lists the keys in the order of their first push.
    The keys are ISO dates and Slack user ids; none of them is a
    property name of [Object.prototype]. *)
Fixpoint push {K A : Type} (eqb : K -> K -> bool) (k : K) (x : A)
  (groups : list (K * list A)) : list (K * list A) :=
  match groups with
  | [] => [(k, [x])]
  | (k', xs) :: rest =>
      if eqb k' k then (k', xs ++ [x]) :: rest
      else (k', xs) :: push eqb k x rest
  end.

Definition entries {K A : Type} (eqb : K -> K -> bool) (key : A -> K)
  (rows : list A) : list (K * list A) :=
  fold_left (fun groups x => push eqb (key x) x groups) rows [].

Definition mean (ms : list Message) : Q :=
  SUM (scores ms) / inject_Z (COUNT ms).

(** [(msgs.filter(c).length / msgs.length) * 100]. *)
Definition percent (when : Message -> bool) (ms : list Message) : Q :=
  inject_Z (COUNT_CASE when ms) / inject_Z (COUNT ms) * 100.

(** *** getDailyMoodTrends *)

Definition daily_row (g : Z * list Message) : DailyMood :=
  let (date, msgs) := g in
  {| dm_date := date;
     overall_mood := mean msgs;
     dm_total_messages := COUNT msgs;
     active_channels := COUNT_DISTINCT string_dec (map channel_id msgs);
     dm_active_users := COUNT_DISTINCT string_dec (map user_id msgs);
     positive_percentage := percent is_positive msgs;
     negative_percentage := percent is_negative msgs;
     neutral_percentage := percent is_neutral msgs |}.

Definition getDailyMoodTrends (days : Z) (now : Timestamp)
  (channels : list Channel) (messages : list Message) : list DailyMood :=
  let allMessages := flat_map (stored messages) channels in
  let recentMessages := filter (recent now days) allMessages in
  let dailyGroups := entries Z.eqb (fun m => DATE (timestamp m)) recentMessages in
  ORDER_BY (fun a b => (dm_date a <=? dm_date b)%Z) (map daily_row dailyGroups).

(** *** getWeeklyMoodTrends *)

(** [weekStart.setDate(date.getDate() - date.getDay())], "Start of
    week": the date moves back by its weekday number, 0 for Sunday.
    The server clock is UTC. *)
Definition weekStart (t : Timestamp) : Z :=
  (DATE t - Calendar.weekday (DATE t))%Z.

Record WeeklyBucket := {
  kv_week : Z;
  kv_week_start : Z;
  kv_weekly_mood : Q;
  kv_total_messages : Z;
  kv_unique_contributors : Z;
  kv_avg_sentiment : Q;
  kv_burnout_risk_percentage : Q
}.

Definition weekly_row (g : Z * list Message) : WeeklyBucket :=
  let (week_start, msgs) := g in
  {| kv_week := week_start;
     kv_week_start := week_start;
     kv_weekly_mood := mean msgs;
     kv_total_messages := COUNT msgs;
     kv_unique_contributors := COUNT_DISTINCT string_dec (map user_id msgs);
     kv_avg_sentiment := mean msgs;
     kv_burnout_risk_percentage := percent is_negative msgs |}.

Definition getWeeklyMoodTrends (weeks : Z) (now : Timestamp)
  (channels : list Channel) (messages : list Message) : list WeeklyBucket :=
  let allMessages := flat_map (stored messages) channels in
  let recentMessages := filter (recent now (weeks * 7)) allMessages in
  let weeklyGroups := entries Z.eqb (fun m => weekStart (timestamp m))
                        recentMessages in
  ORDER_BY (fun a b => (kv_week_start a <=? kv_week_start b)%Z)
    (map weekly_row weeklyGroups).

(** *** detectBurnoutRisks *)

(** "Check for low sentiment channels": one entry for a channel whose
    mean over the window is below 4.0, with the fixed count 3. *)
Definition low_channel (now : Timestamp) (messages : list Message)
  (channel : Channel) : list Streak :=
  let recentMessages := filter (recent now 7) (stored messages channel) in
  if (0 <? COUNT recentMessages)%Z && Qltb (mean recentMessages) 4
  then [ {| st_channel_id := chan_id channel;
            streak_start := ts_day (cutoffDate now 7);
            streak_end := ts_day now;
            consecutive_days := 3;
            avg_sentiment_in_streak := mean recentMessages |} ]
  else [].

Definition user_row (now : Timestamp) (g : string * list Message) : UserRisk :=
  let (userId, msgs) := g in
  {| ur_user_id := userId;
     channels_active := COUNT_DISTINCT string_dec (map channel_id msgs);
     ur_total_messages := COUNT msgs;
     ur_avg_sentiment := mean msgs;
     lowest_sentiment := MINQ (scores msgs);
     negative_message_percentage := percent is_negative msgs;
     last_activity := now |}.

(** [.filter(user => user.avg_sentiment < 4.5 &&
    user.negative_message_percentage > 30)]. *)
Definition at_risk (user : UserRisk) : bool :=
  Qltb (ur_avg_sentiment user) (9#2) && Qltb 30 (negative_message_percentage user).

Definition detectBurnoutRisks (now : Timestamp) (channels : list Channel)
  (messages : list Message) : BurnoutRisks :=
  let recentMessages :=
    flat_map (fun c => filter (recent now 7) (stored messages c)) channels in
  let atRiskUsers := entries String.eqb user_id recentMessages in
  {| consecutive_low_channels := flat_map (low_channel now messages) channels;
     declining_trend_channels := [];
     at_risk_users :=
       ORDER_BY (fun a b => Qle_bool (ur_avg_sentiment a) (ur_avg_sentiment b))
         (filter at_risk (map (user_row now) atRiskUsers)) |}.

End DatabaseKV.

(* ------------------------------------------------------------------ *)
(** ** The alert generator of [src/app/api/alerts/route.ts] *)
(* ------------------------------------------------------------------ *)

Module Alerts.
Import Sql Database.
Local Open Scope Q_scope.

Inductive AlertType :=
| burnout_critical
| declining_trend
| low_sentiment
| moderate_concern.

Inductive Severity := critical | warning | high | medium.

(** An element of the [alerts] array.  The fields [message],
    [manager_actions] and [business_impact] are display text and are
    left out; a field that an alert type does not carry is [None]. *)
Record Alert := {
  a_channel_id : string;
  channel_name : string;
  alert_type : AlertType;
  severity : Severity;
  a_sentiment_score : Q;
  a_consecutive_days : option Z;
  streak_period : option (Z * Z);
  a_trend_slope : option Q;
  burnout_percentage : option Q;
  a_active_users : option Z
}.

Record Insight := {
  i_severity : Severity;
  i_user_id : string;
  i_avg_sentiment : Q;
  negative_percentage : Q;
  i_channels_active : Z
}.

(** A row written by [saveAlert]. *)
Record SavedAlert := {
  sa_channel_id : string;
  sa_alert_type : AlertType
}.

Definition for_channel (channelId : string) (a : Alert) : bool :=
  String.eqb (a_channel_id a) channelId.

(** [channelData?.name || `channel-${id.substring(0, 8)}`]: the empty
    name is falsy. *)
Definition channelName (channels : list ChannelSummary) (channelId : string)
  : string :=
  let fallback := ("channel-" ++ substring 0 8 channelId)%string in
  match find (fun c => String.eqb (cs_id c) channelId) channels with
  | Some c => if String.eqb (cs_name c) EmptyString then fallback else cs_name c
  | None => fallback
  end.

(** [parseFloat(x || d)] on a number [x]: zero is falsy. *)
Definition parseFloat_or (x d : Q) : Q := if Qeq_bool x 0 then d else x.

Definition streak_alert (channels : list ChannelSummary) (risk : Streak) : Alert :=
  {| a_channel_id := st_channel_id risk;
     channel_name := channelName channels (st_channel_id risk);
     alert_type := burnout_critical;
     severity := critical;
     a_sentiment_score := avg_sentiment_in_streak risk;
     a_consecutive_days := Some (consecutive_days risk);
     streak_period := Some (streak_start risk, streak_end risk);
     a_trend_slope := None;
     burnout_percentage := None;
     a_active_users := None |}.

Definition trend_alert (channels : list ChannelSummary) (trend : DecliningTrend)
  : Alert :=
  {| a_channel_id := dt_channel_id trend;
     channel_name := channelName channels (dt_channel_id trend);
     alert_type := declining_trend;
     severity := warning;
     a_sentiment_score := dt_avg_sentiment trend;
     a_consecutive_days := None;
     streak_period := None;
     a_trend_slope := Some (dt_trend_slope trend);
     burnout_percentage := None;
     a_active_users := None |}.

Definition low_sentiment_alert (channel : ChannelSummary) : Alert :=
  {| a_channel_id := cs_id channel;
     channel_name := cs_name channel;
     alert_type := low_sentiment;
     severity := high;
     a_sentiment_score := parseFloat_or (cs_avg_sentiment channel) 5;
     a_consecutive_days := None;
     streak_period := None;
     a_trend_slope := None;
     burnout_percentage :=
       Some (parseFloat_or (cs_burnout_risk_percentage channel) 0);
     a_active_users := Some (cs_active_users channel) |}.

Definition moderate_concern_alert (channel : ChannelSummary) : Alert :=
  {| a_channel_id := cs_id channel;
     channel_name := cs_name channel;
     alert_type := moderate_concern;
     severity := medium;
     a_sentiment_score := parseFloat_or (cs_avg_sentiment channel) 5;
     a_consecutive_days := None;
     streak_period := None;
     a_trend_slope := None;
     burnout_percentage := None;
     a_active_users := Some (cs_active_users channel) |}.

(** One turn of the loop over [burnoutRisks.consecutive_low_channels]:
    the alert is saved and pushed. *)
Definition streak_step (channels : list ChannelSummary)
  (st : list Alert * list SavedAlert) (risk : Streak)
  : list Alert * list SavedAlert :=
  (fst st ++ [streak_alert channels risk],
   snd st ++ [ {| sa_channel_id := st_channel_id risk;
                  sa_alert_type := burnout_critical |} ]).

(** One turn of the loop over [burnoutRisks.declining_trend_channels]. *)
Definition trend_step (channels : list ChannelSummary) (alerts : list Alert)
  (trend : DecliningTrend) : list Alert :=
  alerts ++ [trend_alert channels trend].

(** One turn of the loop over [channels]: [alerts.find] looks at every
    alert pushed so far. *)
Definition channel_step (alerts : list Alert) (channel : ChannelSummary)
  : list Alert :=
  let avgSentiment := parseFloat_or (cs_avg_sentiment channel) 5 in
  let channelId := cs_id channel in
  if Qltb avgSentiment 4 && negb (existsb (for_channel channelId) alerts)
  then alerts ++ [low_sentiment_alert channel]
  else if Qltb avgSentiment (11#2)
          && negb (existsb (for_channel channelId) alerts)
  then alerts ++ [moderate_concern_alert channel]
  else alerts.

Definition user_insight (user : UserRisk) : Insight :=
  {| i_severity := if Qltb (ur_avg_sentiment user) 3 then critical else warning;
     i_user_id := ur_user_id user;
     i_avg_sentiment := ur_avg_sentiment user;
     negative_percentage := negative_message_percentage user;
     i_channels_active := channels_active user |}.

Definition is_critical (a : Alert) : bool :=
  match severity a with critical => true | _ => false end.

Definition is_warning_or_high (a : Alert) : bool :=
  match severity a with warning | high => true | _ => false end.

Record Summary := {
  critical_alerts : Z;
  warning_alerts : Z;
  individual_risks : Z;
  channels_analyzed : Z
}.

Record Response := {
  summary : Summary;
  alerts : list Alert;
  insights : list Insight;
  saved : list SavedAlert
}.

(** The alerts, insights and summary of the handler [POST], from the
    channel summaries and burnout risks that it reads.  Its weekly
    insight, a text made from the weekly trends, is left out. *)
Definition POST (channels : list ChannelSummary) (burnoutRisks : BurnoutRisks)
  : Response :=
  let st := fold_left (streak_step channels)
              (consecutive_low_channels burnoutRisks) ([], []) in
  let alerts1 := fold_left (trend_step channels)
                   (declining_trend_channels burnoutRisks) (fst st) in
  let insights := map user_insight (at_risk_users burnoutRisks) in
  let alerts2 := fold_left channel_step channels alerts1 in
  {| summary :=
       {| critical_alerts := COUNT (filter is_critical alerts2);
          warning_alerts := COUNT (filter is_warning_or_high alerts2);
          individual_risks := COUNT (at_risk_users burnoutRisks);
          channels_analyzed := COUNT channels |};
     alerts := alerts2;
     insights := insights;
     saved := snd st |}.

(** The severities of the alerts pushed by the loop over [channels]. *)
Definition threshold_severity (a : Alert) : Prop :=
  severity a = high \/ severity a = medium.

End Alerts.

(* ------------------------------------------------------------------ *)
(** ** Reactions of [src/app/api/slack/messages/route.ts] *)
(* ------------------------------------------------------------------ *)

Module Slack.
Local Open Scope Q_scope.

(** A JavaScript number: a rational or [NaN]. *)
Inductive Number :=
| Num (q : Q)
| NaN.

(** The JavaScript values that a property read on [emojiMap] can give. *)
Inductive JsValue :=
| JsUndefined
| JsNumber (n : Number)
| JsFunction (name : string)
| JsObject (name : string).

(** The own properties of the object literal [emojiMap]. *)
Definition emojiMap : list (string * Q) := [
  (* Very Positive (9-10) *)
  ("joy", 10); ("grinning", 9); ("heart_eyes", 10); ("heart", 9); ("tada", 10);
  ("fire", 9); ("rocket", 9); ("star", 9); ("sparkles", 9); ("clap", 9);
  ("raised_hands", 9); ("muscle", 9); ("trophy", 10); ("crown", 9);
  (* Positive (7-8) *)
  ("smile", 8); ("thumbsup", 8); ("+1", 8); ("ok_hand", 7); ("wave", 7);
  ("wink", 7); ("relaxed", 7); ("blush", 7); ("sunglasses", 8); ("cool", 8);
  ("laughing", 8); ("smiley", 8); ("grin", 8); ("beaming_face_with_smiling_eyes", 8);
  (* Slightly Positive (6) *)
  ("slightly_smiling_face", 6); ("upside_down_face", 6); ("innocent", 6);
  (* Neutral (5) *)
  ("thinking_face", 5); ("neutral_face", 5); ("expressionless", 5); ("shrug", 5);
  ("face_with_raised_eyebrow", 5); ("eyes", 5); ("zipper_mouth_face", 5);
  (* Slightly Negative (4) *)
  ("confused", 4); ("unamused", 4); ("rolling_eyes", 4); ("grimacing", 4);
  ("hushed", 4); ("flushed", 4);
  (* Negative (2-3) *)
  ("disappointed", 3); ("worried", 3); ("frowning", 3); ("pensive", 3);
  ("tired_face", 3); ("weary", 2); ("persevere", 3); ("confounded", 2);
  ("thumbsdown", 2); ("-1", 2); ("no_good", 2); ("x", 2);
  (* Very Negative (1-2) *)
  ("cry", 2); ("sob", 1); ("angry", 1); ("rage", 1); ("face_with_symbols_on_mouth", 1);
  ("triumph", 2); ("disappointed_relieved", 2); ("fearful", 1); ("cold_sweat", 2);
  (* Work/Productivity Context *)
  ("coffee", 6); ("computer", 6); ("memo", 6); ("calendar", 5); ("clock", 5);
  ("hourglass_flowing_sand", 4); ("alarm_clock", 4); ("sos", 2); ("warning", 3);
  (* Team/Collaboration *)
  ("handshake", 8); ("raised_hand", 7); ("point_up", 6); ("heavy_check_mark", 8);
  ("white_check_mark", 8); ("ballot_box_with_check", 7); ("question", 5);
  ("exclamation", 4); ("double_exclamation_mark", 3)
]%string.

(** [emojiMap] is written as an object literal, so its prototype is
    [Object.prototype] and a property read that finds no own property
    goes on to the properties found there. *)
Definition Object_prototype : list (string * JsValue) := [
  ("constructor", JsFunction "Object");
  ("__defineGetter__", JsFunction "__defineGetter__");
  ("__defineSetter__", JsFunction "__defineSetter__");
  ("hasOwnProperty", JsFunction "hasOwnProperty");
  ("__lookupGetter__", JsFunction "__lookupGetter__");
  ("__lookupSetter__", JsFunction "__lookupSetter__");
  ("isPrototypeOf", JsFunction "isPrototypeOf");
  ("propertyIsEnumerable", JsFunction "propertyIsEnumerable");
  ("toString", JsFunction "toString");
  ("valueOf", JsFunction "valueOf");
  ("__proto__", JsObject "Object.prototype");
  ("toLocaleString", JsFunction "toLocaleString")
]%string.

Definition lookup {V : Type} (props : list (string * V)) (name : string)
  : option V :=
  option_map snd (find (fun p => String.eqb (fst p) name) props).

(** The property read [emojiMap[emoji]]. *)
Definition get (emoji : string) : JsValue :=
  match lookup emojiMap emoji with
  | Some q => JsNumber (Num q)
  | None =>
      match lookup Object_prototype emoji with
      | Some v => v
      | None => JsUndefined
      end
  end.

Definition truthy (v : JsValue) : bool :=
  match v with
  | JsUndefined => false
  | JsNumber (Num q) => negb (Qeq_bool q 0)
  | JsNumber NaN => false
  | JsFunction _ => true
  | JsObject _ => true
  end.

(** [return emojiMap[emoji] || 5]. *)
Definition getEmojiSentiment (emoji : string) : JsValue :=
  let v := get emoji in
  if truthy v then v else JsNumber (Num 5).

(** The conversion that [*] applies to its operands: a function or a
    plain object becomes [NaN]. *)
Definition ToNumber (v : JsValue) : Number :=
  match v with
  | JsNumber n => n
  | _ => NaN
  end.

Definition mul (a b : Number) : Number :=
  match a, b with
  | Num x, Num y => Num (x * y)
  | _, _ => NaN
  end.

Definition add (a b : Number) : Number :=
  match a, b with
  | Num x, Num y => Num (x + y)
  | _, _ => NaN
  end.

Definition div (a : Number) (n : Z) : Number :=
  match a with
  | Num x => Num (x / inject_Z n)
  | NaN => NaN
  end.

Record Reaction := {
  name : string;
  count : N
}.

(** The loop over [message.reactions]: the state is
    ([reactionSentimentSum], [reactionCount]); [reaction.count || 1]
    reads a zero count as one. *)
Definition reaction_step (st : Number * Z) (reaction : Reaction) : Number * Z :=
  let emojiSentiment := getEmojiSentiment (name reaction) in
  let count := if (count reaction =? 0)%N then 1%Z else Z.of_N (count reaction) in
  (add (fst st) (mul (ToNumber emojiSentiment) (Num (inject_Z count))),
   (snd st + count)%Z).

(** The score stored for a message whose text score is [text_score]:
    70% text and 30% reactions when there is a reaction. *)
Definition combinedSentiment (text_score : Q) (reactions : list Reaction)
  : Number :=
  let st := fold_left reaction_step reactions (Num 0, 0%Z) in
  if (0 <? snd st)%Z
  then
    let avgReactionSentiment := div (fst st) (snd st) in
    add (mul (Num text_score) (Num (7#10))) (mul avgReactionSentiment (Num (3#10)))
  else Num text_score.

(** The handler stores every message with the placeholder score 5. *)
Definition placeholder_score : Q := 5.

Definition stored_sentiment (reactions : list Reaction) : Number :=
  combinedSentiment placeholder_score reactions.

Definition in_range (n : Number) : Prop :=
  match n with
  | Num q => 1 <= q <= 10
  | NaN => False
  end.

End Slack.

(* ------------------------------------------------------------------ *)
(** ** The specification's wording, for comparison with the queries *)
(* ------------------------------------------------------------------ *)

Module Spec.
Import Sql Database.
Local Open Scope Q_scope.

(** "week start = most recent Sunday <= date". *)
Definition most_recent_sunday (date : Z) : Z := (date - Calendar.weekday date)%Z.

(** "filter to window, group by [user_id]": the messages of user [u]
    in the seven-day window. *)
Definition user_messages (now : Z) (messages : list Message) (u : string)
  : list Message :=
  filter (fun m => String.eqb (user_id m) u) (filter (since now 7) messages).

(** "[negative_pct] (share of that user's messages with score<4)". *)
Definition negative_pct (ms : list Message) : Q :=
  inject_Z (COUNT_CASE is_negative ms) * 100 / inject_Z (COUNT ms).

(** "Flag at-risk when [mean_sentiment < 4.5 AND negative_pct > 30]",
    for "any user with >=1 qualifying message". *)
Definition at_risk (now : Z) (messages : list Message) (u : string) : Prop :=
  let ms := user_messages now messages u in
  ms <> [] /\ AVG (scores ms) < 9#2 /\ 30 < negative_pct ms.


(** "Assign each retained bucket an integer index x (0..n-1) in date
    order". *)
Fixpoint indexed_from (x : Z) (ys : list Q) : list (Z * Q) :=
  match ys with
  | [] => []
  | y :: rest => (x, y) :: indexed_from (x + 1) rest
  end.

(** "slope = (n S(xy) - Sx Sy) / (n S(x^2) - (Sx)^2)", without a value
    when the denominator is zero. *)
Definition slope (ys : list Q) : option Q :=
  let points := indexed_from 0 ys in
  let n := COUNT points in
  let sx := SUMZ (map fst points) in
  let sxx := SUMZ (map (fun p => fst p * fst p)%Z points) in
  let sy := SUM (map snd points) in
  let sxy := SUM (map (fun p => inject_Z (fst p) * snd p) points) in
  if (n * sxx - sx * sx =? 0)%Z then None
  else Some ((inject_Z n * sxy - inject_Z sx * sy) / inject_Z (n * sxx - sx * sx)).


End Spec.

(* ------------------------------------------------------------------ *)
(** ** The results, read key by key *)
(* ------------------------------------------------------------------ *)

Module Views.
Import Sql Database.
Local Open Scope Q_scope.

Definition of_channel (c : string) (r : DailySentiment) : bool :=
  String.eqb (ds_channel_id r) c.

(** The daily buckets of channel [c] in the streak query's window. *)
Definition daily_buckets (now : Z) (messages : list Message) (c : string)
  : list DailySentiment :=
  filter (of_channel c) (streak_daily_sentiment now messages).

(** Those of them whose mean is below 4.0. *)
Definition low_days (now : Z) (messages : list Message) (c : string)
  : list DailySentiment :=
  filter is_low (daily_buckets now messages c).

(** The streaks reported for channel [c]. *)
Definition streaks_of (now : Z) (messages : list Message) (c : string)
  : list Streak :=
  filter (fun s => String.eqb (st_channel_id s) c) (consecutiveLowDays now messages).

(** A row of [low_sentiment_days] whose [grp] is 0. *)
Definition low_day_0 (r : DailySentiment) : LowSentimentDay :=
  {| lsd_channel_id := ds_channel_id r;
     lsd_date := ds_date r;
     lsd_daily_sentiment := daily_sentiment r;
     grp := 0 |}.

Definition by_date (a b : DailySentiment) : bool := (ds_date a <=? ds_date b)%Z.

(** The days of channel [c] that the trend query keeps: the days of
    the five-day window on which the channel has three messages or
    more. *)
Definition trend_days_of (now : Z) (messages : list Message) (c : string)
  : list DailySentiment :=
  filter (of_channel c) (trend_days now messages).

(** Their daily means, in date order. *)
Definition trend_series (now : Z) (messages : list Message) (c : string)
  : list Q :=
  map daily_sentiment (ORDER_BY by_date (trend_days_of now messages c)).

(** The points ([k], y0), ([k]+1, y1), .. of a series. *)
Fixpoint numbered_from (k : Z) (ys : list Q) : list (Z * Q) :=
  match ys with
  | [] => []
  | y :: rest => (k, y) :: numbered_from (k + 1) rest
  end.

(** The points of a series as [day_num] numbers them: from 1. *)
Definition numbered (ys : list Q) : list (Z * Q) := numbered_from 1 ys.

(** The denominator of [slope_of]. *)
Definition slope_den (points : list (Z * Q)) : Z :=
  (COUNT points * SUMZ (map (fun x => x * x) (map fst points))
   - SUMZ (map fst points) * SUMZ (map fst points))%Z.

(** The numerator of [slope_of]. *)
Definition slope_num (points : list (Z * Q)) : Q :=
  inject_Z (COUNT points) * SUM (map (fun p => inject_Z (fst p) * snd p) points)
  - inject_Z (SUMZ (map fst points)) * SUM (map snd points).


(** The number that [ROW_NUMBER() OVER (ORDER BY date)] gives to [r]
    among [rows]. *)
Definition before_count (rows : list DailySentiment) (r : DailySentiment) : Z :=
  (1 + COUNT (filter (fun r' => earlier r' r) rows))%Z.


Definition channel_and_date (r : DailySentiment) : string * Z :=
  (ds_channel_id r, ds_date r).


End Views.

(* ------------------------------------------------------------------ *)
(** ** Sample inputs *)
(* ------------------------------------------------------------------ *)

Module Samples.
Import Database.
Local Open Scope Q_scope.

Definition msg (c u : string) (day : Z) (score : Q) : Message :=
  {| id := 0;
     channel_id := c;
     user_id := u;
     text := EmptyString;
     timestamp := {| ts_day := day; ts_ms := 0 |};
     sentiment_score := score |}.

(** One message of user [u] in channel [c] on each of the days
    [day], [day + 1], .. with the scores of [l]. *)
Fixpoint one_a_day (c u : string) (day : Z) (l : list Q) : list Message :=
  match l with
  | [] => []
  | s :: rest => msg c u day s :: one_a_day c u (day + 1) rest
  end.

(** Monday the first of January 2024. *)
Definition jan_1_2024 : Z := 2460311.

(** Wednesday the third of January 2024. *)
Definition jan_3_2024 : Z := 2460313.

(** Eight days in a row in channel C1, with the means 3 3 3 5 2 2 2 2;
    the last of them is the current day. *)
Definition eight_days : list Message :=
  one_a_day "C1" "U1" jan_1_2024 [3; 3; 3; 5; 2; 2; 2; 2].

Definition eighth_day : Z := (jan_1_2024 + 7)%Z.

(** Two low days, a day without any message, two low days. *)
Definition gap_days : list Message :=
  (one_a_day "C1" "U1" jan_1_2024 [3; 3]
   ++ one_a_day "C1" "U1" (jan_1_2024 + 3) [2; 2])%list.

Definition after_gap : Z := (jan_1_2024 + 4)%Z.

(** Three days of channel C1 with three messages each; the daily means
    are 3, 2 and 1.  The last of them is the current day. *)
Definition sinking_days : list Message :=
  (one_a_day "C1" "U1" jan_1_2024 [3; 2; 1]
   ++ one_a_day "C1" "U2" jan_1_2024 [3; 2; 1]
   ++ one_a_day "C1" "U3" jan_1_2024 [3; 2; 1])%list.

Definition channels_table : list Channel :=
  [ {| chan_id := "C1"; chan_name := "general" |} ].

(** Messages of one user in one channel on one day. *)
Definition same_day (c u : string) (day : Z) (l : list Q) : list Message :=
  map (msg c u day) l.

(** Ten messages, four of them below 4, with mean 4.2. *)
Definition four_of_ten : list Message :=
  same_day "C1" "U1" jan_1_2024 [3; 3; 3; 3; 5; 5; 5; 5; 5; 5].

(** Ten messages, two of them below 4, with mean 4.2. *)
Definition two_of_ten : list Message :=
  same_day "C1" "U1" jan_1_2024 [3; 3; 4; 4; 4; 4; 5; 5; 5; 5].

(** 203 messages, 61 of them below 4: a share of 30.049..%. *)
Definition sixty_one_of_203 : list Message :=
  same_day "C1" "U1" jan_1_2024 (repeat 1 61 ++ repeat 4 142).


(** Five days of channel C1 with three messages each; the daily means
    are 2, 3, 4, 5 and 6. *)
Definition rising_days : list Message :=
  (one_a_day "C1" "U1" jan_1_2024 [2; 3; 4; 5; 6]
   ++ one_a_day "C1" "U2" jan_1_2024 [2; 3; 4; 5; 6]
   ++ one_a_day "C1" "U3" jan_1_2024 [2; 3; 4; 5; 6])%list.

(** Three days of channel C1 with three messages each, all scored 5. *)
Definition flat_days : list Message :=
  (one_a_day "C1" "U1" jan_1_2024 [5; 5; 5]
   ++ one_a_day "C1" "U2" jan_1_2024 [5; 5; 5]
   ++ one_a_day "C1" "U3" jan_1_2024 [5; 5; 5])%list.

(** Noon of Wednesday the third of January 2024. *)
Definition noon_jan_3_2024 : Timestamp :=
  {| ts_day := jan_3_2024; ts_ms := 43200000 |}.

(** A message of Wednesday the third of January 2024. *)
Definition wednesday_message : Message := msg "C1" "U1" jan_3_2024 5.

Definition two_channels : list Channel :=
  [ {| chan_id := "C1"; chan_name := "general" |};
    {| chan_id := "C2"; chan_name := "random" |} ].

(** A day with a positive, a neutral and a negative message. *)
Definition mixed_day : list Message :=
  [msg "C1" "U1" jan_1_2024 8; msg "C1" "U2" jan_1_2024 5;
   msg "C2" "U1" jan_1_2024 2]%string.

End Samples.

(* ------------------------------------------------------------------ *)
(** ** Binary64 arithmetic of JavaScript *)
(* ------------------------------------------------------------------ *)

(** A JavaScript number is a binary64 number, and an operation returns
    the binary64 number that is nearest to its exact result.  Where a
    result of the code hangs on this rounding, the operation is
    written with [round].  A number is kept as the rational that it
    is; overflow, the subnormal range, NaN and the sign of zero are
    left out. *)
Module Binary64.
Local Open Scope Q_scope.

(** The position of the leading bit of a positive number: the [e] with
    [2 ^ e <= x < 2 ^ (e + 1)]. *)
Definition exponent (x : Q) : Z :=
  let e := (Z.log2 (Qnum x) - Z.log2 (Z.pos (Qden x)))%Z in
  if Qle_bool (2 ^ e) x then e else (e - 1)%Z.

(** The nearest integer; of two nearest ones, the even one. *)
Definition nearest_even (x : Q) : Z :=
  let f := Qfloor x in
  match Qcompare (x - inject_Z f) (1 # 2) with
  | Lt => f
  | Gt => (f + 1)%Z
  | Eq => if Z.even f then f else (f + 1)%Z
  end.

(** The binary64 number nearest to [x]: a significand of 53 bits, and
    of two nearest numbers the one with the even significand. *)
Definition round (x : Q) : Q :=
  let x := Qred x in
  if Qeq_bool x 0 then 0
  else
    let ulp := 2 ^ (exponent (Qabs x) - 52) in
    inject_Z (Z.sgn (Qnum x) * nearest_even (Qabs x / ulp)) * ulp.

(** [a + b], [a - b], [a / b] and [a * b] on binary64 numbers. *)
Definition add (a b : Q) : Q := round (a + b).
Definition sub (a b : Q) : Q := round (a - b).
Definition div (a b : Q) : Q := round (a / b).
Definition mul (a b : Q) : Q := round (a * b).

(** The kernel of Rocq has the binary64 numbers as its floats;
    [of_float] is the number that a finite float is, and [quotient n d]
    is the float nearest to [n / d], for two integers that floats
    hold.  They serve to compare [round] with the kernel. *)
Definition of_float (f : PrimFloat.float) : option Q :=
  match FloatOps.Prim2SF f with
  | SpecFloat.S754_zero _ => Some 0
  | SpecFloat.S754_finite s m e =>
      Some ((if s then -1 else 1) * inject_Z (Z.pos m) * 2 ^ e)
  | SpecFloat.S754_infinity _ => None
  | SpecFloat.S754_nan => None
  end.

Definition quotient (n d : Z) : PrimFloat.float :=
  PrimFloat.div (PrimFloat.of_uint63 (Uint63.of_Z n))
    (PrimFloat.of_uint63 (Uint63.of_Z d)).

(** Whether [round (n / d)] is the float [quotient n d]. *)
Definition agrees (n d : Z) : bool :=
  match of_float (quotient n d) with
  | Some x => Qeq_bool x (round (inject_Z n / inject_Z d))
  | None => false
  end.

End Binary64.

(* ------------------------------------------------------------------ *)
(** ** The tables of [src/lib/database.ts] and the statements on them *)
(* ------------------------------------------------------------------ *)

Module Storage.
Import Sql Database.
Local Open Scope Q_scope.

(** A row of [channels]. *)
Record ChannelRow := {
  row_id : string;
  row_name : string;
  is_active : bool;
  alert_threshold : Q
}.

(** A row of [alerts].  The column [message] is display text and is
    left out, as in [Alerts.SavedAlert].  [created_at] reads
    [YYYY-MM-DD HH:MM:SS] in UTC; it is kept as a number of seconds,
    which orders it as the text does. *)
Record AlertRow := {
  alert_id : Z;
  alert_channel_id : string;
  alert_type : Alerts.AlertType;
  created_at : Z;
  is_resolved : bool
}.

(** The database: the rows of each table in [rowid] order, and the
    [sqlite_sequence] entries of the two [AUTOINCREMENT] tables used
    here.  The column [created_at] of [messages] is read by no
    statement and is left out of [Message]. *)
Record Tables := {
  channels : list ChannelRow;
  messages : list Message;
  alerts : list AlertRow;
  messages_seq : Z;
  alerts_seq : Z
}.

(** The database after [initializeDatabase] created the tables. *)
Definition empty : Tables :=
  {| channels := []; messages := []; alerts := [];
     messages_seq := 0; alerts_seq := 0 |}.

Definition channel_of (r : ChannelRow) : Channel :=
  {| chan_id := row_id r; chan_name := row_name r |}.

(** [channelId ? .. : ..]: [undefined] and the empty string are falsy. *)
Definition given (channelId : option string) : option string :=
  match channelId with
  | Some c => if String.eqb c EmptyString then None else Some c
  | None => None
  end.

(** [LIMIT n]: a negative [n] sets no limit. *)
Definition LIMIT {A} (n : Z) (rows : list A) : list A :=
  if (n <? 0)%Z then rows else firstn (Z.to_nat n) rows.

(** [INTEGER PRIMARY KEY AUTOINCREMENT]: one more than the largest
    [rowid] that the table holds or ever held. *)
Definition next_rowid (seq : Z) (rowids : list Z) : Z :=
  (Z.max seq (fold_right Z.max 0 rowids) + 1)%Z.

(** *** getChannels, saveChannel *)

(** [SELECT * FROM channels ORDER BY name]. *)
Definition getChannels (t : Tables) : list ChannelRow :=
  ORDER_BY (fun a b => String.leb (row_name a) (row_name b)) (channels t).

(** [INSERT OR REPLACE INTO channels (id, name) VALUES (?, ?)]: the
    row that holds the primary key is deleted, and a new row is
    inserted with the defaults of the columns that are not named. *)
Definition saveChannel (channel : Channel) (t : Tables) : Tables :=
  {| channels :=
       filter (fun r => negb (String.eqb (row_id r) (chan_id channel)))
         (channels t)
       ++ [ {| row_id := chan_id channel;
               row_name := chan_name channel;
               is_active := true;
               alert_threshold := 4 |} ];
     messages := messages t;
     alerts := alerts t;
     messages_seq := messages_seq t;
     alerts_seq := alerts_seq t |}.

(** *** getMessages, saveMessage *)

(** [ORDER BY timestamp DESC]. *)
Definition newest_first (a b : Message) : bool :=
  ts_leb (timestamp b) (timestamp a).

Definition getMessages (channelId : option string) (limit : Z) (t : Tables)
  : list Message :=
  match given channelId with
  | Some c =>
      LIMIT limit
        (ORDER_BY newest_first
           (filter (fun m => String.eqb (channel_id m) c) (messages t)))
  | None => LIMIT limit (ORDER_BY newest_first (messages t))
  end.

(** The row that [INSERT INTO messages (channel_id, user_id, text,
    timestamp, sentiment_score)] writes for [message]. *)
Definition message_row (rowid : Z) (message : Message) : Message :=
  {| id := rowid;
     channel_id := channel_id message;
     user_id := user_id message;
     text := text message;
     timestamp := timestamp message;
     sentiment_score := sentiment_score message |}.

(** The result is [lastID], from [SELECT last_insert_rowid()], and the
    database after the insertion. *)
Definition saveMessage (message : Message) (t : Tables) : Z * Tables :=
  let lastID := next_rowid (messages_seq t) (map id (messages t)) in
  (lastID,
   {| channels := channels t;
      messages := messages t ++ [message_row lastID message];
      alerts := alerts t;
      messages_seq := lastID;
      alerts_seq := alerts_seq t |}).

(** *** getAlerts, saveAlert *)

(** [WHERE channel_id = ? AND is_resolved = 0], or [WHERE is_resolved
    = 0] alone. *)
Definition unresolved_of (channelId : option string) (a : AlertRow) : bool :=
  match given channelId with
  | Some c => String.eqb (alert_channel_id a) c && negb (is_resolved a)
  | None => negb (is_resolved a)
  end.

Definition getAlerts (channelId : option string) (t : Tables) : list AlertRow :=
  ORDER_BY (fun a b => (created_at b <=? created_at a)%Z)
    (filter (unresolved_of channelId) (alerts t)).

(** [INSERT INTO alerts (channel_id, alert_type, message)] at the
    instant [now]: [created_at] and [is_resolved] take their defaults,
    [CURRENT_TIMESTAMP] and 0. *)
Definition saveAlert (alert : Alerts.SavedAlert) (now : Z) (t : Tables) : Tables :=
  let rowid := next_rowid (alerts_seq t) (map alert_id (alerts t)) in
  {| channels := channels t;
     messages := messages t;
     alerts :=
       alerts t
       ++ [ {| alert_id := rowid;
               alert_channel_id := Alerts.sa_channel_id alert;
               alert_type := Alerts.sa_alert_type alert;
               created_at := now;
               is_resolved := false |} ];
     messages_seq := messages_seq t;
     alerts_seq := rowid |}.

(** The rows that the handler [POST] of the alerts route saves, one
    call of [saveAlert] after the other. *)
Definition saveAlerts (rows : list Alerts.SavedAlert) (now : Z) (t : Tables)
  : Tables :=
  fold_left (fun t alert => saveAlert alert now t) rows t.

(** *** getChannelSentimentTrend *)

Record ChannelTrendDay := {
  ctd_date : Z;
  ctd_avg_sentiment : Q;
  ctd_message_count : Z;
  ctd_active_users : Z;
  ctd_min_sentiment : Q;
  ctd_max_sentiment : Q;
  ctd_negative_percentage : Q
}.

Definition channel_trend_row (g : Z * list Message) : ChannelTrendDay :=
  let (date, ms) := g in
  {| ctd_date := date;
     ctd_avg_sentiment := AVG (scores ms);
     ctd_message_count := COUNT ms;
     ctd_active_users := COUNT_DISTINCT string_dec (map user_id ms);
     ctd_min_sentiment := MINQ (scores ms);
     ctd_max_sentiment := MAXQ (scores ms);
     ctd_negative_percentage :=
       ROUND (inject_Z (COUNT_CASE is_negative ms) * 100 / inject_Z (COUNT ms)) 2 |}.

Definition getChannelSentimentTrend (channelId : string) (days : Z) (now : Z)
  (messages : list Message) : list ChannelTrendDay :=
  let rows :=
    filter (fun m => String.eqb (channel_id m) channelId && since now days m)
      messages in
  let groups := group_by Z.eq_dec (fun m => DATE (timestamp m)) rows in
  ORDER_BY (fun a b => (ctd_date a <=? ctd_date b)%Z)
    (map channel_trend_row groups).

End Storage.

(* ------------------------------------------------------------------ *)
(** ** The tables of the key-value backend *)
(* ------------------------------------------------------------------ *)

(** The rest of [database-kv]: the channel list under the key
    [channels], the messages of a channel under [messages:<channel
    id>], the alerts under [alerts].  As in [DatabaseKV], the message
    arrays are kept as one list, in the order of their [push]; the
    array of a channel is [DatabaseKV.stored].  A failure of the store,
    which every function catches, is not modelled. *)
Module StorageKV.
Import Sql Database Storage.
Local Open Scope Q_scope.

Record Store := {
  kv_channels : list ChannelRow;
  kv_messages : list Message;
  kv_alerts : list AlertRow
}.

(** The store after [initializeDatabase]: [channels] is set to the
    empty array, and a key that was never set reads as the empty
    array. *)
Definition empty : Store :=
  {| kv_channels := []; kv_messages := []; kv_alerts := [] |}.

(** [Date.now() + Math.floor(Math.random() * 1000)], "Helper function
    to generate unique IDs"; [now] is in milliseconds and [random] is
    the value of [Math.random()], at least 0 and below 1. *)
Definition generateId (now : Z) (random : Q) : Z :=
  (now + Qfloor (random * 1000))%Z.

(** *** getChannels, saveChannel *)

Definition getChannels (s : Store) : list ChannelRow := kv_channels s.

(** [channels.findIndex(p)]: -1 when no element passes. *)
Fixpoint findIndex {A} (p : A -> bool) (l : list A) : Z :=
  match l with
  | [] => (-1)%Z
  | x :: rest =>
      if p x then 0%Z
      else let i := findIndex p rest in
           if (i <? 0)%Z then (-1)%Z else (i + 1)%Z
  end.

(** [l[i] = x], for an index inside the array. *)
Fixpoint assign {A} (i : nat) (x : A) (l : list A) : list A :=
  match l, i with
  | [], _ => []
  | _ :: rest, O => x :: rest
  | y :: rest, S i => y :: assign i x rest
  end.

(** The spread of the old element under [newChannel] leaves the four
    fields of [newChannel]. *)
Definition saveChannel (channel : Channel) (s : Store) : Store :=
  let channels := getChannels s in
  let existingIndex :=
    findIndex (fun c => String.eqb (row_id c) (chan_id channel)) channels in
  let newChannel :=
    {| row_id := chan_id channel;
       row_name := chan_name channel;
       is_active := true;
       alert_threshold := 4 |} in
  {| kv_channels :=
       if (0 <=? existingIndex)%Z
       then assign (Z.to_nat existingIndex) newChannel channels
       else channels ++ [newChannel];
     kv_messages := kv_messages s;
     kv_alerts := kv_alerts s |}.

(** *** getMessages, saveMessage *)

(** [l.slice(0, limit)]: a negative [limit] counts from the end. *)
Definition slice_to {A} (limit : Z) (l : list A) : list A :=
  if (limit <? 0)%Z then firstn (Z.to_nat (COUNT l + limit)) l
  else firstn (Z.to_nat limit) l.

(** [.sort((a, b) => new Date(b.timestamp).getTime() - new
    Date(a.timestamp).getTime())]; the sort is stable. *)
Definition getMessages (channelId : option string) (limit : Z) (s : Store)
  : list Message :=
  match given channelId with
  | Some c =>
      slice_to limit
        (ORDER_BY newest_first
           (filter (fun m => String.eqb (channel_id m) c) (kv_messages s)))
  | None =>
      let allMessages :=
        flat_map (fun channel => DatabaseKV.stored (kv_messages s)
                                   (channel_of channel)) (getChannels s) in
      slice_to limit (ORDER_BY newest_first allMessages)
  end.

(** [id] is the value of [generateId()]. *)
Definition saveMessage (message : Message) (id : Z) (s : Store) : Z * Store :=
  (id,
   {| kv_channels := kv_channels s;
      kv_messages := kv_messages s ++ [message_row id message];
      kv_alerts := kv_alerts s |}).

(** *** getAlerts, saveAlert *)

Definition getAlerts (channelId : option string) (s : Store) : list AlertRow :=
  filter (unresolved_of channelId) (kv_alerts s).

Definition saveAlert (alert : Alerts.SavedAlert) (id : Z) (now : Z) (s : Store)
  : Store :=
  {| kv_channels := kv_channels s;
     kv_messages := kv_messages s;
     kv_alerts :=
       kv_alerts s
       ++ [ {| alert_id := id;
               alert_channel_id := Alerts.sa_channel_id alert;
               alert_type := Alerts.sa_alert_type alert;
               created_at := now;
               is_resolved := false |} ] |}.

(** *** getChannelSummary *)

(** The summary of one channel, when it has a message in the window.
    [lastMessage] is the head of the messages sorted newest first. *)
Definition summary_of (now : Timestamp) (messages : list Message)
  (channel : Channel) : list ChannelSummary :=
  let recentMessages :=
    filter (DatabaseKV.recent now 7) (DatabaseKV.stored messages channel) in
  match ORDER_BY newest_first recentMessages with
  | lastMessage :: _ =>
      [ {| cs_id := chan_id channel;
           cs_name := chan_name channel;
           cs_avg_sentiment := DatabaseKV.mean recentMessages;
           cs_total_messages := COUNT recentMessages;
           last_message := timestamp lastMessage;
           cs_active_users :=
             COUNT_DISTINCT string_dec (map user_id recentMessages);
           cs_burnout_risk_percentage :=
             DatabaseKV.percent is_negative recentMessages |} ]
  | [] => []
  end.

(** [summaries.sort((a, b) => a.avg_sentiment - b.avg_sentiment)]. *)
Definition getChannelSummary (now : Timestamp) (channels : list Channel)
  (messages : list Message) : list ChannelSummary :=
  ORDER_BY (fun a b => Qle_bool (cs_avg_sentiment a) (cs_avg_sentiment b))
    (flat_map (summary_of now messages) channels).

End StorageKV.

(* ------------------------------------------------------------------ *)
(** ** The weekly insight of [src/app/api/alerts/route.ts] *)
(* ------------------------------------------------------------------ *)

Module Insights.
Import Sql Database Alerts.
Local Open Scope Q_scope.

(** ['improving'], ['declining'], ['stable']. *)
Inductive TrendDirection := Improving | Declining | Stable.

(** [a[a.length - k]], for [k] from 1. *)
Definition from_end {A} (k : nat) (a : list A) : option A :=
  nth_error (rev a) (k - 1).

(** The lines of the executive summary, in the place of their text:
    the title; ["<n> critical burnout risk(s) detected - immediate
    intervention required."]; ["<n> moderate concern(s) identified -
    preventive action recommended."]; ["No immediate sentiment risks
    detected. Team morale appears stable."]; ["Weekly trend: Improving
    sentiment patterns."] or ["Weekly trend: Declining sentiment
    patterns."]; the focus areas. *)
Inductive SummaryLine :=
| Title
| CriticalRisks (criticalCount : Z)
| ModerateConcerns (warningCount : Z)
| NoImmediateRisks
| WeeklyTrend (improving : bool)
| FocusAreas.

Definition generateExecutiveSummary (alerts : list Alert)
  (weeklyTrends : list WeeklyMood) : list SummaryLine :=
  let criticalCount := COUNT (filter is_critical alerts) in
  let warningCount := COUNT (filter is_warning_or_high alerts) in
  [Title]
  ++ (if (0 <? criticalCount)%Z then [CriticalRisks criticalCount] else [])
  ++ (if (0 <? warningCount)%Z then [ModerateConcerns warningCount] else [])
  ++ (if (criticalCount =? 0)%Z && (warningCount =? 0)%Z
      then [NoImmediateRisks] else [])
  ++ match from_end 1 weeklyTrends, from_end 2 weeklyTrends with
     | Some current, Some previous =>
         [WeeklyTrend (Qltb (weekly_mood previous) (weekly_mood current))]
     | _, _ => []
     end
  ++ [FocusAreas].

Record WeeklyInsight := {
  current_week_mood : Q;
  trend_direction : TrendDirection;
  total_contributors : Z;
  executive_summary : list SummaryLine
}.

(** [weeklyTrends.length > 0 ? {..} : null]. *)
Definition weeklyInsight (alerts : list Alert) (weeklyTrends : list WeeklyMood)
  : option WeeklyInsight :=
  match from_end 1 weeklyTrends with
  | Some current =>
      Some {| current_week_mood := weekly_mood current;
              trend_direction :=
                match from_end 2 weeklyTrends with
                | Some previous =>
                    if Qltb (weekly_mood previous) (weekly_mood current)
                    then Improving else Declining
                | None => Stable
                end;
              total_contributors := unique_contributors current;
              executive_summary :=
                generateExecutiveSummary alerts weeklyTrends |}
  | None => None
  end.

(** The handler [POST] on the database: what it returns, and the
    database after the alerts were saved at the instant [created] of
    the day [now]. *)
Definition handle_POST (now : Z) (created : Z) (t : Storage.Tables)
  : Response * option WeeklyInsight * Storage.Tables :=
  let messages := Storage.messages t in
  let channels :=
    getChannelSummary now (map Storage.channel_of (Storage.channels t))
      messages in
  let burnoutRisks := detectBurnoutRisks now messages in
  let weeklyTrends := getWeeklyMoodTrends 4 now messages in
  let response := POST channels burnoutRisks in
  (response,
   weeklyInsight (alerts response) weeklyTrends,
   Storage.saveAlerts (saved response) created t).

End Insights.

(* ------------------------------------------------------------------ *)
(** ** The dashboard of [src/app/api/dashboard/route.ts] *)
(* ------------------------------------------------------------------ *)

Module Dashboard.
Import Sql Database.
Local Open Scope Q_scope.

(** ['positive'], ['neutral'], ['negative']. *)
Inductive Label := positive | neutral | negative.

(** [score >= 7 ? 'positive' : score >= 4 ? 'neutral' : 'negative']. *)
Definition label_of (score : Q) : Label :=
  if Qle_bool 7 score then positive
  else if Qle_bool 4 score then neutral
  else negative.

Record SentimentDistribution := {
  sd_positive : Z;
  sd_neutral : Z;
  sd_negative : Z
}.

(** One turn of [channelSummary.forEach]. *)
Definition count_channel (d : SentimentDistribution) (channel : ChannelSummary)
  : SentimentDistribution :=
  let sentiment := Alerts.parseFloat_or (cs_avg_sentiment channel) 5 in
  if Qle_bool 7 sentiment
  then {| sd_positive := sd_positive d + 1;
          sd_neutral := sd_neutral d;
          sd_negative := sd_negative d |}
  else if Qle_bool 4 sentiment
  then {| sd_positive := sd_positive d;
          sd_neutral := sd_neutral d + 1;
          sd_negative := sd_negative d |}
  else {| sd_positive := sd_positive d;
          sd_neutral := sd_neutral d;
          sd_negative := sd_negative d + 1 |}.

Definition sentimentDistribution (channelSummary : list ChannelSummary)
  : SentimentDistribution :=
  fold_left count_channel channelSummary
    {| sd_positive := 0; sd_neutral := 0; sd_negative := 0 |}.

(** [l.reduce(f)], under the guard [l.length > 0 ? .. : null]. *)
Definition reduce {A} (f : A -> A -> A) (l : list A) : option A :=
  match l with
  | [] => None
  | first :: rest => Some (fold_left f rest first)
  end.

Definition top_performing_channel (channelSummary : list ChannelSummary)
  : option ChannelSummary :=
  reduce (fun best current =>
            if Qltb (Alerts.parseFloat_or (cs_avg_sentiment best) 0)
                    (Alerts.parseFloat_or (cs_avg_sentiment current) 0)
            then current else best) channelSummary.

Definition most_concerning_channel (channelSummary : list ChannelSummary)
  : option ChannelSummary :=
  reduce (fun worst current =>
            if Qltb (Alerts.parseFloat_or (cs_avg_sentiment current) 10)
                    (Alerts.parseFloat_or (cs_avg_sentiment worst) 10)
            then current else worst) channelSummary.

(** [change_percentage] is the text of [toFixed(1)]; it is kept as the
    number that the text shows. *)
Record WeeklyComparison := {
  current_week : Q;
  previous_week : Q;
  change_percentage : Q
}.

(** The change in percent, as JavaScript computes it: the moods are
    binary64 numbers, and each of the three operations rounds. *)
Definition change (current_mood previous_mood divisor : Q) : Q :=
  Binary64.mul
    (Binary64.div (Binary64.sub current_mood previous_mood) divisor) 100.

(** [toFixed(1)] rounds the exact value of its binary64 argument, the
    halves away from zero. *)
Definition weekly_comparison (weeklyTrends : list WeeklyMood)
  : option WeeklyComparison :=
  match Insights.from_end 1 weeklyTrends, Insights.from_end 2 weeklyTrends with
  | Some current, Some previous =>
      let current_mood :=
        Binary64.round (Alerts.parseFloat_or (weekly_mood current) 0) in
      let previous_mood :=
        Binary64.round (Alerts.parseFloat_or (weekly_mood previous) 0) in
      let divisor :=
        Binary64.round (Alerts.parseFloat_or (weekly_mood previous) 5) in
      Some {| current_week := current_mood;
              previous_week := previous_mood;
              change_percentage :=
                ROUND (change current_mood previous_mood divisor) 1 |}
  | _, _ => None
  end.

Definition trend_direction (weeklyTrends : list WeeklyMood)
  : Insights.TrendDirection :=
  match weekly_comparison weeklyTrends with
  | Some comparison =>
      if Qltb 2 (change_percentage comparison) then Insights.Improving
      else if Qltb (change_percentage comparison) (-2) then Insights.Declining
      else Insights.Stable
  | None => Insights.Stable
  end.

(** ['good'], ['fair'], ['concerning']. *)
Inductive Health := good | fair | concerning.

(** [avg_sentiment_all_channels] and [avg_burnout_risk] are texts of
    [toFixed]; they are kept as the numbers that the texts show. *)
Record Summary := {
  total_channels : Z;
  total_messages : Z;
  total_active_users : Z;
  avg_sentiment_all_channels : Q;
  avg_burnout_risk : Q;
  sentiment_health : Health
}.

(** [l.length > 0 ? l.reduce((sum, c) => sum + (parseFloat(f(c)) ||
    0), 0) / l.length : 0]. *)
Definition average_of (f : ChannelSummary -> Q)
  (channelSummary : list ChannelSummary) : Q :=
  if (0 <? COUNT channelSummary)%Z
  then SUM (map (fun channel => Alerts.parseFloat_or (f channel) 0)
              channelSummary)
       / inject_Z (COUNT channelSummary)
  else 0.

Definition summary_of (channelSummary : list ChannelSummary) : Summary :=
  let avgSentiment := average_of cs_avg_sentiment channelSummary in
  let avgBurnoutRisk := average_of cs_burnout_risk_percentage channelSummary in
  {| total_channels := COUNT channelSummary;
     total_messages := SUMZ (map cs_total_messages channelSummary);
     total_active_users := SUMZ (map cs_active_users channelSummary);
     avg_sentiment_all_channels := ROUND avgSentiment 2;
     avg_burnout_risk := ROUND avgBurnoutRisk 1;
     sentiment_health :=
       if Qle_bool (13 # 2) avgSentiment then good
       else if Qle_bool (9 # 2) avgSentiment then fair
       else concerning |}.

Record ChannelTrend := {
  ct_channel_id : string;
  ct_channel_name : string;
  trend_data : list Storage.ChannelTrendDay
}.

(** An element of [recent_activity]; its text is cut after 80
    characters. *)
Record Activity := {
  act_channel_id : string;
  act_text : string;
  act_sentiment_score : Q;
  act_timestamp : Timestamp;
  sentiment_label : Label
}.

Definition activity_of (msg : Message) : Activity :=
  {| act_channel_id := channel_id msg;
     act_text :=
       (substring 0 80 (text msg)
        ++ (if (80 <? String.length (text msg))%nat then "..." else EmptyString))%string;
     act_sentiment_score := sentiment_score msg;
     act_timestamp := timestamp msg;
     sentiment_label := label_of (sentiment_score msg) |}.

Record Response := {
  summary : Summary;
  channels : list (ChannelSummary * Label);
  channel_trends : list ChannelTrend;
  sentiment_distribution : SentimentDistribution;
  comparison : option WeeklyComparison;
  top_performing : option ChannelSummary;
  most_concerning : option ChannelSummary;
  direction : Insights.TrendDirection;
  recent_activity : list Activity
}.

(** The handler [GET] on the database, on the day [now].  The fields
    [daily_trends] and [weekly_trends] repeat the rows of
    [getDailyMoodTrends(14)] and [getWeeklyMoodTrends(8)] and are left
    out. *)
Definition GET (now : Z) (t : Storage.Tables) : Response :=
  let messages := Storage.messages t in
  let channelSummary :=
    getChannelSummary now (map Storage.channel_of (Storage.channels t))
      messages in
  let weeklyTrends := getWeeklyMoodTrends 8 now messages in
  let recentMessages := Storage.getMessages None 10 t in
  let channelTrends :=
    map (fun channel =>
           {| ct_channel_id := cs_id channel;
              ct_channel_name := cs_name channel;
              trend_data :=
                Storage.getChannelSentimentTrend (cs_id channel) 7 now messages |})
      (firstn 3 channelSummary) in
  {| summary := summary_of channelSummary;
     channels :=
       map (fun channel =>
              (channel,
               label_of (Alerts.parseFloat_or (cs_avg_sentiment channel) 5)))
         channelSummary;
     channel_trends := channelTrends;
     sentiment_distribution := sentimentDistribution channelSummary;
     comparison := weekly_comparison weeklyTrends;
     top_performing := top_performing_channel channelSummary;
     most_concerning := most_concerning_channel channelSummary;
     direction := trend_direction weeklyTrends;
     recent_activity := map activity_of (firstn 5 recentMessages) |}.

End Dashboard.

(* ------------------------------------------------------------------ *)
(** ** The analysis of [src/app/api/sentiment/analyze/route.ts] *)
(* ------------------------------------------------------------------ *)

Module Analyze.
Import Sql Database.
Local Open Scope Q_scope.

(** ['skipped'], ['skipped_short'], ['error_invalid_score'],
    ['analyzed'], ['error']. *)
Inductive Status :=
| skipped
| skipped_short
| error_invalid_score
| analyzed
| error.

Record AnalyzedMessage := {
  am_id : Z;
  am_text : string;
  am_sentiment_score : Q;
  status : Status
}.

(** What the call of the model gives for a message: an exception, or
    the number that [parseFloat] reads in the trimmed answer. *)
Inductive Reply :=
| Threw
| Answered (sentimentScore : Slack.Number).

Record Progress := {
  analyzedMessages : list AnalyzedMessage;
  successCount : Z;
  errorCount : Z
}.

(** [s.substring(0, 100) + '...']. *)
Definition shortened (s : string) : string :=
  (substring 0 100 s ++ "...")%string.

(** [message.sentiment_score && message.sentiment_score !== 5.0 &&
    !reanalyze]: the score 0 is falsy. *)
Definition already_analyzed (reanalyze : bool) (message : Message) : bool :=
  negb (Qeq_bool (sentiment_score message) 0)
  && negb (Qeq_bool (sentiment_score message) 5)
  && negb reanalyze.

(** [isNaN(sentimentScore) || sentimentScore < 1 || sentimentScore > 10]. *)
Definition invalid (sentimentScore : Slack.Number) : bool :=
  match sentimentScore with
  | Slack.NaN => true
  | Slack.Num q => Qltb q 1 || Qltb 10 q
  end.

Definition push (st : Progress) (result : AnalyzedMessage)
  (success failure : Z) : Progress :=
  {| analyzedMessages := analyzedMessages st ++ [result];
     successCount := (successCount st + success)%Z;
     errorCount := (errorCount st + failure)%Z |}.

Section Handler.

(** The three replacements of [cleanText] and its [trim] rest on
    JavaScript's regular expressions and are not modelled; the answer
    of the model is not determined by the program.  Both are left
    open: what is proved below holds whatever they give. *)
Variable cleanText : string -> string.
Variable generateText : Message -> Reply.

(** One turn of the loop over [messages]. *)
Definition analyze_message (reanalyze : bool) (st : Progress)
  (message : Message) : Progress :=
  if already_analyzed reanalyze message
  then push st {| am_id := id message;
                  am_text := shortened (text message);
                  am_sentiment_score := sentiment_score message;
                  status := skipped |} 0 0
  else
    let clean := cleanText (text message) in
    if (String.length clean <? 3)%nat
    then push st {| am_id := id message;
                    am_text := clean;
                    am_sentiment_score := 5;
                    status := skipped_short |} 0 0
    else
      match generateText message with
      | Answered sentimentScore =>
          match sentimentScore with
          | Slack.Num score =>
              if invalid sentimentScore
              then push st {| am_id := id message;
                              am_text := shortened clean;
                              am_sentiment_score := 5;
                              status := error_invalid_score |} 0 1
              else push st {| am_id := id message;
                              am_text := shortened clean;
                              am_sentiment_score := score;
                              status := analyzed |} 1 0
          | Slack.NaN =>
              push st {| am_id := id message;
                         am_text := shortened clean;
                         am_sentiment_score := 5;
                         status := error_invalid_score |} 0 1
          end
      | Threw =>
          push st {| am_id := id message;
                     am_text := shortened (text message);
                     am_sentiment_score := 5;
                     status := error |} 0 1
      end.

Definition analyze_all (reanalyze : bool) (messages : list Message) : Progress :=
  fold_left (analyze_message reanalyze) messages
    {| analyzedMessages := []; successCount := 0; errorCount := 0 |}.

Record Report := {
  total_messages : Z;
  analyzed_count : Z;
  errors : Z;
  skipped_count : Z;
  sample_results : list AnalyzedMessage
}.

Inductive Response :=
| Status500
| Status404
| Status200 (report : Report).

(** The handler [POST]; [OPENAI_API_KEY] tells whether the key is
    configured.  [getMessages] is called with its default limit. *)
Definition POST (OPENAI_API_KEY : bool) (channelId : option string)
  (messageIds : option (list Z)) (reanalyze : bool) (t : Storage.Tables)
  : Response :=
  if negb OPENAI_API_KEY then Status500
  else
    let messages :=
      match messageIds with
      | Some (_ :: _) => []
      | _ =>
          match Storage.given channelId with
          | Some c => Storage.getMessages (Some c) 100 t
          | None => Storage.getMessages None 100 t
          end
      end in
    if (COUNT messages =? 0)%Z then Status404
    else
      let st := analyze_all reanalyze messages in
      Status200
        {| total_messages := COUNT messages;
           analyzed_count := successCount st;
           errors := errorCount st;
           skipped_count := (COUNT messages - successCount st - errorCount st)%Z;
           sample_results := firstn 10 (analyzedMessages st) |}.

End Handler.

End Analyze.

(* ------------------------------------------------------------------ *)
(** ** The ingestion of [src/app/api/slack/messages/route.ts] *)
(* ------------------------------------------------------------------ *)

Module Ingest.
Import Sql Database Slack.
Local Open Scope Q_scope.

(** A message as Slack returns it.  [ts] is decimal text, a number of
    seconds; it is kept as this number. *)
Record SlackMessage := {
  sm_text : option string;
  sm_user : option string;
  sm_ts : option Q;
  reply_count : option Z;
  reactions : option (list Reaction)
}.

(** The result of [conversations.history]. *)
Record History := {
  history_messages : option (list SlackMessage);
  next_cursor : option string
}.

(** The element of [processedMessages] for a message. *)
Record MessageData := {
  md_channel_id : string;
  md_user_id : string;
  md_text : string;
  md_timestamp : Timestamp;
  md_sentiment_score : Number
}.

(** A string in a condition: [undefined] and the empty string are
    falsy. *)
Definition truthy_string (s : option string) : bool :=
  match s with
  | Some s => negb (String.eqb s EmptyString)
  | None => false
  end.

(** The Julian day number of the first of January 1970. *)
Definition unix_epoch : Z := 2440588.

(** [new Date(ms)] keeps the whole milliseconds of [ms]. *)
Definition whole (ms : Q) : Z := if Qle_bool 0 ms then Qfloor ms else Qceiling ms.

(** [new Date(ms).toISOString()]. *)
Definition toISOString (ms : Z) : Timestamp :=
  {| ts_day := (unix_epoch + ms / 86400000)%Z; ts_ms := (ms mod 86400000)%Z |}.

Section Handler.

(** The two calls of the Slack client for the channel and the window
    of the request: [history cursor] is the result of
    [conversations.history] with this cursor, [replies ts] the
    messages of [conversations.replies] for the thread of [ts].  [None]
    stands for a rejected call, and [Some None] for a thread result
    without [messages]. *)
Variable history : option string -> option History.
Variable replies : option Q -> option (option (list SlackMessage)).

(** The [do .. while (cursor)] loop; [turns] bounds the turns that are
    left.  The safety limit leaves the loop at the eleventh request,
    so that eleven turns are all that can be taken. *)
Fixpoint fetch (turns : nat) (cursor : option string)
  (allMessages : list SlackMessage) (requestCount : Z)
  : option (list SlackMessage * Z) :=
  match turns with
  | O => Some (allMessages, requestCount)
  | S turns =>
      match history cursor with
      | None => None
      | Some result =>
          let allMessages :=
            match history_messages result with
            | Some messages => allMessages ++ messages
            | None => allMessages
            end in
          let cursor := next_cursor result in
          let requestCount := (requestCount + 1)%Z in
          if (10 <? requestCount)%Z then Some (allMessages, requestCount)
          else if truthy_string cursor
               then fetch turns cursor allMessages requestCount
               else Some (allMessages, requestCount)
      end
  end.

Definition fetch_history : option (list SlackMessage * Z) := fetch 11 None [] 0.

(** One turn of the loop that fetches the thread replies; the state is
    ([threadMessages], [threadRequestCount]).  A rejected call is
    caught and changes nothing. *)
Definition fetch_thread (st : list SlackMessage * Z) (message : SlackMessage)
  : list SlackMessage * Z :=
  match reply_count message with
  | Some n =>
      if (0 <? n)%Z
      then match replies (sm_ts message) with
           | Some (Some messages) => (fst st ++ tl messages, (snd st + 1)%Z)
           | Some None => st
           | None => st
           end
      else st
  | None => st
  end.

(** One turn of the loop over [allMessagesWithThreads]: a message with
    a text, a user and a [ts] is stored, with the placeholder score or
    with the blend of this score and its reactions. *)
Definition process (channelId : string) (message : SlackMessage)
  : list MessageData :=
  match sm_text message, sm_user message, sm_ts message with
  | Some text, Some user, Some ts =>
      if truthy_string (Some text) && truthy_string (Some user)
      then [ {| md_channel_id := channelId;
                md_user_id := user;
                md_text := text;
                md_timestamp := toISOString (whole (ts * 1000));
                md_sentiment_score :=
                  stored_sentiment
                    (match reactions message with
                     | Some reactions => reactions
                     | None => []
                     end) |} ]
      else []
  | _, _, _ => []
  end.

Record Report := {
  main_messages_fetched : Z;
  thread_messages_fetched : Z;
  total_messages_fetched : Z;
  messages_processed : Z;
  requests_made : Z;
  processedMessages : list MessageData
}.

Inductive Response :=
| Status400
| Status500
| Status200 (report : Report).

(** The handler [POST]; [SLACK_BOT_TOKEN] tells whether the token is
    configured. *)
Definition POST (channelId : option string) (SLACK_BOT_TOKEN : bool)
  : Response :=
  match Storage.given channelId with
  | None => Status400
  | Some channel =>
      if negb SLACK_BOT_TOKEN then Status500
      else
        match fetch_history with
        | None => Status500
        | Some (allMessages, requestCount) =>
            let threads := fold_left fetch_thread allMessages ([], 0%Z) in
            let allMessagesWithThreads := allMessages ++ fst threads in
            let processed := flat_map (process channel) allMessagesWithThreads in
            Status200
              {| main_messages_fetched := COUNT allMessages;
                 thread_messages_fetched := COUNT (fst threads);
                 total_messages_fetched := COUNT allMessagesWithThreads;
                 messages_processed := COUNT processed;
                 requests_made := (requestCount + snd threads)%Z;
                 processedMessages := processed |}
        end
  end.

End Handler.

End Ingest.

(* ------------------------------------------------------------------ *)
(** ** The message evidence of the evidence route *)
(* ------------------------------------------------------------------ *)

(** The handler [GET] of the evidence route, in its SQLite form.  Its
    reactions, word cloud and keyword insights are left out: what is
    kept is the selection and order of the messages, their labels and
    the figures that are counted from the labels. *)
Module Evidence.
Import Sql Database.
Local Open Scope Q_scope.

(** The condition that the parameter [sentiment] adds to [WHERE]. *)
Definition of_sentiment (sentiment : option string) (m : Message) : bool :=
  match sentiment with
  | Some s =>
      if String.eqb s "positive" then is_positive m
      else if String.eqb s "negative" then is_negative m
      else if String.eqb s "neutral" then is_neutral m
      else true
  | None => true
  end.

Definition of_channel (channelId : option string) (m : Message) : bool :=
  match Storage.given channelId with
  | Some c => String.eqb (channel_id m) c
  | None => true
  end.

(** [ORDER BY m.sentiment_score ASC] for ['negative'], [DESC]
    otherwise. *)
Definition ascending (sentiment : option string) : bool :=
  match sentiment with
  | Some s => String.eqb s "negative"
  | None => false
  end.

Definition by_score (sentiment : option string) (a b : Message) : bool :=
  if ascending sentiment
  then Qle_bool (sentiment_score a) (sentiment_score b)
  else Qle_bool (sentiment_score b) (sentiment_score a).

(** The rows of the query; [messages.id] is the primary key, so
    [GROUP BY m.id] leaves one row for a message. *)
Definition messagesWithReactions (channelId sentiment : option string)
  (days now : Z) (messages : list Message) : list Message :=
  ORDER_BY (by_score sentiment)
    (filter (fun m => of_channel channelId m && of_sentiment sentiment m
                      && since now days m) messages).

Record ProcessedMessage := {
  pm_message : Message;
  sentiment_label : Dashboard.Label
}.

Definition processed (msg : Message) : ProcessedMessage :=
  {| pm_message := msg;
     sentiment_label := Dashboard.label_of (sentiment_score msg) |}.

Definition has_label (l : Dashboard.Label) (m : ProcessedMessage) : bool :=
  match sentiment_label m, l with
  | Dashboard.positive, Dashboard.positive => true
  | Dashboard.neutral, Dashboard.neutral => true
  | Dashboard.negative, Dashboard.negative => true
  | _, _ => false
  end.

Record Response := {
  total_messages : Z;
  distribution : Dashboard.SentimentDistribution;
  shown_messages : list ProcessedMessage;
  most_positive : list ProcessedMessage;
  most_negative : list ProcessedMessage;
  negative_dominance : bool
}.

(** [negative_dominance] tells whether the insight ['Negative
    Sentiment Dominance'] is given: [negativeCount > positiveCount *
    1.5]. *)
Definition GET (channelId sentiment : option string) (days now : Z)
  (messages : list Message) : Response :=
  let processedMessages :=
    map processed (messagesWithReactions channelId sentiment days now messages) in
  let positiveCount := COUNT (filter (has_label Dashboard.positive) processedMessages) in
  let neutralCount := COUNT (filter (has_label Dashboard.neutral) processedMessages) in
  let negativeCount := COUNT (filter (has_label Dashboard.negative) processedMessages) in
  {| total_messages := COUNT processedMessages;
     distribution :=
       {| Dashboard.sd_positive := positiveCount;
          Dashboard.sd_neutral := neutralCount;
          Dashboard.sd_negative := negativeCount |};
     shown_messages := firstn 20 processedMessages;
     most_positive :=
       firstn 3 (filter (has_label Dashboard.positive) processedMessages);
     most_negative :=
       firstn 3 (filter (has_label Dashboard.negative) processedMessages);
     negative_dominance :=
       Qltb (inject_Z positiveCount * (3 # 2)) (inject_Z negativeCount) |}.

End Evidence.

(* ------------------------------------------------------------------ *)
(** ** The requests of the ingestion, read page by page *)
(* ------------------------------------------------------------------ *)

Module Pages.
Import Ingest.

(** The messages of a result of [conversations.history]. *)
Definition messages_of (result : History) : list SlackMessage :=
  match history_messages result with
  | Some messages => messages
  | None => []
  end.

(** The results of the requests that follow the cursors from
    [cursor], [n] of them at most: the list ends with the first result
    that carries no cursor, and there is none when a request is
    rejected. *)
Fixpoint pages (history : option string -> option History) (n : nat)
  (cursor : option string) : option (list History) :=
  match n with
  | O => Some []
  | S n =>
      match history cursor with
      | None => None
      | Some result =>
          if truthy_string (next_cursor result)
          then option_map (cons result) (pages history n (next_cursor result))
          else Some [result]
      end
  end.

(** A message with a text, a user and a [ts]. *)
Definition complete (message : SlackMessage) : bool :=
  truthy_string (sm_text message) && truthy_string (sm_user message)
  && match sm_ts message with Some _ => true | None => false end.

(** The reactions of a message, none when it carries no list. *)
Definition reactions_of (message : SlackMessage) : list Slack.Reaction :=
  match reactions message with
  | Some reactions => reactions
  | None => []
  end.

End Pages.

(* ------------------------------------------------------------------ *)
(** ** The results of the analysis, read message by message *)
(* ------------------------------------------------------------------ *)

Module Outcomes.
Import Database Analyze.
Local Open Scope Q_scope.

Definition is_analyzed (a : AnalyzedMessage) : bool :=
  match status a with analyzed => true | _ => false end.

Definition is_error (a : AnalyzedMessage) : bool :=
  match status a with
  | error | error_invalid_score => true
  | _ => false
  end.

Definition is_skipped (a : AnalyzedMessage) : bool :=
  match status a with
  | skipped | skipped_short => true
  | _ => false
  end.

(** What a result tells about the message that it was made for. *)
Definition recorded (cleanText : string -> string)
  (generateText : Message -> Reply) (reanalyze : bool)
  (m : Message) (a : AnalyzedMessage) : Prop :=
  am_id a = id m /\
  match status a with
  | skipped =>
      reanalyze = false /\
      am_sentiment_score a = sentiment_score m /\
      ~ sentiment_score m == 0 /\ ~ sentiment_score m == 5
  | skipped_short =>
      am_sentiment_score a = 5 /\
      (String.length (cleanText (text m)) < 3)%nat
  | analyzed =>
      generateText m = Answered (Slack.Num (am_sentiment_score a)) /\
      1 <= am_sentiment_score a <= 10
  | error_invalid_score =>
      am_sentiment_score a = 5 /\
      exists n, generateText m = Answered n /\ ~ Slack.in_range n
  | error =>
      am_sentiment_score a = 5 /\ generateText m = Threw
  end.

End Outcomes.

(* ------------------------------------------------------------------ *)
(** ** The queries on a table whose scores can be [NULL] *)
(* ------------------------------------------------------------------ *)

(** The column [sentiment_score REAL] carries no [NOT NULL], and the
    ingestion does store a [NULL]: it writes the blend of a message
    with [UPDATE messages SET sentiment_score = ?], and SQLite keeps a
    NaN that is bound to a parameter as [NULL].  This module has
    [getDailyMoodTrends] and [getChannelSummary] on such a table, with
    the three-valued logic of SQL: a comparison with [NULL] is taken by
    no [CASE WHEN], [COUNT( * )] counts every row, and [AVG] passes
    over the [NULL]s and is [NULL] when nothing is left. *)
Module Nullable.
Import Sql Database.
Local Open Scope Q_scope.

Record Row := {
  id : Z;
  channel_id : string;
  user_id : string;
  text : string;
  timestamp : Timestamp;
  sentiment_score : option Q
}.

(** The row of a message that has a score. *)
Definition not_null (m : Message) : Row :=
  {| id := Database.id m;
     channel_id := Database.channel_id m;
     user_id := Database.user_id m;
     text := Database.text m;
     timestamp := Database.timestamp m;
     sentiment_score := Some (Database.sentiment_score m) |}.

(** The value that SQLite keeps for a number of JavaScript. *)
Definition REAL_of (n : Slack.Number) : option Q :=
  match n with
  | Slack.Num q => Some q
  | Slack.NaN => None
  end.

(** The row that the ingestion leaves for a message: [saveMessage]
    inserts it under [rowid], and the [UPDATE] writes the blend. *)
Definition stored (rowid : Z) (d : Ingest.MessageData) : Row :=
  {| id := rowid;
     channel_id := Ingest.md_channel_id d;
     user_id := Ingest.md_user_id d;
     text := Ingest.md_text d;
     timestamp := Ingest.md_timestamp d;
     sentiment_score := REAL_of (Ingest.md_sentiment_score d) |}.

(** [WHERE timestamp >= datetime('now', '-N days')]. *)
Definition since (now : Z) (days : Z) (r : Row) : bool :=
  (now - days <=? DATE (timestamp r))%Z.

(** [score >= c] and [score < c] as a [CASE WHEN] reads them. *)
Definition at_least (c : Q) (score : option Q) : bool :=
  match score with
  | Some s => Qle_bool c s
  | None => false
  end.

Definition below (c : Q) (score : option Q) : bool :=
  match score with
  | Some s => Qltb s c
  | None => false
  end.

Definition is_positive (r : Row) : bool := at_least 7 (sentiment_score r).
Definition is_negative (r : Row) : bool := below 4 (sentiment_score r).
Definition is_neutral (r : Row) : bool :=
  at_least 4 (sentiment_score r) && below 7 (sentiment_score r).

Definition has_score (r : Row) : bool :=
  match sentiment_score r with
  | Some _ => true
  | None => false
  end.

(** The values of a column that are not [NULL]. *)
Definition known (vals : list (option Q)) : list Q :=
  flat_map (fun v => match v with
                     | Some q => [q]
                     | None => []
                     end) vals.

(** [AVG(sentiment_score)]. *)
Definition AVG (vals : list (option Q)) : option Q :=
  match known vals with
  | [] => None
  | q :: qs => Some (Sql.AVG (q :: qs))
  end.

Definition scores (rows : list Row) : list (option Q) :=
  map sentiment_score rows.

Record DailyMood := {
  date : Z;
  overall_mood : option Q;
  total_messages : Z;
  active_channels : Z;
  active_users : Z;
  positive_percentage : Q;
  negative_percentage : Q;
  neutral_percentage : Q
}.

Record ChannelSummary := {
  cs_id : string;
  cs_name : string;
  avg_sentiment : option Q;
  cs_total_messages : Z;
  last_message : Timestamp;
  cs_active_users : Z;
  burnout_risk_percentage : Q
}.

(** [ORDER BY avg_sentiment ASC]: a [NULL] comes before every number. *)
Definition avg_leb (a b : option Q) : bool :=
  match a, b with
  | None, _ => true
  | Some _, None => false
  | Some x, Some y => Qle_bool x y
  end.

Definition MAX_timestamp (rows : list Row) : Timestamp :=
  fold_right (fun r acc => if ts_leb acc (timestamp r) then timestamp r else acc)
    {| ts_day := 0; ts_ms := 0 |} rows.

Definition channel_join (now : Z) (channels : list Channel) (rows : list Row)
  : list (Channel * Row) :=
  flat_map (fun c =>
    map (fun r => (c, r))
      (filter (fun r => String.eqb (chan_id c) (channel_id r) && since now 7 r)
         rows)) channels.

Definition channel_key (r : Channel * Row) : string * string :=
  (chan_id (fst r), chan_name (fst r)).

(** What [ROUND(x, 1)] gives in every version of SQLite: a whole
    number of tenths next to [x].  SQLite rounds the binary64 quotient
    in the place of [x]; the margin covers the distance of the two. *)
Definition margin : Q := 1 # 1000000000.

Definition tenth_next_to (x t : Q) : Prop :=
  (exists k : Z, t == inject_Z k * (1 # 10)) /\
  Qabs (t - x) <= (1 # 20) + margin.

Definition rounds_to_tenths (ROUND_1 : Q -> Q) : Prop :=
  forall x : Q, 0 <= x <= 100 -> tenth_next_to x (ROUND_1 x).

(** [ROUND] with the halves away from zero, on the exact quotient. *)
Definition half_away (x : Q) : Q := ROUND x 1.

Section Queries.

(** [ROUND(x, 1)] on the quotient of a percentage.  At a half-way
    quotient the versions of SQLite differ: for [4100.0 / 2000] the
    version 3.40 returns 2.1 and later versions return 2.0. *)
Variable ROUND_1 : Q -> Q.

(** [ROUND((COUNT(CASE WHEN c THEN 1 END) * 100.0) / COUNT( * ), 1)]. *)
Definition percentage (when : Row -> bool) (rows : list Row) : Q :=
  ROUND_1 (inject_Z (COUNT_CASE when rows) * 100 / inject_Z (COUNT rows)).

Definition daily_mood_row (g : Z * list Row) : DailyMood :=
  let (day, rows) := g in
  {| date := day;
     overall_mood := AVG (scores rows);
     total_messages := COUNT rows;
     active_channels := COUNT_DISTINCT string_dec (map channel_id rows);
     active_users := COUNT_DISTINCT string_dec (map user_id rows);
     positive_percentage := percentage is_positive rows;
     negative_percentage := percentage is_negative rows;
     neutral_percentage := percentage is_neutral rows |}.

Definition getDailyMoodTrends (days : Z) (now : Z) (table : list Row)
  : list DailyMood :=
  let rows := filter (since now days) table in
  let groups := group_by Z.eq_dec (fun r => DATE (timestamp r)) rows in
  ORDER_BY (fun a b => (date a <=? date b)%Z) (map daily_mood_row groups).

(** [COUNT(m.id)] counts the rows of the group: the [WHERE] clause
    leaves no row of the join without a message. *)
Definition channel_summary_row (g : (string * string) * list (Channel * Row))
  : ChannelSummary :=
  let (k, joined) := g in
  let rows := map snd joined in
  {| cs_id := fst k;
     cs_name := snd k;
     avg_sentiment := AVG (scores rows);
     cs_total_messages := COUNT rows;
     last_message := MAX_timestamp rows;
     cs_active_users := COUNT_DISTINCT string_dec (map user_id rows);
     burnout_risk_percentage := percentage is_negative rows |}.

Definition getChannelSummary (now : Z) (channels : list Channel)
  (table : list Row) : list ChannelSummary :=
  let joined := channel_join now channels table in
  let groups := group_by (pair_dec string_dec string_dec) channel_key joined in
  ORDER_BY (fun a b => avg_leb (avg_sentiment a) (avg_sentiment b))
    (map channel_summary_row groups).

End Queries.

(** The rows of the window that are dated [day]. *)
Definition rows_of_day (days now : Z) (table : list Row) (day : Z) : list Row :=
  filter (fun r => since now days r && (DATE (timestamp r) =? day)%Z) table.

(** The rows of channel [c] in the seven-day window. *)
Definition rows_of_channel (now : Z) (table : list Row) (c : string) : list Row :=
  filter (fun r => String.eqb c (channel_id r) && since now 7 r) table.

(** The share of the rows that pass [when], in percent. *)
Definition share (when : Row -> bool) (rows : list Row) : Q :=
  inject_Z (COUNT (filter when rows)) * 100 / inject_Z (COUNT rows).

(** The rows of [Database] beside those of this module. *)
Definition daily_mood (b : Database.DailyMood) : DailyMood :=
  {| date := dm_date b;
     overall_mood := Some (Database.overall_mood b);
     total_messages := dm_total_messages b;
     active_channels := Database.active_channels b;
     active_users := dm_active_users b;
     positive_percentage := Database.positive_percentage b;
     negative_percentage := Database.negative_percentage b;
     neutral_percentage := Database.neutral_percentage b |}.

Definition channel_summary (s : Database.ChannelSummary) : ChannelSummary :=
  {| cs_id := Database.cs_id s;
     cs_name := Database.cs_name s;
     avg_sentiment := Some (cs_avg_sentiment s);
     cs_total_messages := Database.cs_total_messages s;
     last_message := Database.last_message s;
     cs_active_users := Database.cs_active_users s;
     burnout_risk_percentage := cs_burnout_risk_percentage s |}.

End Nullable.

(* ------------------------------------------------------------------ *)
(** ** Further sample data *)
(* ------------------------------------------------------------------ *)

Module Examples.
Import Database.
Local Open Scope Q_scope.

(** Tuesday the 31st of December 2024 and Wednesday the first of
    January 2025, two days of one week. *)
Definition dec_31_2024 : Z := 2460676.
Definition jan_1_2025 : Z := 2460677.

Definition new_year_eve : Message := Samples.msg "C1" "U1" dec_31_2024 5.
Definition new_year_day : Message := Samples.msg "C1" "U1" jan_1_2025 6.

Definition new_year_week : list Message := [new_year_eve; new_year_day].

(** A database with two channels and the messages of one day. *)
Definition two_channel_tables : Storage.Tables :=
  {| Storage.channels :=
       [ {| Storage.row_id := "C1"; Storage.row_name := "general";
            Storage.is_active := true; Storage.alert_threshold := 4 |};
         {| Storage.row_id := "C2"; Storage.row_name := "random";
            Storage.is_active := true; Storage.alert_threshold := 4 |} ];
     Storage.messages := Samples.mixed_day;
     Storage.alerts := [];
     Storage.messages_seq := 3;
     Storage.alerts_seq := 0 |}.

(** A weekly row with the mood [mood]. *)
Definition week_of_mood (mood : Q) : WeeklyMood :=
  {| week := (2024, 1)%Z;
     week_start := Samples.jan_1_2024;
     weekly_mood := mood;
     wm_total_messages := 1;
     unique_contributors := 1;
     wm_avg_sentiment := mood;
     wm_burnout_risk_percentage := 0 |}.

(** A message of Slack with two reactions of one name. *)
Definition liked_message : Ingest.SlackMessage :=
  {| Ingest.sm_text := Some "well done"%string;
     Ingest.sm_user := Some "U1"%string;
     Ingest.sm_ts := Some 1704067200;
     Ingest.reply_count := None;
     Ingest.reactions := Some [ {| Slack.name := "thumbsup"; Slack.count := 2 |} ] |}.

(** What the ingestion stores for it. *)
Definition liked_data : Ingest.MessageData :=
  {| Ingest.md_channel_id := "C1";
     Ingest.md_user_id := "U1";
     Ingest.md_text := "well done";
     Ingest.md_timestamp :=
       Ingest.toISOString (Ingest.whole (1704067200 * 1000));
     Ingest.md_sentiment_score :=
       Slack.stored_sentiment (Pages.reactions_of liked_message) |}.

(** A message of Slack with a reaction that is named like a property
    of [Object.prototype]: its blend is NaN. *)
Definition inherited_message : Ingest.SlackMessage :=
  {| Ingest.sm_text := Some "ship it"%string;
     Ingest.sm_user := Some "U2"%string;
     Ingest.sm_ts := Some 1704067200;
     Ingest.reply_count := None;
     Ingest.reactions :=
       Some [ {| Slack.name := "constructor"; Slack.count := 1 |} ] |}.

Definition inherited_data : Ingest.MessageData :=
  {| Ingest.md_channel_id := "C1";
     Ingest.md_user_id := "U2";
     Ingest.md_text := "ship it";
     Ingest.md_timestamp :=
       Ingest.toISOString (Ingest.whole (1704067200 * 1000));
     Ingest.md_sentiment_score :=
       Slack.stored_sentiment (Pages.reactions_of inherited_message) |}.

(** The table after the ingestion of this message alone. *)
Definition unscored_table : list Nullable.Row :=
  [Nullable.stored 1 inherited_data].

(** A row whose score is outside the range 1..10. *)
Definition row_15 : Nullable.Row :=
  Nullable.not_null (Samples.msg "C1" "U1" Samples.jan_1_2024 15).

(** A day with a positive, a neutral and a negative message, with a
    message scored 15 and with the message of the NaN blend. *)
Definition four_rows : list Nullable.Row :=
  (map Nullable.not_null Samples.mixed_day
   ++ [Nullable.stored 4 inherited_data])%list.

Definition five_rows : list Nullable.Row := row_15 :: four_rows.

End Examples.

(* ------------------------------------------------------------------ *)
(** ** Facts about the relational operators *)
(* ------------------------------------------------------------------ *)

Import Sql.

Section GroupingFacts.
Context {A K : Type}.
Variable K_dec : forall x y : K, {x = y} + {x <> y}.
Variable key : A -> K.

Lemma has_key_true (k : K) (a : A) : has_key K_dec key k a = true <-> key a = k.
Proof.
  unfold has_key. destruct (K_dec (key a) k); split; congruence.
Qed.

Lemma in_group_by (rows : list A) (g : K * list A) :
  In g (group_by K_dec key rows) <->
  In (fst g) (map key rows) /\ snd g = filter (has_key K_dec key (fst g)) rows.
Proof.
  unfold group_by. rewrite in_map_iff. split.
  - intros (k & <- & Hk). apply nodup_In in Hk. simpl. auto.
  - intros (Hk & Hg). exists (fst g). rewrite nodup_In. split; auto.
    destruct g; simpl in *; congruence.
Qed.

Lemma group_by_keys (rows : list A) :
  map fst (group_by K_dec key rows) = nodup K_dec (map key rows).
Proof.
  unfold group_by. rewrite map_map. simpl. apply map_id.
Qed.

Lemma group_by_NoDup (rows : list A) : NoDup (map fst (group_by K_dec key rows)).
Proof. rewrite group_by_keys. apply NoDup_nodup. Qed.

Lemma group_by_same_key (rows : list A) (g h : K * list A) :
  In g (group_by K_dec key rows) -> In h (group_by K_dec key rows) ->
  fst g = fst h -> g = h.
Proof.
  intros Hg Hh E. apply in_group_by in Hg, Hh.
  destruct g, h; simpl in *. subst. destruct Hg as [_ ->], Hh as [_ ->].
  reflexivity.
Qed.

Lemma group_not_empty (rows : list A) (g : K * list A) :
  In g (group_by K_dec key rows) -> snd g <> [].
Proof.
  intros Hg. apply in_group_by in Hg. destruct Hg as [Hk ->].
  apply in_map_iff in Hk. destruct Hk as (a & Ha & Hin).
  intros E. assert (Hf : In a (filter (has_key K_dec key (fst g)) rows)).
  { apply filter_In. split; auto. now apply has_key_true. }
  rewrite E in Hf. exact Hf.
Qed.

Lemma group_rows_key (rows : list A) (g : K * list A) (a : A) :
  In g (group_by K_dec key rows) -> In a (snd g) -> In a rows /\ key a = fst g.
Proof.
  intros Hg Ha. apply in_group_by in Hg. destruct Hg as [_ Hs].
  rewrite Hs in Ha. apply filter_In in Ha. now rewrite has_key_true in Ha.
Qed.

End GroupingFacts.

Section OrderingFacts.
Context {A : Type}.
Variable le : A -> A -> bool.

Lemma insert_by_perm (x : A) (l : list A) : Permutation (insert_by le x l) (x :: l).
Proof.
  induction l as [|y l IH]; simpl.
  - reflexivity.
  - destruct (le x y).
    + reflexivity.
    + rewrite IH. apply perm_swap.
Qed.

Lemma ORDER_BY_perm (l : list A) : Permutation (ORDER_BY le l) l.
Proof.
  induction l as [|x l IH]; simpl.
  - reflexivity.
  - rewrite insert_by_perm. now apply perm_skip.
Qed.

Lemma ORDER_BY_In (l : list A) (x : A) : In x (ORDER_BY le l) <-> In x l.
Proof.
  split; apply Permutation_in; [|symmetry]; apply ORDER_BY_perm.
Qed.

End OrderingFacts.

Lemma COUNT_pos {A} (rows : list A) : rows <> [] -> (1 <= COUNT rows)%Z.
Proof.
  destruct rows; [congruence|]. intros _. unfold COUNT. simpl length. lia.
Qed.

Lemma Qltb_lt (x y : Q) : Qltb x y = true <-> x < y.
Proof.
  unfold Qltb. rewrite negb_true_iff. split.
  - intros H. apply Qnot_le_lt. intros Hle.
    apply Qle_bool_iff in Hle. congruence.
  - intros H. destruct (Qle_bool y x) eqn:E; auto.
    apply Qle_bool_iff in E. exfalso. exact (Qlt_not_le _ _ H E).
Qed.

Lemma Qltb_ge (x y : Q) : Qltb x y = false <-> y <= x.
Proof.
  unfold Qltb. rewrite negb_false_iff. apply Qle_bool_iff.
Qed.

(** [ROUND(x, 1)] of a value that is not negative is a whole number of
    tenths, at most half a tenth away from [x]. *)
Lemma ROUND_1_tenths (x : Q) :
  0 <= x ->
  exists k : Z, ROUND x 1 == inject_Z k * (1#10) /\
                inject_Z k <= x * 10 + (1#2) /\ x * 10 + (1#2) < inject_Z k + 1.
Proof.
  intros Hx. unfold ROUND. apply Qle_bool_iff in Hx. rewrite Hx.
  change (inject_Z (10 ^ Z.of_nat 1)) with 10.
  exists (Qfloor (x * 10 + (1#2))). split; [field|]. split.
  - apply Qfloor_le.
  - pose proof (Qlt_floor (x * 10 + (1#2))) as H.
    rewrite inject_Z_plus in H. exact H.
Qed.

(* ------------------------------------------------------------------ *)
(** ** Daily buckets: the percentage triple *)
(* ------------------------------------------------------------------ *)

Import Database.
Local Open Scope Q_scope.

Lemma inject_Z_pos (n : Z) : (0 < n)%Z -> 0 < inject_Z n.
Proof. intros H. change 0 with (inject_Z 0). now rewrite <- Zlt_Qlt. Qed.

Lemma inject_Z_nonneg (n : Z) : (0 <= n)%Z -> 0 <= inject_Z n.
Proof. intros H. change 0 with (inject_Z 0). now rewrite <- Zle_Qle. Qed.

Lemma share_nonneg (a n : Z) :
  (0 <= a)%Z -> (0 < n)%Z -> 0 <= inject_Z a * 100 / inject_Z n.
Proof.
  intros Ha Hn. apply Qle_shift_div_l.
  - now apply inject_Z_pos.
  - pose proof (inject_Z_nonneg a Ha). lra.
Qed.

(** Every message falls in exactly one of the three classes. *)
Lemma classes_partition (ms : list Message) :
  (COUNT_CASE is_positive ms + COUNT_CASE is_neutral ms
   + COUNT_CASE is_negative ms = COUNT ms)%Z.
Proof.
  unfold COUNT_CASE, COUNT. induction ms as [|m ms IH]; [reflexivity|].
  cbn [filter]. unfold is_positive at 1, is_neutral at 1, is_negative at 1.
  unfold Qltb.
  destruct (Qle_bool 7 (sentiment_score m)) eqn:E7;
    destruct (Qle_bool 4 (sentiment_score m)) eqn:E4;
    cbn [negb andb length]; try lia.
  apply Qle_bool_iff in E7.
  assert (H : 4 <= sentiment_score m) by lra.
  apply Qle_bool_iff in H. congruence.
Qed.

Lemma COUNT_CASE_nonneg {A} (when : A -> bool) (rows : list A) :
  (0 <= COUNT_CASE when rows)%Z.
Proof. unfold COUNT_CASE, COUNT. lia. Qed.

Lemma push_not_empty {K A : Type} (eqb : K -> K -> bool) (k : K) (x : A)
  (groups : list (K * list A)) :
  Forall (fun g => snd g <> []) groups ->
  Forall (fun g => snd g <> []) (DatabaseKV.push eqb k x groups).
Proof.
  induction 1 as [|[k' xs] groups Hg Hrest IH]; cbn [DatabaseKV.push].
  - constructor; [discriminate|constructor].
  - destruct (eqb k' k).
    + constructor; [|assumption]. cbn [snd]. destruct xs; discriminate.
    + constructor; assumption.
Qed.

Lemma entries_not_empty {K A : Type} (eqb : K -> K -> bool) (key : A -> K)
  (rows : list A) :
  Forall (fun g => snd g <> []) (DatabaseKV.entries eqb key rows).
Proof.
  unfold DatabaseKV.entries.
  assert (H : forall acc, Forall (fun g : K * list A => snd g <> []) acc ->
                          Forall (fun g => snd g <> [])
                            (fold_left (fun groups x =>
                                          DatabaseKV.push eqb (key x) x groups)
                               rows acc)).
  { induction rows as [|x rows IH]; intros acc Hacc; cbn [fold_left]; auto.
    apply IH. now apply push_not_empty. }
  apply H. constructor.
Qed.

(** The key-value backend does not round: a bucket holds at least one
    message, and its three percentages add up to 100. *)
Lemma kv_daily_percentages (days : Z) (now : Timestamp) (channels : list Channel)
  (messages : list Message) (b : DailyMood) :
  In b (DatabaseKV.getDailyMoodTrends days now channels messages) ->
  (1 <= dm_total_messages b)%Z /\
  positive_percentage b + neutral_percentage b + negative_percentage b == 100.
Proof.
  intros Hb. unfold DatabaseKV.getDailyMoodTrends in Hb.
  apply ORDER_BY_In in Hb. apply in_map_iff in Hb.
  destruct Hb as ([date ms] & <- & Hg).
  pose proof (entries_not_empty Z.eqb (fun m => DATE (timestamp m))
                (filter (DatabaseKV.recent now days)
                   (flat_map (DatabaseKV.stored messages) channels))) as Hne.
  rewrite Forall_forall in Hne. specialize (Hne _ Hg). cbn [snd] in Hne.
  pose proof (COUNT_pos ms Hne) as Hn.
  cbn [DatabaseKV.daily_row dm_total_messages positive_percentage
       neutral_percentage negative_percentage].
  split; [exact Hn|]. unfold DatabaseKV.percent.
  pose proof (classes_partition ms) as Hsum.
  assert (Hp : 0 < inject_Z (COUNT ms)) by (apply inject_Z_pos; lia).
  assert (En : inject_Z (COUNT ms)
               == inject_Z (COUNT_CASE is_positive ms)
                  + inject_Z (COUNT_CASE is_neutral ms)
                  + inject_Z (COUNT_CASE is_negative ms)).
  { rewrite <- Hsum, !inject_Z_plus. reflexivity. }
  setoid_replace (inject_Z (COUNT_CASE is_positive ms))
    with (inject_Z (COUNT ms) - inject_Z (COUNT_CASE is_neutral ms)
          - inject_Z (COUNT_CASE is_negative ms)) by lra.
  field. lra.
Qed.

(** The tolerance is reached: a day with one message of each class has
    three times 33.3, which is 99.9. *)
Lemma daily_percentages_can_miss_by_a_tenth :
  exists b : DailyMood,
    getDailyMoodTrends 14 Samples.jan_1_2024 Samples.mixed_day = [b] /\
    positive_percentage b == 333 # 10 /\
    neutral_percentage b == 333 # 10 /\
    negative_percentage b == 333 # 10 /\
    positive_percentage b + neutral_percentage b + negative_percentage b
    == 100 - (1 # 10).
Proof.
  eexists. split; [vm_compute; reflexivity|]. repeat split.
Qed.

(* ------------------------------------------------------------------ *)
(** ** Weekly buckets *)
(* ------------------------------------------------------------------ *)

Import Calendar.

Lemma week_start_of_eq (t : Timestamp) : week_start_of t = (7 * (DATE t / 7))%Z.
Proof.
  unfold week_start_of, modifier_days, modifier_weekday, weekday.
  destruct (Z.ltb_spec 0 ((DATE t + 1) mod 7)); Z.div_mod_to_equations; lia.
Qed.

(** The week start of a date is the Monday on or before it. *)
Lemma week_start_of_monday (t : Timestamp) :
  weekday (week_start_of t) = Monday /\
  (week_start_of t <= DATE t < week_start_of t + 7)%Z.
Proof.
  rewrite week_start_of_eq. unfold weekday, Monday.
  Z.div_mod_to_equations. lia.
Qed.

(** Two dates with the same year and the same week number share their
    Monday. *)
Lemma same_week_same_start (t u : Timestamp) :
  strftime_Y_W (DATE t) = strftime_Y_W (DATE u) ->
  week_start_of t = week_start_of u.
Proof.
  unfold strftime_Y_W, strftime_W, days_after_jan01, days_after_monday.
  intros E. injection E as Ey Ew. rewrite <- Ey in Ew.
  rewrite !week_start_of_eq.
  generalize dependent (jan01 (year_of (DATE t))). intros j Ew.
  Z.div_mod_to_equations. lia.
Qed.

Lemma most_recent_sunday_spec (date : Z) :
  weekday (Spec.most_recent_sunday date) = Sunday /\
  (Spec.most_recent_sunday date <= date < Spec.most_recent_sunday date + 7)%Z.
Proof.
  unfold Spec.most_recent_sunday, weekday, Sunday.
  Z.div_mod_to_equations. lia.
Qed.

(** The SQLite query: every message of the window has exactly one
    weekly bucket, the bucket of its year and week number, and the
    [week_start] of that bucket is the Monday on or before the
    message's date. *)
Lemma weekly_buckets_start_on_monday :
  forall (weeks now : Z) (messages : list Message) (m : Message),
    In m messages -> since now (weeks * 7) m = true ->
    exists b : WeeklyMood,
      In b (getWeeklyMoodTrends weeks now messages) /\
      week b = strftime_Y_W (DATE (timestamp m)) /\
      (forall b', In b' (getWeeklyMoodTrends weeks now messages) ->
                  week b' = week b -> b' = b) /\
      week_start b = week_start_of (timestamp m) /\
      weekday (week_start b) = Monday /\
      (week_start b <= DATE (timestamp m) < week_start b + 7)%Z.
Proof.
  intros weeks now messages m Hin Hwin.
  set (rows := filter (since now (weeks * 7)) messages).
  set (wkey := fun m : Message => strftime_Y_W (DATE (timestamp m))).
  set (dec := pair_dec Z.eq_dec Z.eq_dec).
  assert (Hrow : In m rows) by (apply filter_In; auto).
  remember (filter (has_key dec wkey (wkey m)) rows) as ms eqn:Ems.
  set (g := (wkey m, ms)).
  assert (Hg : In g (group_by dec wkey rows)).
  { apply in_group_by. split; [|exact Ems]. exact (in_map wkey rows m Hrow). }
  assert (Hall : forall m0, In m0 ms -> wkey m0 = wkey m).
  { intros m0 H0. rewrite Ems in H0. apply filter_In in H0.
    destruct H0 as [_ H0]. now apply has_key_true in H0. }
  assert (Hstart : week_start (weekly_mood_row g) = week_start_of (timestamp m)).
  { pose proof (group_not_empty _ _ _ _ Hg) as Hne. subst g.
    cbn [weekly_mood_row week_start snd] in *.
    destruct ms as [|m0 rest]; [now elim Hne|].
    apply same_week_same_start. apply (Hall m0). now left. }
  exists (weekly_mood_row g). repeat split.
  - unfold getWeeklyMoodTrends. apply ORDER_BY_In. now apply in_map.
  - intros b' Hb' Hwk. unfold getWeeklyMoodTrends in Hb'.
    apply ORDER_BY_In in Hb'. apply in_map_iff in Hb'.
    destruct Hb' as (g' & <- & Hg'). f_equal.
    apply (group_by_same_key dec wkey rows); auto.
    destruct g'. exact Hwk.
  - exact Hstart.
  - rewrite Hstart. apply week_start_of_monday.
  - rewrite Hstart. apply week_start_of_monday.
  - rewrite Hstart. apply week_start_of_monday.
Qed.

(** The key-value backend: the week start of a date is the Sunday on
    or before it. *)
Lemma weekStart_sunday (t : Timestamp) :
  DatabaseKV.weekStart t = Spec.most_recent_sunday (DATE t) /\
  weekday (DatabaseKV.weekStart t) = Sunday /\
  (DatabaseKV.weekStart t <= DATE t < DatabaseKV.weekStart t + 7)%Z.
Proof.
  split; [reflexivity|]. apply most_recent_sunday_spec.
Qed.

(** C8, on the code.  The SQLite query of [src/lib/database.ts] gives
    every date the Monday on or before it as week start, never the most
    recent Sunday: for a message of Wednesday 2024-01-03 the weekly
    bucket carries Monday 2024-01-01.  The key-value backend, which the
    same file loads in production, gives the most recent Sunday,
    2023-12-31, as the claim says. *)
Theorem sql_week_starts_on_monday_kv_on_sunday :
  (forall t : Timestamp,
     weekday (week_start_of t) = Monday /\
     (week_start_of t <= DATE t < week_start_of t + 7)%Z /\
     week_start_of t <> Spec.most_recent_sunday (DATE t))
  /\
  (forall t : Timestamp,
     DatabaseKV.weekStart t = Spec.most_recent_sunday (DATE t))
  /\
  (let m := Samples.wednesday_message in
   Spec.most_recent_sunday (DATE (timestamp m)) = (Samples.jan_1_2024 - 1)%Z /\
   weekday (Samples.jan_1_2024 - 1) = Sunday /\
   weekday Samples.jan_1_2024 = Monday /\
   map week_start (getWeeklyMoodTrends 4 Samples.jan_3_2024 [m])
   = [Samples.jan_1_2024] /\
   map DatabaseKV.kv_week_start
     (DatabaseKV.getWeeklyMoodTrends 4 Samples.noon_jan_3_2024
        Samples.channels_table [m])
   = [(Samples.jan_1_2024 - 1)%Z]).
Proof.
  split; [|split].
  - intros t. destruct (week_start_of_monday t) as [Hm Hr].
    split; [exact Hm|]. split; [exact Hr|].
    intros E. destruct (most_recent_sunday_spec (DATE t)) as [Hs _].
    rewrite <- E, Hm in Hs. discriminate.
  - intros t. reflexivity.
  - vm_compute. repeat split.
Qed.

(* ------------------------------------------------------------------ *)
(** ** Streaks of low days *)
(* ------------------------------------------------------------------ *)

Section ListFacts.
Context {A B : Type}.

Lemma filter_of_map (p : B -> bool) (f : A -> B) (l : list A) :
  filter p (map f l) = map f (filter (fun x => p (f x)) l).
Proof.
  induction l as [|x l IH]; simpl; [reflexivity|].
  destruct (p (f x)); simpl; now rewrite IH.
Qed.

Lemma filter_swap (p q : A -> bool) (l : list A) :
  filter p (filter q l) = filter q (filter p l).
Proof.
  induction l as [|x l IH]; simpl; [reflexivity|].
  destruct (p x) eqn:Ep, (q x) eqn:Eq; simpl; rewrite ?Ep, ?Eq, IH; reflexivity.
Qed.

Lemma filter_all (p : A -> bool) (l : list A) :
  (forall x, In x l -> p x = true) -> filter p l = l.
Proof.
  induction l as [|x l IH]; simpl; intros H; [reflexivity|].
  rewrite (H x) by auto. f_equal. apply IH. auto.
Qed.

Lemma filter_none (p : A -> bool) (l : list A) :
  (forall x, In x l -> p x = false) -> filter p l = [].
Proof.
  induction l as [|x l IH]; simpl; intros H; [reflexivity|].
  rewrite (H x) by auto. apply IH. auto.
Qed.

(** A filter that accepts one value only finds it at most once in a
    list without repetition. *)
Lemma filter_pick (p : A -> bool) (k : A) (l : list A) :
  NoDup l -> (forall x, In x l -> (p x = true <-> x = k)) ->
  (In k l -> filter p l = [k]) /\ (~ In k l -> filter p l = []).
Proof.
  intros Hnd Hp. split.
  - induction Hnd as [|x l Hx Hnd IH]; simpl; intros Hin; [easy|].
    destruct (p x) eqn:Ex.
    + apply Hp in Ex; [|now left]. subst x. f_equal.
      apply filter_none. intros y Hy. destruct (p y) eqn:Ey; auto.
      apply Hp in Ey; [|now right]. subst y. contradiction.
    + destruct Hin as [->|Hin].
      * assert (p k = true) by (apply Hp; [now left|reflexivity]). congruence.
      * apply IH; auto. intros y Hy. apply Hp. now right.
  - intros Hnot. apply filter_none. intros y Hy. destruct (p y) eqn:Ey; auto.
    apply Hp in Ey; auto. subst y. contradiction.
Qed.

End ListFacts.

Section GroupPick.
Context {A K : Type}.
Variable K_dec : forall x y : K, {x = y} + {x <> y}.
Variable key : A -> K.

(** Selecting the groups by a test on the key that only the key [k]
    passes leaves the group of [k], when there is one. *)
Lemma group_by_pick (rows : list A) (p : K -> bool) (k : K) :
  (forall a, In a rows -> (p (key a) = true <-> key a = k)) ->
  filter (fun g => p (fst g)) (group_by K_dec key rows) =
  match filter (has_key K_dec key k) rows with
  | [] => []
  | g => [(k, g)]
  end.
Proof.
  intros Hp. unfold group_by. rewrite filter_of_map.
  rewrite (filter_ext _ p) by reflexivity.
  assert (Hp' : forall x, In x (nodup K_dec (map key rows)) ->
                          (p x = true <-> x = k)).
  { intros x Hx. apply nodup_In in Hx. apply in_map_iff in Hx.
    destruct Hx as (a & <- & Ha). now apply Hp. }
  destruct (filter_pick p k _ (NoDup_nodup K_dec (map key rows)) Hp')
    as [Hyes Hno].
  destruct (in_dec K_dec k (nodup K_dec (map key rows))) as [Hin|Hout].
  - rewrite (Hyes Hin). cbn [map].
    apply nodup_In in Hin. apply in_map_iff in Hin.
    destruct Hin as (a & Ha & Hin).
    destruct (filter (has_key K_dec key k) rows) as [|x rest] eqn:E; auto.
    assert (Hf : In a (filter (has_key K_dec key k) rows)).
    { apply filter_In. split; auto. now apply has_key_true. }
    rewrite E in Hf. destruct Hf.
  - rewrite (Hno Hout). cbn [map].
    rewrite filter_none; auto.
    intros a Ha. destruct (has_key K_dec key k a) eqn:E; auto.
    apply has_key_true in E. elim Hout. apply nodup_In.
    rewrite <- E. now apply in_map.
Qed.

End GroupPick.

(** Among rows that all passed [WHERE daily_sentiment < 4.0] the two
    row numbers are the same, and [grp] is 0. *)
Lemma grp_is_zero (rows : list DailySentiment) (r : DailySentiment) :
  (forall x, In x rows -> is_low x = true) -> is_low r = true ->
  low_sentiment_day rows r = Views.low_day_0 r.
Proof.
  intros Hall Hr. unfold low_sentiment_day, Views.low_day_0. f_equal.
  unfold ROW_NUMBER.
  rewrite (filter_ext_in
             (fun r' => same_channel_and_case r' r && earlier r' r)
             (fun r' => same_channel r' r && earlier r' r)).
  - lia.
  - intros x Hx. unfold same_channel_and_case, low_case.
    rewrite (Hall x Hx), Hr, Z.eqb_refl, andb_true_r. reflexivity.
Qed.

Lemma low_sentiment_days_eq (now : Z) (messages : list Message) :
  low_sentiment_days now messages =
  map Views.low_day_0 (filter is_low (streak_daily_sentiment now messages)).
Proof.
  unfold low_sentiment_days. apply map_ext_in. intros r Hr.
  apply grp_is_zero.
  - intros x Hx. now apply filter_In in Hx.
  - now apply filter_In in Hr.
Qed.

(** What the streak query returns for one channel: all the low days of
    the window together, when there are three or more. *)
Lemma streaks_of_channel (now : Z) (messages : list Message) (c : string) :
  Views.streaks_of now messages c =
  let lows := Views.low_days now messages c in
  if (3 <=? COUNT lows)%Z
  then [ {| st_channel_id := c;
            streak_start := MINZ (map ds_date lows);
            streak_end := MAXZ (map ds_date lows);
            consecutive_days := COUNT lows;
            avg_sentiment_in_streak := AVG (map daily_sentiment lows) |} ]
  else [].
Proof.
  unfold Views.streaks_of, consecutiveLowDays.
  rewrite filter_of_map. cbn [streak_row st_channel_id].
  rewrite filter_swap.
  set (lkey := fun r : LowSentimentDay => (lsd_channel_id r, grp r)).
  rewrite (group_by_pick (pair_dec string_dec Z.eq_dec) lkey _
             (fun k => String.eqb (fst k) c) (c, 0%Z)).
  2:{ intros a Ha. rewrite low_sentiment_days_eq in Ha.
      apply in_map_iff in Ha. destruct Ha as (r & <- & _).
      unfold lkey, Views.low_day_0. cbn [fst lsd_channel_id grp].
      rewrite String.eqb_eq. split; congruence. }
  rewrite low_sentiment_days_eq, filter_of_map.
  rewrite (filter_ext _ (Views.of_channel c)).
  2:{ intros r. apply eq_true_iff_eq. rewrite has_key_true.
      unfold lkey, Views.low_day_0, Views.of_channel.
      cbn [lsd_channel_id grp]. rewrite String.eqb_eq. split; congruence. }
  rewrite filter_swap.
  change (filter is_low (filter (Views.of_channel c)
                           (streak_daily_sentiment now messages)))
    with (Views.low_days now messages c).
  cbv zeta. destruct (Views.low_days now messages c) as [|r lows].
  - reflexivity.
  - set (rows := r :: lows). change (map Views.low_day_0 (r :: lows)) with (map Views.low_day_0 rows).
    assert (E : map Views.low_day_0 rows <> []) by discriminate.
    destruct (map Views.low_day_0 rows) as [|x xs] eqn:Em; [congruence|]. rewrite <- Em.
    cbn [filter snd]. unfold COUNT at 1. rewrite length_map. fold (COUNT rows).
    destruct (3 <=? COUNT rows)%Z; [|reflexivity].
    unfold streak_row. cbn [map fst snd]. unfold COUNT.
    rewrite !map_map, length_map. reflexivity.
Qed.

Lemma MINZ_spec (l : list Z) :
  l <> [] -> In (MINZ l) l /\ forall x, In x l -> (MINZ l <= x)%Z.
Proof.
  destruct l as [|v rest]; [congruence|]. intros _. unfold MINZ.
  induction rest as [|a rest [IHin IHle]]; cbn [fold_right].
  - split; [now left|]. intros x [<-|[]]. lia.
  - split.
    + destruct (Z.min_spec a (fold_right Z.min v rest)) as [[_ ->]|[_ ->]].
      * right. now left.
      * destruct IHin as [<-|Hin]; [now left|]. right. now right.
    + intros x [<-|[<-|Hx]].
      * specialize (IHle v (or_introl eq_refl)). lia.
      * lia.
      * specialize (IHle x (or_intror Hx)). lia.
Qed.

Lemma MAXZ_spec (l : list Z) :
  l <> [] -> In (MAXZ l) l /\ forall x, In x l -> (x <= MAXZ l)%Z.
Proof.
  destruct l as [|v rest]; [congruence|]. intros _. unfold MAXZ.
  induction rest as [|a rest [IHin IHle]]; cbn [fold_right].
  - split; [now left|]. intros x [<-|[]]. lia.
  - split.
    + destruct (Z.max_spec a (fold_right Z.max v rest)) as [[_ ->]|[_ ->]].
      * destruct IHin as [<-|Hin]; [now left|]. right. now right.
      * right. now left.
    + intros x [<-|[<-|Hx]].
      * specialize (IHle v (or_introl eq_refl)). lia.
      * lia.
      * specialize (IHle x (or_intror Hx)). lia.
Qed.

(** The streak query reports at most one streak for a channel. *)
Lemma one_streak_per_channel (now : Z) (messages : list Message) (s1 s2 : Streak) :
  In s1 (consecutiveLowDays now messages) ->
  In s2 (consecutiveLowDays now messages) ->
  st_channel_id s1 = st_channel_id s2 -> s1 = s2.
Proof.
  intros H1 H2 E.
  assert (In s1 (Views.streaks_of now messages (st_channel_id s1))) as K1.
  { apply filter_In. split; auto. apply String.eqb_refl. }
  assert (In s2 (Views.streaks_of now messages (st_channel_id s1))) as K2.
  { apply filter_In. split; auto. rewrite E. apply String.eqb_refl. }
  rewrite streaks_of_channel in K1, K2. cbv zeta in K1, K2.
  destruct (3 <=? _)%Z; [|destruct K1].
  destruct K1 as [<-|[]], K2 as [<-|[]]. reflexivity.
Qed.

(** The key-value backend looks for no streak and no trend: it lists
    the channels whose mean over the window is below 4.0, each with the
    fixed count 3 and the bounds of the window, and no declining
    channel. *)
Lemma kv_burnout_is_simplified (now : Timestamp) (channels : list Channel)
  (messages : list Message) :
  declining_trend_channels (DatabaseKV.detectBurnoutRisks now channels messages)
  = [] /\
  forall s : Streak,
    In s (consecutive_low_channels
            (DatabaseKV.detectBurnoutRisks now channels messages)) ->
    consecutive_days s = 3%Z /\
    streak_start s = (ts_day now - 7)%Z /\
    streak_end s = ts_day now /\
    avg_sentiment_in_streak s < 4.
Proof.
  split; [reflexivity|]. intros s Hs.
  cbn [DatabaseKV.detectBurnoutRisks consecutive_low_channels] in Hs.
  apply in_flat_map in Hs. destruct Hs as (c & _ & Hs).
  unfold DatabaseKV.low_channel in Hs.
  destruct (0 <? _)%Z; cbn [andb] in Hs; [|destruct Hs].
  destruct (Qltb _ 4) eqn:E; [|destruct Hs].
  destruct Hs as [<-|[]]. apply Qltb_lt in E. repeat split. exact E.
Qed.

(** C1, on the code.  The channel has the daily means 3 3 3 5 2 2 2 2
    on eight days in a row.  The query returns a single streak that
    runs from the first day to the eighth and counts the seven low
    days: the fourth day, whose mean is 5, does not separate two
    streaks. *)
Theorem good_day_does_not_split_streak :
  map ds_date (Views.daily_buckets Samples.eighth_day Samples.eight_days "C1")
  = map (fun i => (Samples.jan_1_2024 + i)%Z) [0; 1; 2; 3; 4; 5; 6; 7]%Z /\
  map daily_sentiment
    (Views.daily_buckets Samples.eighth_day Samples.eight_days "C1")
  = [3; 3; 3; 5; 2; 2; 2; 2] /\
  exists s : Streak,
    consecutiveLowDays Samples.eighth_day Samples.eight_days = [s] /\
    st_channel_id s = "C1"%string /\
    streak_start s = Samples.jan_1_2024 /\
    streak_end s = (Samples.jan_1_2024 + 7)%Z /\
    consecutive_days s = 7%Z /\
    avg_sentiment_in_streak s == 17 # 7.
Proof.
  split; [vm_compute; reflexivity|]. split; [vm_compute; reflexivity|].
  eexists. split; [vm_compute; reflexivity|]. repeat split.
Qed.

(** C3, as stated, fails.  The channel has two low days, then a day
    without any message, then two low days; the query returns one
    streak of four days over the gap. *)
Lemma gap_does_not_break_streak_example :
  map ds_date (Views.daily_buckets Samples.after_gap Samples.gap_days "C1")
  = map (fun i => (Samples.jan_1_2024 + i)%Z) [0; 1; 3; 4]%Z /\
  map daily_sentiment
    (Views.daily_buckets Samples.after_gap Samples.gap_days "C1")
  = [3; 3; 2; 2] /\
  exists s : Streak,
    consecutiveLowDays Samples.after_gap Samples.gap_days = [s] /\
    st_channel_id s = "C1"%string /\
    streak_start s = Samples.jan_1_2024 /\
    streak_end s = (Samples.jan_1_2024 + 4)%Z /\
    consecutive_days s = 4%Z.
Proof.
  split; [vm_compute; reflexivity|]. split; [vm_compute; reflexivity|].
  eexists. split; [vm_compute; reflexivity|]. repeat split.
Qed.

(** C3, amended.  When the daily buckets of a channel are two spans of
    two low days with one calendar day without a bucket between them,
    the query returns exactly one streak for the channel: it starts on
    the first day, ends on the last, counts four days and averages the
    four daily means.  The day without messages does not break the
    streak. *)
Theorem gap_does_not_break_streak :
  forall (now : Z) (messages : list Message) (c : string) (d : Z),
    Permutation (map ds_date (Views.daily_buckets now messages c))
      [d; d + 1; d + 3; d + 4]%Z ->
    Forall (fun r => daily_sentiment r < 4)
      (Views.daily_buckets now messages c) ->
    exists s : Streak,
      Views.streaks_of now messages c = [s] /\
      streak_start s = d /\
      streak_end s = (d + 4)%Z /\
      consecutive_days s = 4%Z /\
      avg_sentiment_in_streak s
      = AVG (map daily_sentiment (Views.daily_buckets now messages c)).
Proof.
  intros now messages c d Hdays Hlow.
  rewrite streaks_of_channel. cbv zeta. unfold Views.low_days.
  rewrite filter_all.
  2:{ intros r Hr. rewrite Forall_forall in Hlow. apply Qltb_lt. now apply Hlow. }
  set (days := Views.daily_buckets now messages c) in *.
  assert (Hlen : COUNT days = 4%Z).
  { unfold COUNT. rewrite <- (length_map ds_date), (Permutation_length Hdays).
    reflexivity. }
  rewrite Hlen. cbn [Z.leb Z.compare Pos.compare Pos.compare_cont].
  eexists. split; [reflexivity|]. cbn [streak_start streak_end consecutive_days
                                       avg_sentiment_in_streak].
  assert (Hne : map ds_date days <> []).
  { intros E. rewrite E in Hdays. apply Permutation_length in Hdays. discriminate. }
  destruct (MINZ_spec _ Hne) as [Hmin_in Hmin_le].
  destruct (MAXZ_spec _ Hne) as [Hmax_in Hmax_le].
  assert (Hfirst : In d (map ds_date days)).
  { apply (Permutation_in _ (Permutation_sym Hdays)). now left. }
  assert (Hlast : In (d + 4)%Z (map ds_date days)).
  { apply (Permutation_in _ (Permutation_sym Hdays)). do 3 right. now left. }
  apply (Permutation_in _ Hdays) in Hmin_in, Hmax_in.
  specialize (Hmin_le _ Hfirst). specialize (Hmax_le _ Hlast).
  cbn [In] in Hmin_in, Hmax_in. repeat split; lia.
Qed.

Lemma gap_does_not_break_streak_witness :
  exists s : Streak,
    Views.streaks_of Samples.after_gap Samples.gap_days "C1" = [s] /\
    streak_start s = Samples.jan_1_2024 /\
    streak_end s = (Samples.jan_1_2024 + 4)%Z /\
    consecutive_days s = 4%Z /\
    avg_sentiment_in_streak s
    = AVG (map daily_sentiment
             (Views.daily_buckets Samples.after_gap Samples.gap_days "C1")).
Proof.
  apply (gap_does_not_break_streak Samples.after_gap Samples.gap_days "C1"
           Samples.jan_1_2024).
  - vm_compute. apply Permutation_refl.
  - vm_compute. repeat constructor.
Defined.

(* ------------------------------------------------------------------ *)
(** ** The alert generator *)
(* ------------------------------------------------------------------ *)

Import Alerts.

Lemma streak_loop (channels : list ChannelSummary) (risks : list Streak)
  (st : list Alert * list SavedAlert) :
  fst (fold_left (streak_step channels) risks st)
  = fst st ++ map (streak_alert channels) risks.
Proof.
  revert st. induction risks as [|r risks IH]; intros st; cbn [fold_left map].
  - now rewrite app_nil_r.
  - rewrite IH. cbn [streak_step fst]. now rewrite <- app_assoc.
Qed.

Lemma trend_loop (channels : list ChannelSummary) (trends : list DecliningTrend)
  (acc : list Alert) :
  fold_left (trend_step channels) trends acc
  = acc ++ map (trend_alert channels) trends.
Proof.
  revert acc. induction trends as [|t trends IH]; intros acc; cbn [fold_left map].
  - now rewrite app_nil_r.
  - rewrite IH. unfold trend_step. now rewrite <- app_assoc.
Qed.

(** The loop over the channels appends threshold alerts only, at most
    one per channel id, and none for a channel id that has an alert
    already. *)
Lemma channel_loop (channels : list ChannelSummary) (acc : list Alert) :
  exists pushed : list Alert,
    fold_left channel_step channels acc = acc ++ pushed /\
    Forall threshold_severity pushed /\
    (forall c, (length (filter (for_channel c) pushed) <= 1)%nat) /\
    (forall c, existsb (for_channel c) acc = true ->
               filter (for_channel c) pushed = []).
Proof.
  revert acc. induction channels as [|ch channels IH]; intros acc.
  - exists []. cbn. rewrite app_nil_r. repeat split; auto.
  - cbn [fold_left].
    assert (Hstep : channel_step acc ch = acc \/
                    exists a, channel_step acc ch = acc ++ [a] /\
                              threshold_severity a /\
                              a_channel_id a = cs_id ch /\
                              existsb (for_channel (cs_id ch)) acc = false).
    { unfold channel_step.
      destruct (existsb (for_channel (cs_id ch)) acc) eqn:E.
      - left. rewrite !andb_false_r. reflexivity.
      - rewrite !andb_true_r.
        destruct (Qltb (parseFloat_or (cs_avg_sentiment ch) 5) 4).
        + right. exists (low_sentiment_alert ch). repeat split. now left.
        + destruct (Qltb (parseFloat_or (cs_avg_sentiment ch) 5) (11 # 2)).
          * right. exists (moderate_concern_alert ch). repeat split. now right.
          * now left. }
    destruct Hstep as [->|(a & -> & Hsev & Hid & Hnew)].
    + apply IH.
    + destruct (IH (acc ++ [a])) as (pushed & Hfold & Hsevs & Hone & Hnone).
      exists (a :: pushed). rewrite Hfold, <- app_assoc. split; [reflexivity|].
      split; [now constructor|].
      assert (Hself : for_channel (cs_id ch) a = true).
      { unfold for_channel. rewrite Hid. apply String.eqb_refl. }
      split.
      * intros c. cbn [filter]. destruct (for_channel c a) eqn:Ec.
        -- rewrite Hnone; [cbn; lia|].
           rewrite existsb_app. cbn. rewrite Ec. apply orb_true_r.
        -- apply Hone.
      * intros c Hc. cbn [filter]. destruct (for_channel c a) eqn:Ec.
        -- unfold for_channel in Ec. apply String.eqb_eq in Ec.
           rewrite Hid in Ec. subst c. congruence.
        -- apply Hnone. rewrite existsb_app, Hc. reflexivity.
Qed.

(** C2, as stated, fails.  Channel C1 has three low days whose means
    sink from 3 to 1: the database reports a streak and a declining
    trend for it, and the generator emits a critical and a warning
    alert for the same channel. *)
Lemma two_alerts_for_one_channel :
  let now := (Samples.jan_1_2024 + 2)%Z in
  let risks := detectBurnoutRisks now Samples.sinking_days in
  let channels := getChannelSummary now Samples.channels_table Samples.sinking_days in
  map st_channel_id (consecutive_low_channels risks) = ["C1"%string] /\
  map dt_channel_id (declining_trend_channels risks) = ["C1"%string] /\
  map (fun a => (a_channel_id a, severity a)) (alerts (POST channels risks))
  = [("C1"%string, critical); ("C1"%string, warning)].
Proof.
  vm_compute. repeat split.
Qed.

(** C2, amended.  For every input and every channel id [c], the alerts
    of the run for [c] are: one critical alert for each streak row of
    [c], then one warning alert for each declining-trend row of [c] --
    a warning is emitted whether or not a critical alert was -- and
    then at most one threshold alert (high or medium), which is emitted
    only when there is no critical and no warning alert for [c]. *)
Theorem alerts_of_channel :
  forall (channels : list ChannelSummary) (risks : BurnoutRisks) (c : string),
  exists threshold : list Alert,
    filter (for_channel c) (alerts (POST channels risks))
    = map (streak_alert channels)
        (filter (fun s => String.eqb (st_channel_id s) c)
           (consecutive_low_channels risks))
      ++ map (trend_alert channels)
           (filter (fun t => String.eqb (dt_channel_id t) c)
              (declining_trend_channels risks))
      ++ threshold /\
    (length threshold <= 1)%nat /\
    Forall threshold_severity threshold /\
    (threshold <> [] ->
     filter (fun s => String.eqb (st_channel_id s) c)
       (consecutive_low_channels risks) = [] /\
     filter (fun t => String.eqb (dt_channel_id t) c)
       (declining_trend_channels risks) = []).
Proof.
  intros channels risks c. unfold POST. cbn [alerts].
  rewrite streak_loop, trend_loop. cbn [fst app].
  set (before := map (streak_alert channels) (consecutive_low_channels risks)
                 ++ map (trend_alert channels) (declining_trend_channels risks)).
  destruct (channel_loop channels before) as (pushed & -> & Hsev & Hone & Hnone).
  exists (filter (for_channel c) pushed).
  assert (Hbefore : filter (for_channel c) before
                    = map (streak_alert channels)
                        (filter (fun s => String.eqb (st_channel_id s) c)
                           (consecutive_low_channels risks))
                      ++ map (trend_alert channels)
                           (filter (fun t => String.eqb (dt_channel_id t) c)
                              (declining_trend_channels risks))).
  { unfold before. rewrite filter_app, !filter_of_map. reflexivity. }
  split; [|split; [|split]].
  - rewrite filter_app, Hbefore, <- app_assoc. reflexivity.
  - apply Hone.
  - rewrite Forall_forall in *. intros a Ha. apply filter_In in Ha. now apply Hsev.
  - intros Hne.
    destruct (existsb (for_channel c) before) eqn:E.
    + elim Hne. now apply Hnone.
    + assert (Hempty : filter (for_channel c) before = []).
      { apply filter_none. intros a Ha.
        destruct (for_channel c a) eqn:Ea; auto.
        assert (existsb (for_channel c) before = true)
          by (apply existsb_exists; eauto).
        congruence. }
      rewrite Hbefore in Hempty. apply app_eq_nil in Hempty.
      destruct Hempty as [H1 H2]. apply map_eq_nil in H1, H2. auto.
Qed.

(* ------------------------------------------------------------------ *)
(** ** Users at risk *)
(* ------------------------------------------------------------------ *)

(** [ROUND(x, 1) > 30] holds from 30.05 on. *)
Lemma rounded_above_30 (x : Q) : 0 <= x -> (30 < ROUND x 1 <-> 601 # 20 <= x).
Proof.
  intros Hx. destruct (ROUND_1_tenths x Hx) as (k & -> & Hlo & Hup). split.
  - intros H. assert (Hk : (300 < k)%Z).
    { rewrite Zlt_Qlt. change (inject_Z 300) with 300. lra. }
    assert (Hk' : (301 <= k)%Z) by lia.
    rewrite Zle_Qle in Hk'. change (inject_Z 301) with 301 in Hk'. lra.
  - intros H. assert (Hk : (301 < k + 1)%Z).
    { rewrite Zlt_Qlt, inject_Z_plus. change (inject_Z 301) with 301.
      change (inject_Z 1) with 1. lra. }
    assert (Hk' : (301 <= k)%Z) by lia.
    rewrite Zle_Qle in Hk'. change (inject_Z 301) with 301 in Hk'. lra.
Qed.

Lemma has_user (u : string) (ms : list Message) :
  filter (has_key string_dec user_id u) ms
  = filter (fun m => String.eqb (user_id m) u) ms.
Proof.
  apply filter_ext. intros m. apply eq_true_iff_eq.
  rewrite has_key_true, String.eqb_eq. reflexivity.
Qed.

Lemma at_risk_iff (g : string * list Message) :
  at_risk (user_risk_row g) = true <->
  AVG (scores (snd g)) < 9#2 /\ 30 < ROUND (Spec.negative_pct (snd g)) 1.
Proof.
  unfold at_risk, user_risk_row, percentage, Spec.negative_pct.
  cbn [ur_avg_sentiment negative_message_percentage].
  rewrite andb_true_iff, !Qltb_lt. reflexivity.
Qed.

(** The users returned by the query, one by one. *)
Lemma flagged_iff (now : Z) (messages : list Message) (u : string) :
  In u (map ur_user_id (userBurnoutRisks now messages)) <->
  let ms := Spec.user_messages now messages u in
  ms <> [] /\ AVG (scores ms) < 9#2 /\ 30 < ROUND (Spec.negative_pct ms) 1.
Proof.
  cbv zeta. unfold userBurnoutRisks, Spec.user_messages.
  set (rows := filter (since now 7) messages).
  rewrite <- has_user. split.
  - intros H. apply in_map_iff in H. destruct H as (row & <- & H).
    apply ORDER_BY_In in H. apply filter_In in H. destruct H as [H Hrisk].
    apply in_map_iff in H. destruct H as (g & <- & Hg).
    pose proof (group_not_empty _ _ _ _ Hg) as Hne.
    apply at_risk_iff in Hrisk. apply in_group_by in Hg.
    destruct Hg as [_ Hg]. cbn [user_risk_row ur_user_id]. rewrite <- Hg.
    tauto.
  - intros (Hne & Hrisk).
    set (g := (u, filter (has_key string_dec user_id u) rows)).
    apply in_map_iff. exists (user_risk_row g). split; [reflexivity|].
    apply ORDER_BY_In. apply filter_In. split.
    + apply in_map. apply in_group_by. split; [|reflexivity]. cbn [fst g].
      destruct (filter (has_key string_dec user_id u) rows) as [|m ms] eqn:E;
        [congruence|].
      assert (Hm : In m (filter (has_key string_dec user_id u) rows))
        by (rewrite E; now left).
      apply filter_In in Hm. destruct Hm as [Hm Hk].
      apply has_key_true in Hk. rewrite <- Hk. now apply in_map.
    + apply at_risk_iff. exact Hrisk.
Qed.

(** The SQLite query returns a user exactly when the user has a
    message in the window, the mean sentiment of the user's messages is
    below 4.5, and the share of them scored below 4, as a percentage
    rounded to one decimal, is above 30 -- that is, the share is at
    least 30.05%.  A user with ten messages, four of them below 4, and
    mean 4.2 has the percentage 40 and is returned; a user with mean
    4.2 and the percentage 20 is not. *)
Lemma sql_flags_by_rounded_percentage :
  (forall (now : Z) (messages : list Message) (u : string),
     let ms := Spec.user_messages now messages u in
     (In u (map ur_user_id (userBurnoutRisks now messages)) <->
      ms <> [] /\ AVG (scores ms) < 9#2 /\ 30 < ROUND (Spec.negative_pct ms) 1)
     /\
     (In u (map ur_user_id (userBurnoutRisks now messages)) <->
      ms <> [] /\ AVG (scores ms) < 9#2 /\ 601 # 20 <= Spec.negative_pct ms))
  /\
  (exists r : UserRisk,
     userBurnoutRisks Samples.jan_1_2024 Samples.four_of_ten = [r] /\
     ur_user_id r = "U1"%string /\ ur_total_messages r = 10%Z /\
     ur_avg_sentiment r == 42 # 10 /\ negative_message_percentage r == 40)
  /\
  (AVG (scores Samples.two_of_ten) == 42 # 10 /\
   percentage is_negative Samples.two_of_ten == 20 /\
   userBurnoutRisks Samples.jan_1_2024 Samples.two_of_ten = []).
Proof.
  split; [|split].
  - intros now messages u ms.
    pose proof (flagged_iff now messages u) as H. cbv zeta in H. fold ms in H.
    split; [exact H|]. rewrite H.
    assert (Hpct : 0 <= Spec.negative_pct ms -> 
                   (30 < ROUND (Spec.negative_pct ms) 1 <->
                    601 # 20 <= Spec.negative_pct ms))
      by apply rounded_above_30.
    split; intros (Hne & Hmean & Hp); (split; [exact Hne|split; [exact Hmean|]]);
      apply Hpct; auto; unfold Spec.negative_pct;
      apply share_nonneg; try apply COUNT_CASE_nonneg;
      pose proof (COUNT_pos ms Hne); lia.
  - eexists. split; [vm_compute; reflexivity|]. repeat split.
  - repeat split.
Qed.

(** C7, on the code.  A user with 203 messages in the window, 61 of
    them below 4, has mean 3.09.. and a share of negative messages of
    30.049..%: the mean is below 4.5 and the share above 30, so the
    user is at risk as the claim says.  The SQLite query compares the
    share rounded to one decimal, 30.0, and does not return the user;
    the key-value backend compares the share itself and returns the
    user. *)
Theorem rounding_hides_a_user_at_risk :
  Spec.at_risk Samples.jan_1_2024 Samples.sixty_one_of_203 "U1" /\
  Spec.negative_pct (Spec.user_messages Samples.jan_1_2024
                       Samples.sixty_one_of_203 "U1") == 6100 # 203 /\
  ROUND (6100 # 203) 1 == 30 /\
  userBurnoutRisks Samples.jan_1_2024 Samples.sixty_one_of_203 = [] /\
  map ur_user_id
    (at_risk_users
       (DatabaseKV.detectBurnoutRisks Samples.noon_jan_3_2024
          Samples.channels_table Samples.sixty_one_of_203))
  = ["U1"%string].
Proof.
  split; [|split; [|split; [|split]]].
  - unfold Spec.at_risk. cbv zeta. split; [|split].
    + vm_compute. discriminate.
    + vm_compute. reflexivity.
    + vm_compute. reflexivity.
  - vm_compute. reflexivity.
  - vm_compute. reflexivity.
  - vm_compute. reflexivity.
  - vm_compute. reflexivity.
Qed.

(* ------------------------------------------------------------------ *)
(** ** The rows of a date *)
(* ------------------------------------------------------------------ *)


(* ------------------------------------------------------------------ *)
(** ** Reactions *)
(* ------------------------------------------------------------------ *)

Import Slack.

Lemma lookup_In {V : Type} (props : list (string * V)) (key : string) (v : V) :
  lookup props key = Some v -> In (key, v) props.
Proof.
  unfold lookup. destruct (find _ props) as [[k w]|] eqn:E; [|discriminate].
  cbn. intros [= ->]. apply find_some in E. destruct E as [Hin Hk].
  cbn in Hk. apply String.eqb_eq in Hk. now subst k.
Qed.

(** Every value written in [emojiMap] is between 1 and 10. *)
Lemma emojiMap_values (emoji : string) (q : Q) :
  lookup emojiMap emoji = Some q -> 1 <= q <= 10.
Proof.
  intros H. apply lookup_In in H.
  assert (Hall : forallb (fun p => Qle_bool 1 (snd p) && Qle_bool (snd p) 10)
                   emojiMap = true) by (vm_compute; reflexivity).
  rewrite forallb_forall in Hall. specialize (Hall _ H). cbn [snd] in Hall.
  apply andb_true_iff in Hall. now rewrite !Qle_bool_iff in Hall.
Qed.

(** A name that [Object.prototype] does not define gets its own value
    of the map, or 5 when the map does not have it. *)
Lemma getEmojiSentiment_own (emoji : string) :
  lookup Object_prototype emoji = None ->
  exists q : Q,
    getEmojiSentiment emoji = JsNumber (Num q) /\ 1 <= q <= 10 /\
    (lookup emojiMap emoji = None -> q = 5).
Proof.
  intros Hproto. unfold getEmojiSentiment, get. rewrite Hproto.
  destruct (lookup emojiMap emoji) as [q|] eqn:E.
  - pose proof (emojiMap_values emoji q E) as Hq. cbn [truthy].
    destruct (Qeq_bool q 0) eqn:E0.
    + apply Qeq_bool_iff in E0. lra.
    + exists q. repeat split; try tauto; discriminate.
  - exists 5. cbn. repeat split; try discriminate.
Qed.

(** While the loop over the reactions only meets such names, the sum
    stays between once and ten times the count. *)
Lemma reaction_loop (reactions : list Reaction) (sum : Q) (n : Z) :
  Forall (fun r => lookup Object_prototype (name r) = None) reactions ->
  (0 <= n)%Z -> inject_Z n <= sum <= 10 * inject_Z n ->
  exists (sum' : Q) (n' : Z),
    fold_left reaction_step reactions (Num sum, n) = (Num sum', n') /\
    (n <= n')%Z /\ (reactions <> [] -> (0 < n')%Z) /\
    inject_Z n' <= sum' <= 10 * inject_Z n'.
Proof.
  intros Hall. revert sum n.
  induction Hall as [|r reactions Hr Hall IH]; intros sum n Hn Hsum.
  - exists sum, n. cbn. repeat split; try tauto; try lia; congruence.
  - cbn [fold_left]. unfold reaction_step at 2. cbn [fst snd].
    destruct (getEmojiSentiment_own (name r) Hr) as (q & -> & Hq & _).
    cbn [ToNumber mul add].
    set (c := if (count r =? 0)%N then 1%Z else Z.of_N (count r)).
    assert (Hc : (1 <= c)%Z).
    { unfold c. destruct (N.eqb_spec (count r) 0); lia. }
    assert (Hc' : 1 <= inject_Z c).
    { change 1 with (inject_Z 1). now rewrite <- Zle_Qle. }
    destruct (IH (sum + q * inject_Z c) (n + c)%Z) as (sum' & n' & E & Hle & _ & Hb).
    + lia.
    + rewrite inject_Z_plus. nra.
    + exists sum', n'. split; [exact E|]. split; [lia|]. split; [intros _; lia|].
      exact Hb.
Qed.

(** With reaction names that [Object.prototype] does not define, the
    blended score of a text score between 1 and 10 is between 1 and 10. *)
Lemma combinedSentiment_in_range (text_score : Q) (reactions : list Reaction) :
  1 <= text_score <= 10 ->
  Forall (fun r => lookup Object_prototype (name r) = None) reactions ->
  in_range (combinedSentiment text_score reactions).
Proof.
  intros Ht Hall. unfold combinedSentiment.
  destruct (reaction_loop reactions 0 0 Hall) as (sum & n & -> & Hn & _ & Hsum).
  - lia.
  - change (inject_Z 0) with 0. lra.
  - cbn [fst snd]. destruct (Z.ltb_spec 0 n) as [Hpos|_]; [|exact Ht].
    cbn [div mul add in_range].
    assert (Hp : 0 < inject_Z n) by now apply inject_Z_pos.
    assert (Havg : 1 <= sum / inject_Z n <= 10).
    { split.
      - apply Qle_shift_div_l; [exact Hp|lra].
      - apply Qle_shift_div_r; [exact Hp|lra]. }
    lra.
Qed.

(** C10, on the code.  The reaction name [constructor] is not a key of
    [emojiMap], but the read [emojiMap[emoji]] finds the function that
    every object inherits under this name; the function is truthy, so
    the default 5 is not taken.  The lookup returns a function, its
    product with the count is [NaN], and the blended score of the
    message is [NaN]: not a value between 1 and 10. *)
Theorem inherited_name_breaks_the_range :
  lookup emojiMap "constructor" = None /\
  getEmojiSentiment "constructor" = JsFunction "Object" /\
  stored_sentiment [ {| name := "constructor"; count := 1 |} ] = NaN /\
  ~ in_range (stored_sentiment [ {| name := "constructor"; count := 1 |} ]).
Proof.
  repeat split. intros H. exact H.
Qed.

(* ------------------------------------------------------------------ *)
(** ** Trend analysis *)
(* ------------------------------------------------------------------ *)

Section PermutationFacts.
Context {A : Type}.

Lemma filter_perm (p : A -> bool) (l l' : list A) :
  Permutation l l' -> Permutation (filter p l) (filter p l').
Proof.
  induction 1 as [|x l l' _ IH|x y l|l l' l'' _ IH1 _ IH2]; cbn [filter].
  - constructor.
  - destruct (p x); auto.
  - destruct (p x), (p y); auto. apply perm_swap.
  - now transitivity (filter p l').
Qed.

Lemma COUNT_filter_perm (p : A -> bool) (l l' : list A) :
  Permutation l l' -> COUNT (filter p l) = COUNT (filter p l').
Proof.
  intros H. unfold COUNT. f_equal. apply Permutation_length.
  now apply filter_perm.
Qed.

Lemma filter_andb (p q : A -> bool) (l : list A) :
  filter (fun x => p x && q x) l = filter q (filter p l).
Proof.
  induction l as [|x l IH]; cbn [filter]; [reflexivity|].
  destruct (p x); cbn [andb filter]; rewrite IH; reflexivity.
Qed.

Lemma COUNT_app (l l' : list A) : COUNT (l ++ l') = (COUNT l + COUNT l')%Z.
Proof. unfold COUNT. rewrite length_app. lia. Qed.

Lemma NoDup_map_filter {B : Type} (key : A -> B) (keep : A -> bool)
  (rows : list A) (Hkeys : NoDup (map key rows)) :
  NoDup (map key (filter keep rows)).
Proof.
  revert Hkeys.
  induction rows as [|x rows IH]; cbn [map filter]; intros H; [constructor|].
  apply NoDup_cons_iff in H. destruct H as [Hx H].
  destruct (keep x); cbn [map]; auto. constructor; auto.
  intros Hin. apply Hx. apply in_map_iff in Hin.
  destruct Hin as (y & Hy & Hin). apply filter_In in Hin.
  rewrite <- Hy. apply in_map. tauto.
Qed.

Lemma sorted_app (R : A -> A -> Prop) (l1 l2 : list A) :
  StronglySorted R (l1 ++ l2) ->
  StronglySorted R l2 /\ forall a b, In a l1 -> In b l2 -> R a b.
Proof.
  induction l1 as [|x l1 IH]; cbn [app]; intros H.
  - split; [exact H|]. intros a b [].
  - apply StronglySorted_inv in H. destruct H as [H Hx].
    destruct (IH H) as [H2 Hall]. split; [exact H2|].
    intros a b [<-|Ha] Hb.
    + rewrite Forall_forall in Hx. apply Hx. apply in_or_app. now right.
    + now apply Hall.
Qed.

End PermutationFacts.


Lemma SUMZ_perm (l l' : list Z) : Permutation l l' -> SUMZ l = SUMZ l'.
Proof.
  induction 1 as [|x l l' _ IH|x y l|l l' l'' _ IH1 _ IH2]; cbn [SUMZ fold_right].
  - reflexivity.
  - fold (SUMZ l). fold (SUMZ l'). now rewrite IH.
  - lia.
  - now transitivity (SUMZ l').
Qed.


(** *** Day numbers *)

Lemma by_date_insert (x : DailySentiment) (l : list DailySentiment) :
  StronglySorted (fun a b => (ds_date a < ds_date b)%Z) l ->
  ~ In (ds_date x) (map ds_date l) ->
  StronglySorted (fun a b => (ds_date a < ds_date b)%Z)
    (insert_by Views.by_date x l).
Proof.
  induction l as [|y l IH]; intros Hs Hx; cbn [insert_by].
  - repeat constructor.
  - apply StronglySorted_inv in Hs. destruct Hs as [Hs Hy].
    cbn [map In] in Hx. unfold Views.by_date at 1.
    destruct (Z.leb_spec (ds_date x) (ds_date y)) as [Hle|Hgt].
    + constructor; [now constructor|].
      rewrite Forall_forall in *. intros z [<-|Hz].
      * lia.
      * specialize (Hy z Hz). cbn beta in Hy. lia.
    + constructor; [apply IH; tauto|].
      rewrite Forall_forall in *. intros z Hz.
      apply (Permutation_in _ (insert_by_perm Views.by_date x l)) in Hz.
      destruct Hz as [<-|Hz]; [lia|now apply Hy].
Qed.

(** Rows with distinct dates come out of [ORDER BY date] in strictly
    increasing date order. *)
Lemma by_date_sorted (l : list DailySentiment) :
  NoDup (map ds_date l) ->
  StronglySorted (fun a b => (ds_date a < ds_date b)%Z)
    (ORDER_BY Views.by_date l).
Proof.
  induction l as [|x l IH]; cbn [map ORDER_BY fold_right]; intros H.
  - constructor.
  - apply NoDup_cons_iff in H. destruct H as [Hx H].
    apply by_date_insert; [now apply IH|].
    intros Hin. apply Hx.
    apply (Permutation_in _ (Permutation_map ds_date (ORDER_BY_perm Views.by_date l))).
    exact Hin.
Qed.

(** In a list in strictly increasing date order, the rows before a row
    are the rows that stand before it. *)
Lemma before_count_sorted (pre rows : list DailySentiment) :
  StronglySorted (fun a b => (ds_date a < ds_date b)%Z) (pre ++ rows) ->
  map (fun r => (Views.before_count (pre ++ rows) r, daily_sentiment r)) rows
  = Views.numbered_from (1 + COUNT pre) (map daily_sentiment rows).
Proof.
  revert pre. induction rows as [|r rows IH]; intros pre Hs; [reflexivity|].
  cbn [map Views.numbered_from]. f_equal.
  - f_equal. unfold Views.before_count. f_equal.
    destruct (sorted_app _ _ _ Hs) as [Hs2 Hpre].
    apply StronglySorted_inv in Hs2. destruct Hs2 as [_ Hr].
    rewrite filter_app, (filter_all _ pre), (filter_none _ (r :: rows)).
    + now rewrite app_nil_r.
    + intros z [<-|Hz]; unfold earlier; apply Z.ltb_ge; [lia|].
      rewrite Forall_forall in Hr. specialize (Hr z Hz). cbn beta in Hr. lia.
    + intros a Ha. unfold earlier. apply Z.ltb_lt.
      apply (Hpre a r Ha). now left.
  - replace (pre ++ r :: rows) with ((pre ++ [r]) ++ rows)
      by (rewrite <- app_assoc; reflexivity).
    replace (1 + COUNT pre + 1)%Z with (1 + COUNT (pre ++ [r]))%Z
      by (rewrite COUNT_app; unfold COUNT; cbn [length]; lia).
    apply IH. rewrite <- app_assoc. exact Hs.
Qed.

(** Numbering rows of distinct dates by the count of earlier rows is
    numbering them 1, 2, .. in date order. *)
Lemma before_count_numbers (rows : list DailySentiment) :
  NoDup (map ds_date rows) ->
  Permutation
    (map (fun r => (Views.before_count rows r, daily_sentiment r)) rows)
    (Views.numbered (map daily_sentiment (ORDER_BY Views.by_date rows))).
Proof.
  intros Hnd. set (sorted := ORDER_BY Views.by_date rows).
  assert (Hperm : Permutation sorted rows) by apply ORDER_BY_perm.
  rewrite <- (Permutation_map _ Hperm).
  rewrite (map_ext _ (fun r => (Views.before_count ([] ++ sorted) r, daily_sentiment r))).
  - rewrite before_count_sorted; [reflexivity|]. now apply by_date_sorted.
  - intros r. unfold Views.before_count. cbn [app].
    now rewrite (COUNT_filter_perm _ _ _ Hperm).
Qed.

(** *** The slope *)

Lemma slope_of_eq (points : list (Z * Q)) :
  slope_of points = divide (Views.slope_num points) (Views.slope_den points).
Proof. reflexivity. Qed.

Lemma slope_den_perm (p q : list (Z * Q)) :
  Permutation p q -> Views.slope_den p = Views.slope_den q.
Proof.
  intros H. unfold Views.slope_den, COUNT.
  rewrite (Permutation_length H).
  rewrite (SUMZ_perm _ _ (Permutation_map fst H)).
  rewrite (SUMZ_perm _ _ (Permutation_map (fun x => x * x)%Z (Permutation_map fst H))).
  reflexivity.
Qed.




Lemma numbered_from_snd (k : Z) (ys : list Q) :
  map snd (Views.numbered_from k ys) = ys.
Proof.
  revert k. induction ys as [|y ys IH]; intros k; cbn; [reflexivity|].
  now rewrite IH.
Qed.

Lemma numbered_from_length (k : Z) (ys : list Q) :
  COUNT (Views.numbered_from k ys) = COUNT ys.
Proof.
  unfold COUNT. rewrite <- (length_map snd), numbered_from_snd. reflexivity.
Qed.

(** Closed forms of the sums of the numbers [k], [k]+1, .. *)
Lemma numbered_from_sums (k : Z) (ys : list Q) :
  let n := COUNT ys in
  let xs := map fst (Views.numbered_from k ys) in
  (2 * SUMZ xs = 2 * n * k + n * (n - 1))%Z /\
  (6 * SUMZ (map (fun x => x * x) xs)
   = 6 * n * k * k + 6 * k * n * (n - 1) + (n - 1) * n * (2 * n - 1))%Z.
Proof.
  revert k. induction ys as [|y ys IH]; intros k.
  - cbv zeta. cbn [Views.numbered_from map SUMZ fold_right]. unfold COUNT.
    cbn [length Z.of_nat]. split; lia.
  - destruct (IH (k + 1)%Z) as [H1 H2]. cbv zeta in *.
    cbn [Views.numbered_from map SUMZ fold_right fst].
    fold (SUMZ (map fst (Views.numbered_from (k + 1) ys))).
    fold (SUMZ (map (fun x => x * x)%Z
                  (map fst (Views.numbered_from (k + 1) ys)))).
    replace (COUNT (y :: ys)) with (COUNT ys + 1)%Z
      by (unfold COUNT; cbn [length]; lia).
    set (n := COUNT ys) in *.
    set (sx := SUMZ (map fst (Views.numbered_from (k + 1) ys))) in *.
    set (sxx := SUMZ (map (fun x => x * x)%Z
                        (map fst (Views.numbered_from (k + 1) ys)))) in *.
    split; nia.
Qed.

(** The denominator only depends on the number of points. *)
Lemma numbered_from_den (k : Z) (ys : list Q) :
  (12 * Views.slope_den (Views.numbered_from k ys)
   = COUNT ys * COUNT ys * (COUNT ys * COUNT ys - 1))%Z.
Proof.
  destruct (numbered_from_sums k ys) as [H1 H2]. cbv zeta in *.
  unfold Views.slope_den. rewrite numbered_from_length.
  set (n := COUNT ys) in *.
  set (sx := SUMZ (map fst (Views.numbered_from k ys))) in *.
  set (sxx := SUMZ (map (fun x => x * x)%Z
                      (map fst (Views.numbered_from k ys)))) in *.
  replace (12 * (n * sxx - sx * sx))%Z
    with (2 * n * (6 * sxx) - 3 * ((2 * sx) * (2 * sx)))%Z by ring.
  rewrite H1, H2. ring.
Qed.

Lemma numbered_from_den_nonzero (k : Z) (ys : list Q) :
  (2 <= length ys)%nat -> Views.slope_den (Views.numbered_from k ys) <> 0%Z.
Proof.
  intros Hn. pose proof (numbered_from_den k ys) as H.
  assert (Hc : (2 <= COUNT ys)%Z) by (unfold COUNT; lia).
  intros E. rewrite E in H. nia.
Qed.




(** A series of equal values has a zero numerator. *)
Lemma constant_num (points : list (Z * Q)) (v : Q) :
  (forall p, In p points -> snd p == v) -> Views.slope_num points == 0.
Proof.
  intros Hv.
  assert (Hy : SUM (map snd points) == inject_Z (COUNT points) * v).
  { induction points as [|p points IH].
    - cbn. ring.
    - cbn [map SUM fold_right]. fold (SUM (map snd points)).
      rewrite IH by (intros q Hq; apply Hv; now right).
      rewrite (Hv p) by now left.
      replace (COUNT (p :: points)) with (COUNT points + 1)%Z
        by (unfold COUNT; cbn [length]; lia).
      rewrite inject_Z_plus. change (inject_Z 1) with 1. ring. }
  assert (Hxy : SUM (map (fun p => inject_Z (fst p) * snd p) points)
                == inject_Z (SUMZ (map fst points)) * v).
  { clear Hy. induction points as [|p points IH].
    - cbn. ring.
    - cbn [map SUM SUMZ fold_right].
      fold (SUM (map (fun p => inject_Z (fst p) * snd p) points)).
      fold (SUMZ (map fst points)).
      rewrite IH by (intros q Hq; apply Hv; now right).
      rewrite (Hv p) by now left.
      rewrite inject_Z_plus. ring. }
  unfold Views.slope_num. rewrite Hy, Hxy. ring.
Qed.

Lemma constant_slope (points : list (Z * Q)) (v : Q) :
  (forall p, In p points -> snd p == v) -> Views.slope_den points <> 0%Z ->
  exists s : Q, slope_of points = Some s /\ s == 0.
Proof.
  intros Hv Hden. rewrite slope_of_eq. unfold divide.
  destruct (Z.eqb_spec (Views.slope_den points) 0) as [E|_]; [contradiction|].
  eexists. split; [reflexivity|].
  rewrite (constant_num points v Hv). unfold Qdiv. ring.
Qed.

(** *** The trend query, channel by channel *)




(** The trend query has one row for a channel and a date. *)
Lemma trend_days_keys (now : Z) (messages : list Message) :
  NoDup (map Views.channel_and_date (trend_days now messages)).
Proof.
  unfold trend_days. rewrite map_map.
  rewrite (map_ext _ fst) by (intros [[c d] ms]; reflexivity).
  apply NoDup_map_filter. apply group_by_NoDup.
Qed.

Lemma channel_dates_NoDup (c : string) (rows : list DailySentiment) :
  NoDup (map Views.channel_and_date rows) ->
  NoDup (map ds_date (filter (Views.of_channel c) rows)).
Proof.
  induction rows as [|x rows IH]; cbn [map filter]; intros H; [constructor|].
  apply NoDup_cons_iff in H. destruct H as [Hx H].
  destruct (Views.of_channel c x) eqn:Ex; [|now apply IH].
  cbn [map]. constructor; [|now apply IH].
  intros Hin. apply Hx. apply in_map_iff in Hin.
  destruct Hin as (y & Hy & Hin). apply filter_In in Hin.
  destruct Hin as [Hin Ey]. apply in_map_iff. exists y. split; [|exact Hin].
  unfold Views.of_channel in Ex, Ey. apply String.eqb_eq in Ex, Ey.
  unfold Views.channel_and_date. congruence.
Qed.

Lemma trend_dates_NoDup (now : Z) (messages : list Message) (c : string) :
  NoDup (map ds_date (Views.trend_days_of now messages c)).
Proof. apply channel_dates_NoDup, trend_days_keys. Qed.

(** The rows of the CTE for one channel. *)
Lemma trend_rows_of_channel (now : Z) (messages : list Message) (c : string) :
  filter (has_key string_dec td_channel_id c) (trend_daily_sentiment now messages)
  = map (trend_day (trend_days now messages)) (Views.trend_days_of now messages c).
Proof.
  unfold trend_daily_sentiment, Views.trend_days_of. rewrite filter_of_map.
  f_equal. apply filter_ext. intros r. apply eq_true_iff_eq.
  rewrite has_key_true. unfold Views.of_channel. cbn [trend_day td_channel_id].
  now rewrite String.eqb_eq.
Qed.

(** [day_num] numbers the days of a channel 1, 2, .. in date order. *)
Lemma trend_points_numbered (now : Z) (messages : list Message) (c : string) :
  Permutation
    (trend_points (map (trend_day (trend_days now messages))
                     (Views.trend_days_of now messages c)))
    (Views.numbered (Views.trend_series now messages c)).
Proof.
  unfold trend_points. rewrite map_map. cbn [trend_day day_num td_daily_sentiment].
  rewrite (map_ext_in _
             (fun r => (Views.before_count (Views.trend_days_of now messages c) r,
                        daily_sentiment r))).
  - apply before_count_numbers, trend_dates_NoDup.
  - intros r Hr. f_equal. unfold ROW_NUMBER, Views.before_count.
    rewrite filter_andb. unfold Views.trend_days_of.
    apply filter_In in Hr. destruct Hr as [_ Hr].
    unfold Views.of_channel in Hr. apply String.eqb_eq in Hr.
    rewrite (filter_ext (fun r' => same_channel r' r) (Views.of_channel c));
      [reflexivity|].
    intros r'. unfold same_channel, Views.of_channel. now rewrite Hr.
Qed.


(** The row of [trend_analysis] for a channel, when it has one. *)
Lemma trend_analysis_of_channel (now : Z) (messages : list Message) (c : string) :
  filter (fun t => String.eqb (ta_channel_id t) c) (trend_analysis now messages)
  = match Views.trend_days_of now messages c with
    | [] => []
    | _ => [trend_analysis_row
              (c, map (trend_day (trend_days now messages))
                    (Views.trend_days_of now messages c))]
    end.
Proof.
  unfold trend_analysis. rewrite filter_of_map.
  cbn [trend_analysis_row ta_channel_id].
  rewrite (group_by_pick string_dec td_channel_id _ (fun k => String.eqb k c) c)
    by (intros a _; apply String.eqb_eq).
  rewrite trend_rows_of_channel.
  destruct (Views.trend_days_of now messages c); reflexivity.
Qed.







(** C6.  On the daily means 2 3 4 5 6 of five days in a row the slope
    that the trend query computes is 1, and so is the slope with the
    indices 0..4; on a series of three or more equal daily means the
    slope is 0. *)
Theorem slope_of_rising_and_constant_series :
  (exists (t : TrendAnalysis) (s : Q),
     trend_analysis (Samples.jan_1_2024 + 4) Samples.rising_days = [t] /\
     map Qred (Views.trend_series (Samples.jan_1_2024 + 4) Samples.rising_days "C1")
     = [2; 3; 4; 5; 6] /\
     trend_slope t = Some s /\ s == 1)
  /\
  (exists s : Q,
     slope_of (Views.numbered [2; 3; 4; 5; 6]) = Some s /\ s == 1)
  /\
  (forall (now : Z) (messages : list Message) (t : TrendAnalysis) (v : Q),
     In t (trend_analysis now messages) -> (3 <= days_count t)%Z ->
     (forall y, In y (Views.trend_series now messages (ta_channel_id t)) ->
                y == v) ->
     exists s : Q, trend_slope t = Some s /\ s == 0)
  /\
  (forall (v : Q) (n : nat),
     (3 <= n)%nat ->
     exists s : Q, slope_of (Views.numbered (repeat v n)) = Some s /\ s == 0).
Proof.
  split; [|split; [|split]].
  - do 2 eexists. split; [vm_compute; reflexivity|].
    split; [vm_compute; reflexivity|]. split; [reflexivity|].
    vm_compute. reflexivity.
  - eexists. split; [vm_compute; reflexivity|]. vm_compute. reflexivity.
  - intros now messages t v Ht H3 Hv.
    set (c := ta_channel_id t) in *.
    assert (Hin : In t (filter (fun t => String.eqb (ta_channel_id t) c)
                          (trend_analysis now messages))).
    { apply filter_In. split; auto. apply String.eqb_refl. }
    rewrite trend_analysis_of_channel in Hin.
    destruct (Views.trend_days_of now messages c) as [|r days] eqn:Edays;
      [destruct Hin|].
    rewrite <- Edays in Hin. destruct Hin as [E|[]].
    pose proof (trend_points_numbered now messages c) as Hperm.
    set (ds := map (trend_day (trend_days now messages))
                 (Views.trend_days_of now messages c)) in *.
    assert (Es : trend_slope t = slope_of (trend_points ds)) by now rewrite <- E.
    assert (Ec : days_count t = COUNT ds) by now rewrite <- E.
    rewrite Es. apply (constant_slope _ v).
    + intros p Hp. apply (Permutation_in _ Hperm) in Hp.
      apply Hv. fold c. rewrite <- (numbered_from_snd 1). now apply in_map.
    + rewrite (slope_den_perm _ _ Hperm). apply numbered_from_den_nonzero.
      assert (Hl : COUNT (trend_points ds) = COUNT ds)
        by (unfold COUNT, trend_points; now rewrite length_map).
      unfold COUNT in Hl, Ec. rewrite (Permutation_length Hperm) in Hl.
      unfold Views.numbered in Hl.
      rewrite <- (length_map snd), numbered_from_snd in Hl. lia.
  - intros v n Hn. apply (constant_slope _ v).
    + intros p Hp. apply (in_map snd) in Hp.
      unfold Views.numbered in Hp. rewrite numbered_from_snd in Hp.
      apply repeat_spec in Hp. now rewrite Hp.
    + apply numbered_from_den_nonzero. rewrite repeat_length. lia.
Qed.

Lemma slope_of_rising_and_constant_series_witness :
  exists t : TrendAnalysis,
    In t (trend_analysis (Samples.jan_1_2024 + 2) Samples.flat_days) /\
    exists s : Q, trend_slope t = Some s /\ s == 0.
Proof.
  eexists. split; [vm_compute; left; reflexivity|].
  apply (proj1 (proj2 (proj2 slope_of_rising_and_constant_series))
           (Samples.jan_1_2024 + 2)%Z Samples.flat_days _ 5).
  - vm_compute. left. reflexivity.
  - vm_compute. intros H. discriminate H.
  - intros y Hy. vm_compute in Hy.
    destruct Hy as [<-|[<-|[<-|[]]]]; vm_compute; reflexivity.
Defined.

(* ------------------------------------------------------------------ *)
(** ** Facts about [ORDER BY] over a total preorder *)
(* ------------------------------------------------------------------ *)

Section SortingFacts.
Context {A : Type}.
Variable le : A -> A -> bool.
Hypothesis le_total : forall a b, le a b = true \/ le b a = true.
Hypothesis le_trans :
  forall a b c, le a b = true -> le b c = true -> le a c = true.

Lemma insert_by_sorted (x : A) (l : list A) :
  StronglySorted (fun a b => le a b = true) l ->
  StronglySorted (fun a b => le a b = true) (insert_by le x l).
Proof.
  induction l as [|y l IH]; intros Hs; cbn [insert_by].
  - repeat constructor.
  - pose proof Hs as Hs'. apply StronglySorted_inv in Hs'.
    destruct Hs' as [Hl Hy]. destruct (le x y) eqn:E.
    + constructor; [exact Hs|]. constructor; [exact E|].
      rewrite Forall_forall in *. intros z Hz. apply (le_trans x y z E).
      now apply Hy.
    + constructor; [now apply IH|].
      rewrite Forall_forall in *. intros z Hz.
      apply (Permutation_in _ (insert_by_perm le x l)) in Hz.
      destruct Hz as [<-|Hz]; [|now apply Hy].
      destruct (le_total x y); congruence.
Qed.

Lemma ORDER_BY_sorted (l : list A) :
  StronglySorted (fun a b => le a b = true) (ORDER_BY le l).
Proof.
  induction l as [|x l IH]; cbn [ORDER_BY fold_right].
  - constructor.
  - now apply insert_by_sorted.
Qed.

(** The first rows of a sorted list come before the rows that follow. *)
Lemma sorted_firstn (n : nat) (l : list A) :
  StronglySorted (fun a b => le a b = true) l ->
  StronglySorted (fun a b => le a b = true) (firstn n l) /\
  forall a b, In a (firstn n l) -> In b (skipn n l) -> le a b = true.
Proof.
  intros Hs. rewrite <- (firstn_skipn n l) in Hs at 1. split.
  - revert Hs. generalize (firstn n l) (skipn n l). intros l1 l2.
    induction l1 as [|x l1 IH]; cbn [app]; intros H; [constructor|].
    apply StronglySorted_inv in H. destruct H as [H Hx].
    constructor; [now apply IH|].
    rewrite Forall_forall in *. intros z Hz. apply Hx. apply in_or_app. now left.
  - now apply sorted_app in Hs.
Qed.

End SortingFacts.

Lemma sorted_weaken {A : Type} (R S : A -> A -> Prop) (l : list A) :
  (forall a b, R a b -> S a b) -> StronglySorted R l -> StronglySorted S l.
Proof.
  intros HRS. induction 1 as [|x l _ IH Hx]; constructor; auto.
  rewrite Forall_forall in *. auto.
Qed.

(** [ORDER BY] an integer column whose values are distinct: the rows
    come out in strictly increasing order. *)
Section KeyOrder.
Context {A : Type}.
Variable key : A -> Z.

Lemma insert_by_key (x : A) (l : list A) :
  StronglySorted (fun a b => (key a < key b)%Z) l ->
  ~ In (key x) (map key l) ->
  StronglySorted (fun a b => (key a < key b)%Z)
    (insert_by (fun a b => (key a <=? key b)%Z) x l).
Proof.
  induction l as [|y l IH]; intros Hs Hx; cbn [insert_by].
  - repeat constructor.
  - apply StronglySorted_inv in Hs. destruct Hs as [Hs Hy].
    cbn [map In] in Hx.
    destruct (Z.leb_spec (key x) (key y)) as [Hle|Hgt].
    + constructor; [now constructor|].
      rewrite Forall_forall in *. intros z [<-|Hz].
      * lia.
      * specialize (Hy z Hz). cbn beta in Hy. lia.
    + constructor; [apply IH; tauto|].
      rewrite Forall_forall in *. intros z Hz.
      apply (Permutation_in _
               (insert_by_perm (fun a b => (key a <=? key b)%Z) x l)) in Hz.
      destruct Hz as [<-|Hz]; [lia|now apply Hy].
Qed.

Lemma ORDER_BY_key (l : list A) :
  NoDup (map key l) ->
  StronglySorted (fun a b => (key a < key b)%Z)
    (ORDER_BY (fun a b => (key a <=? key b)%Z) l).
Proof.
  induction l as [|x l IH]; cbn [map ORDER_BY fold_right]; intros H.
  - constructor.
  - apply NoDup_cons_iff in H. destruct H as [Hx H].
    apply insert_by_key; [now apply IH|].
    intros Hin. apply Hx.
    apply (Permutation_in _ (Permutation_map key
             (ORDER_BY_perm (fun a b => (key a <=? key b)%Z) l))).
    exact Hin.
Qed.

End KeyOrder.

(** The order of two timestamps. *)
Lemma ts_leb_iff (a b : Timestamp) :
  ts_leb a b = true <->
  (ts_day a < ts_day b \/ (ts_day a = ts_day b /\ ts_ms a <= ts_ms b))%Z.
Proof.
  unfold ts_leb. rewrite orb_true_iff, andb_true_iff.
  rewrite Z.ltb_lt, Z.eqb_eq, Z.leb_le. reflexivity.
Qed.

Lemma ts_leb_total (a b : Timestamp) : ts_leb a b = true \/ ts_leb b a = true.
Proof. rewrite !ts_leb_iff. lia. Qed.

Lemma ts_leb_trans (a b c : Timestamp) :
  ts_leb a b = true -> ts_leb b c = true -> ts_leb a c = true.
Proof. rewrite !ts_leb_iff. lia. Qed.

Lemma ts_leb_refl (a : Timestamp) : ts_leb a a = true.
Proof. rewrite ts_leb_iff. lia. Qed.

(** The order of two values of a [TEXT] column. *)
Lemma string_compare_refl (s : string) : String.compare s s = Eq.
Proof.
  induction s as [|c s IH]; cbn [String.compare]; [reflexivity|].
  unfold Ascii.compare. now rewrite N.compare_refl.
Qed.

Lemma string_leb_trans (a b c : string) :
  String.leb a b = true -> String.leb b c = true -> String.leb a c = true.
Proof.
  unfold String.leb. revert b c.
  induction a as [|x a IH]; intros [|y b] [|z c]; cbn [String.compare];
    try congruence.
  unfold Ascii.compare.
  destruct (N.compare_spec (Ascii.N_of_ascii x) (Ascii.N_of_ascii y)) as [E|E|E];
    destruct (N.compare_spec (Ascii.N_of_ascii y) (Ascii.N_of_ascii z)) as [F|F|F];
    destruct (N.compare_spec (Ascii.N_of_ascii x) (Ascii.N_of_ascii z)) as [G|G|G];
    try congruence; try lia; try (intros; reflexivity).
  apply IH.
Qed.

(* ------------------------------------------------------------------ *)
(** ** The tables: messages *)
(* ------------------------------------------------------------------ *)

Lemma LIMIT_split {A} (n : Z) (rows : list A) :
  exists rest : list A,
    rows = Storage.LIMIT n rows ++ rest /\
    COUNT (Storage.LIMIT n rows)
    = (if (n <? 0)%Z then COUNT rows else Z.min n (COUNT rows)) /\
    (rest = [] \/ exists k : nat, Storage.LIMIT n rows = firstn k rows /\
                                  rest = skipn k rows).
Proof.
  unfold Storage.LIMIT. destruct (Z.ltb_spec n 0) as [Hn|Hn].
  - exists []. rewrite app_nil_r. auto.
  - exists (skipn (Z.to_nat n) rows). rewrite firstn_skipn.
    split; [reflexivity|]. split.
    + unfold COUNT. rewrite length_firstn. lia.
    + right. now exists (Z.to_nat n).
Qed.

(** X1.  [getMessages] returns the newest messages of the requested
    channel (of all channels when no channel is given): as many as the
    limit allows, all of them under a negative limit; they stand newest
    first, and no message that was left out is newer than a message
    that was returned. *)
Theorem getMessages_returns_the_newest :
  forall (channelId : option string) (limit : Z) (t : Storage.Tables),
    let wanted := fun m : Message =>
      match Storage.given channelId with
      | Some c => String.eqb (channel_id m) c
      | None => true
      end in
    let result := Storage.getMessages channelId limit t in
    COUNT result
    = (if (limit <? 0)%Z then COUNT (filter wanted (Storage.messages t))
       else Z.min limit (COUNT (filter wanted (Storage.messages t)))) /\
    StronglySorted
      (fun a b => ts_leb (timestamp b) (timestamp a) = true) result /\
    exists left_out : list Message,
      Permutation (result ++ left_out) (filter wanted (Storage.messages t)) /\
      forall m m', In m result -> In m' left_out ->
                   ts_leb (timestamp m') (timestamp m) = true.
Proof.
  intros channelId limit t wanted result.
  set (rows := filter wanted (Storage.messages t)).
  assert (E : result = Storage.LIMIT limit (ORDER_BY Storage.newest_first rows)).
  { unfold result, rows, wanted, Storage.getMessages.
    destruct (Storage.given channelId); [reflexivity|].
    now rewrite (filter_all (fun _ => true)) by reflexivity. }
  assert (Hs : StronglySorted (fun a b => Storage.newest_first a b = true)
                 (ORDER_BY Storage.newest_first rows)).
  { apply ORDER_BY_sorted.
    - intros a b. apply ts_leb_total.
    - intros a b c Hab Hbc. unfold Storage.newest_first in *.
      now apply (ts_leb_trans _ (timestamp b)). }
  destruct (LIMIT_split limit (ORDER_BY Storage.newest_first rows))
    as (rest & Hsplit & Hcount & Hrest).
  rewrite <- E in Hsplit, Hcount, Hrest.
  split; [|split].
  - rewrite Hcount. unfold COUNT.
    now rewrite (Permutation_length (ORDER_BY_perm Storage.newest_first rows)).
  - destruct Hrest as [->|(k & Hk & _)].
    + rewrite app_nil_r in Hsplit. now rewrite <- Hsplit.
    + rewrite Hk. apply sorted_firstn. exact Hs.
  - exists rest. split.
    + rewrite <- Hsplit. apply ORDER_BY_perm.
    + rewrite Hsplit in Hs. apply sorted_app in Hs. destruct Hs as [_ Hall].
      intros m m' Hm Hm'. exact (Hall m m' Hm Hm').
Qed.

Lemma max_rowid_bound (rowids : list Z) (r : Z) :
  In r rowids -> (r <= fold_right Z.max 0 rowids)%Z.
Proof.
  induction rowids as [|x rowids IH]; cbn [In fold_right]; [tauto|].
  intros [->|H]; [lia|]. specialize (IH H). lia.
Qed.

Lemma max_rowid_nonneg (rowids : list Z) : (0 <= fold_right Z.max 0 rowids)%Z.
Proof. induction rowids as [|x rowids IH]; cbn [fold_right]; lia. Qed.

Lemma next_rowid_fresh (seq : Z) (rowids : list Z) (r : Z) :
  In r rowids -> (r < Storage.next_rowid seq rowids)%Z.
Proof.
  intros H. apply max_rowid_bound in H. unfold Storage.next_rowid. lia.
Qed.

Lemma max_rowid_app (rowids : list Z) (r : Z) :
  (0 <= r)%Z ->
  fold_right Z.max 0%Z (rowids ++ [r]) = Z.max r (fold_right Z.max 0%Z rowids).
Proof.
  intros Hr. induction rowids as [|x rowids IH]; cbn [app fold_right].
  - lia.
  - rewrite IH. lia.
Qed.

(** X2.  [saveMessage] never overwrites: it adds one row, whose id is
    above every id of the table, so that [lastID] designates this row
    and no other; the next call gets the next id.  Ids that were
    distinct stay distinct, and the same message saved again is stored
    again. *)
Theorem saveMessage_adds_a_row_with_a_new_id :
  forall (message : Message) (t : Storage.Tables),
    let lastID := fst (Storage.saveMessage message t) in
    let t' := snd (Storage.saveMessage message t) in
    (forall m, In m (Storage.messages t) -> (id m < lastID)%Z) /\
    filter (fun m => (id m =? lastID)%Z) (Storage.messages t')
    = [Storage.message_row lastID message] /\
    (NoDup (map id (Storage.messages t)) ->
     NoDup (map id (Storage.messages t'))) /\
    (forall channelId : option string,
       COUNT (Storage.getMessages channelId (-1) t')
       = (COUNT (Storage.getMessages channelId (-1) t)
          + (match Storage.given channelId with
             | Some c => if String.eqb (channel_id message) c then 1 else 0
             | None => 1
             end))%Z) /\
    fst (Storage.saveMessage message t') = (lastID + 1)%Z.
Proof.
  intros message t lastID t'.
  assert (Hfresh : forall m, In m (Storage.messages t) -> (id m < lastID)%Z).
  { intros m Hm. apply next_rowid_fresh. now apply in_map. }
  assert (Hpos : (0 < lastID)%Z).
  { unfold lastID. cbn [Storage.saveMessage fst]. unfold Storage.next_rowid.
    pose proof (max_rowid_nonneg (map id (Storage.messages t))). lia. }
  split; [exact Hfresh|]. split; [|split; [|split]].
  - unfold t'. cbn [Storage.saveMessage snd Storage.messages].
    rewrite filter_app. fold lastID.
    rewrite (filter_none (fun m => (id m =? lastID)%Z)).
    + cbn [filter Storage.message_row id app]. now rewrite Z.eqb_refl.
    + intros m Hm. apply Z.eqb_neq. specialize (Hfresh m Hm). lia.
  - intros Hnd. unfold t'. cbn [Storage.saveMessage snd Storage.messages].
    fold lastID. rewrite map_app. cbn [map Storage.message_row id].
    apply NoDup_app; [exact Hnd|repeat constructor; intros []|].
    intros r Hr [E|[]]. apply in_map_iff in Hr.
    destruct Hr as (m & Em & Hm). specialize (Hfresh m Hm).
    change (lastID = r) in E. lia.
  - intros channelId. unfold Storage.getMessages, Storage.LIMIT.
    change (-1 <? 0)%Z with true. cbv iota.
    unfold t'. cbn [Storage.saveMessage snd Storage.messages]. fold lastID.
    destruct (Storage.given channelId) as [c|]; unfold COUNT.
    + rewrite !(Permutation_length (ORDER_BY_perm Storage.newest_first _)).
      rewrite filter_app, length_app.
      cbn [filter Storage.message_row channel_id].
      destruct (String.eqb (channel_id message) c); cbn [length]; lia.
    + rewrite !(Permutation_length (ORDER_BY_perm Storage.newest_first _)).
      rewrite length_app. cbn [length]. lia.
  - assert (El : lastID = Storage.next_rowid (Storage.messages_seq t)
                            (map id (Storage.messages t))) by reflexivity.
    unfold t'.
    cbn [Storage.saveMessage snd fst Storage.messages Storage.messages_seq].
    rewrite <- El. unfold Storage.next_rowid.
    rewrite map_app. cbn [map Storage.message_row id].
    rewrite max_rowid_app by lia.
    assert (Hmax : (fold_right Z.max 0 (map id (Storage.messages t)) < lastID)%Z)
      by (rewrite El; unfold Storage.next_rowid; lia).
    lia.
Qed.

(* ------------------------------------------------------------------ *)
(** ** The tables: channels *)
(* ------------------------------------------------------------------ *)

(** X3.  [saveChannel] replaces by id: afterwards [getChannels] lists
    exactly one row with the id of the channel, carrying the new name
    and the default settings, beside the rows of the other ids, which
    are unchanged; the list is in name order.  Saving the same channel
    again changes nothing, and ids that were distinct stay distinct. *)
Theorem saveChannel_replaces_the_row_of_its_id :
  forall (channel : Channel) (t : Storage.Tables),
    let t' := Storage.saveChannel channel t in
    let row := {| Storage.row_id := chan_id channel;
                  Storage.row_name := chan_name channel;
                  Storage.is_active := true;
                  Storage.alert_threshold := 4 |} in
    (forall r, In r (Storage.getChannels t') <->
               r = row \/
               (In r (Storage.getChannels t) /\
                Storage.row_id r <> chan_id channel)) /\
    filter (fun r => String.eqb (Storage.row_id r) (chan_id channel))
      (Storage.channels t') = [row] /\
    StronglySorted
      (fun a b => String.leb (Storage.row_name a) (Storage.row_name b) = true)
      (Storage.getChannels t') /\
    Storage.saveChannel channel t' = t' /\
    (NoDup (map Storage.row_id (Storage.channels t)) ->
     NoDup (map Storage.row_id (Storage.getChannels t'))).
Proof.
  intros channel t t' row.
  set (other := fun r => negb (String.eqb (Storage.row_id r) (chan_id channel))).
  assert (Ech : Storage.channels t' = filter other (Storage.channels t) ++ [row])
    by reflexivity.
  assert (Hself : String.eqb (Storage.row_id row) (chan_id channel) = true)
    by apply String.eqb_refl.
  split; [|split; [|split; [|split]]].
  - intros r. unfold Storage.getChannels. rewrite !ORDER_BY_In, Ech.
    rewrite in_app_iff, filter_In. unfold other.
    rewrite negb_true_iff, String.eqb_neq. cbn [In]. split.
    + intros [H|[<-|[]]]; auto.
    + intros [->|H]; auto.
  - rewrite Ech, filter_app.
    rewrite (filter_none (fun r => String.eqb (Storage.row_id r) (chan_id channel))).
    + cbn [filter app]. now rewrite Hself.
    + intros r Hr. apply filter_In in Hr. destruct Hr as [_ Hr].
      unfold other in Hr. now apply negb_true_iff in Hr.
  - apply ORDER_BY_sorted.
    + intros a b. apply String.leb_total.
    + intros a b c. apply string_leb_trans.
  - unfold Storage.saveChannel at 1. fold other. rewrite Ech, filter_app.
    rewrite (filter_all other (filter other _)).
    2:{ intros r Hr. now apply filter_In in Hr. }
    cbn [filter]. unfold other at 2. rewrite Hself. cbn [negb app].
    rewrite app_nil_r. reflexivity.
  - intros Hnd.
    apply (Permutation_NoDup
             (Permutation_map Storage.row_id
                (Permutation_sym (ORDER_BY_perm _ (Storage.channels t'))))).
    rewrite Ech, map_app. cbn [map]. apply NoDup_app.
    + now apply NoDup_map_filter.
    + repeat constructor. intros [].
    + intros k Hk [<-|[]]. apply in_map_iff in Hk.
      destruct Hk as (r & Er & Hr). apply filter_In in Hr.
      destruct Hr as [_ Hr]. unfold other in Hr.
      apply negb_true_iff, String.eqb_neq in Hr. now apply Hr.
Qed.

(* ------------------------------------------------------------------ *)
(** ** The tables: alerts *)
(* ------------------------------------------------------------------ *)

(** The rows that [saveAlerts] appends: one per saved alert, in order,
    unresolved and stamped with the current instant. *)
Lemma saveAlerts_rows (rows : list SavedAlert) (now : Z) (t : Storage.Tables) :
  exists added : list Storage.AlertRow,
    Storage.alerts (Storage.saveAlerts rows now t) = Storage.alerts t ++ added /\
    map (fun a => (Storage.alert_channel_id a, Storage.alert_type a,
                   Storage.created_at a, Storage.is_resolved a)) added
    = map (fun r => (sa_channel_id r, sa_alert_type r, now, false)) rows.
Proof.
  revert t. induction rows as [|r rows IH]; intros t.
  - exists []. cbn. now rewrite app_nil_r.
  - unfold Storage.saveAlerts. cbn [fold_left].
    destruct (IH (Storage.saveAlert r now t)) as (added & E & Hadded).
    unfold Storage.saveAlerts in E. rewrite E.
    cbn [Storage.saveAlert Storage.alerts]. rewrite <- app_assoc. cbn [app].
    eexists. split; [reflexivity|]. cbn [map]. now rewrite Hadded.
Qed.

Lemma saved_loop (channels : list ChannelSummary) (risks : list Streak)
  (st : list Alert * list SavedAlert) :
  snd (fold_left (streak_step channels) risks st)
  = snd st ++ map (fun risk => {| sa_channel_id := st_channel_id risk;
                                  sa_alert_type := burnout_critical |}) risks.
Proof.
  revert st. induction risks as [|r risks IH]; intros st; cbn [fold_left map].
  - now rewrite app_nil_r.
  - rewrite IH. cbn [streak_step snd]. now rewrite <- app_assoc.
Qed.

(** X4.  Every run of the analysis stores one new alert for each
    reported streak, whatever is stored already, and nothing for a
    declining trend or a threshold alert.  The stored alerts are
    critical ones, unresolved and stamped with the instant of the run;
    [getAlerts] then lists them with the unresolved alerts that it
    listed before, newest first. *)
Theorem analysis_run_stores_an_alert_per_streak :
  forall (channels : list ChannelSummary) (risks : BurnoutRisks) (now : Z)
         (t : Storage.Tables),
    let t' := Storage.saveAlerts (saved (POST channels risks)) now t in
    COUNT (Storage.getAlerts None t')
    = (COUNT (Storage.getAlerts None t)
       + COUNT (consecutive_low_channels risks))%Z /\
    (forall s : Streak, In s (consecutive_low_channels risks) ->
       exists a : Storage.AlertRow,
         In a (Storage.getAlerts (Some (st_channel_id s)) t') /\
         Storage.alert_channel_id a = st_channel_id s /\
         Storage.alert_type a = burnout_critical /\
         Storage.created_at a = now) /\
    (forall a : Storage.AlertRow, In a (Storage.getAlerts None t') ->
       Storage.is_resolved a = false /\
       (In a (Storage.getAlerts None t) \/
        Storage.alert_type a = burnout_critical /\ Storage.created_at a = now /\
        In (Storage.alert_channel_id a)
           (map st_channel_id (consecutive_low_channels risks)))) /\
    StronglySorted
      (fun a b => (Storage.created_at b <= Storage.created_at a)%Z)
      (Storage.getAlerts None t').
Proof.
  intros channels risks now t t'.
  set (row_of := fun risk : Streak =>
         {| sa_channel_id := st_channel_id risk;
            sa_alert_type := burnout_critical |}).
  assert (Esaved : saved (POST channels risks)
                   = map row_of (consecutive_low_channels risks)).
  { cbn [POST saved]. now rewrite saved_loop. }
  destruct (saveAlerts_rows (saved (POST channels risks)) now t)
    as (added & Eal & Hadded).
  fold t' in Eal. rewrite Esaved, map_map in Hadded.
  cbn [row_of sa_channel_id sa_alert_type] in Hadded.
  set (view := fun a => (Storage.alert_channel_id a, Storage.alert_type a,
                         Storage.created_at a, Storage.is_resolved a)) in Hadded.
  assert (Hrow : forall a, In a added ->
            Storage.is_resolved a = false /\
            Storage.alert_type a = burnout_critical /\
            Storage.created_at a = now /\
            In (Storage.alert_channel_id a)
               (map st_channel_id (consecutive_low_channels risks))).
  { intros a Ha. apply (in_map view) in Ha. rewrite Hadded in Ha.
    apply in_map_iff in Ha. destruct Ha as (s & Es & Hs).
    unfold view in Es. injection Es as E1 E2 E3 E4.
    repeat split; try congruence. rewrite <- E1. now apply in_map. }
  assert (Hall : filter (Storage.unresolved_of None) added = added).
  { apply filter_all. intros a Ha. unfold Storage.unresolved_of.
    cbn [Storage.given]. destruct (Hrow a Ha) as [-> _]. reflexivity. }
  split; [|split; [|split]].
  - unfold Storage.getAlerts, COUNT.
    rewrite !(Permutation_length (ORDER_BY_perm _ _)).
    rewrite Eal, filter_app, Hall, length_app.
    rewrite <- (length_map view added), Hadded, length_map. lia.
  - intros s Hs.
    assert (Hv : In (st_channel_id s, burnout_critical, now, false)
                   (map view added)).
    { rewrite Hadded.
      exact (in_map (fun x => (st_channel_id x, burnout_critical, now, false))
               _ s Hs). }
    apply in_map_iff in Hv. destruct Hv as (a & Ea & Ha).
    unfold view in Ea. injection Ea as E1 E2 E3 E4.
    exists a. split; [|auto]. unfold Storage.getAlerts.
    apply ORDER_BY_In. apply filter_In. split.
    + rewrite Eal. apply in_or_app. now right.
    + unfold Storage.unresolved_of.
      destruct (Storage.given (Some (st_channel_id s))) as [c|] eqn:Eg.
      * cbn [Storage.given] in Eg.
        destruct (String.eqb (st_channel_id s) EmptyString); [discriminate|].
        injection Eg as <-. now rewrite E1, E4, String.eqb_refl.
      * now rewrite E4.
  - intros a Ha. unfold Storage.getAlerts in Ha. apply ORDER_BY_In in Ha.
    apply filter_In in Ha. destruct Ha as [Ha Hun].
    split.
    + unfold Storage.unresolved_of in Hun. cbn [Storage.given] in Hun.
      now apply negb_true_iff in Hun.
    + rewrite Eal in Ha. apply in_app_or in Ha. destruct Ha as [Ha|Ha].
      * left. unfold Storage.getAlerts. apply ORDER_BY_In.
        apply filter_In. auto.
      * right. destruct (Hrow a Ha) as (_ & H2 & H3 & H4). auto.
  - apply (sorted_weaken
             (fun a b => (Storage.created_at b <=? Storage.created_at a)%Z = true)).
    + intros a b H. now apply Z.leb_le.
    + apply ORDER_BY_sorted.
      * intros a b. rewrite !Z.leb_le. lia.
      * intros a b c. rewrite !Z.leb_le. lia.
Qed.

(* ------------------------------------------------------------------ *)
(** ** Bounds of the aggregates *)
(* ------------------------------------------------------------------ *)






Lemma COUNT_DISTINCT_bounds {K : Type}
  (K_dec : forall x y : K, {x = y} + {x <> y}) (vals : list K) :
  vals <> [] -> (1 <= COUNT_DISTINCT K_dec vals <= COUNT vals)%Z.
Proof.
  intros Hne. unfold COUNT_DISTINCT. split.
  - apply COUNT_pos. destruct vals as [|v vals]; [congruence|].
    intros E. assert (Hv : In v (nodup K_dec (v :: vals)))
      by (apply nodup_In; now left).
    rewrite E in Hv. destruct Hv.
  - unfold COUNT. apply inj_le. apply NoDup_incl_length.
    + apply NoDup_nodup.
    + intros x Hx. now apply nodup_In in Hx.
Qed.

(** A share of a group, as a percentage. *)
Lemma share_bounds {A} (when : A -> bool) (rows : list A) :
  rows <> [] ->
  0 <= inject_Z (COUNT_CASE when rows) * 100 / inject_Z (COUNT rows) <= 100.
Proof.
  intros Hne. pose proof (COUNT_pos rows Hne) as Hn.
  assert (Hp : 0 < inject_Z (COUNT rows)) by (apply inject_Z_pos; lia).
  assert (Hle : (COUNT_CASE when rows <= COUNT rows)%Z).
  { unfold COUNT_CASE, COUNT. apply inj_le. apply filter_length_le. }
  pose proof (COUNT_CASE_nonneg when rows) as H0.
  apply inject_Z_nonneg in H0. rewrite Zle_Qle in Hle. split.
  - apply Qle_shift_div_l; [exact Hp|lra].
  - apply Qle_shift_div_r; [exact Hp|lra].
Qed.

(** Rounding keeps a value between 0 and a whole number in these
    bounds. *)
Lemma ROUND_bounds (x : Q) (digits : nat) (hi : Z) :
  0 <= x <= inject_Z hi -> 0 <= ROUND x digits <= inject_Z hi.
Proof.
  intros [Hlo Hhi]. unfold ROUND.
  pose proof Hlo as Hb. apply Qle_bool_iff in Hb. rewrite Hb.
  set (p := (10 ^ Z.of_nat digits)%Z).
  assert (Hp : (0 < p)%Z) by (apply Z.pow_pos_nonneg; lia).
  pose proof (inject_Z_pos p Hp) as Hs.
  set (f := Qfloor (x * inject_Z p + (1 # 2))).
  assert (Hf0 : (0 <= f)%Z).
  { change 0%Z with (Qfloor 0). apply Qfloor_resp_le. nra. }
  assert (Hf1 : (f <= hi * p)%Z).
  { apply Z.lt_succ_r. rewrite Zlt_Qlt.
    apply Qle_lt_trans with (x * inject_Z p + (1 # 2)); [apply Qfloor_le|].
    unfold Z.succ. rewrite inject_Z_plus, inject_Z_mult.
    change (inject_Z 1) with 1. nra. }
  apply inject_Z_nonneg in Hf0. rewrite Zle_Qle, inject_Z_mult in Hf1. split.
  - apply Qle_shift_div_l; [exact Hs|lra].
  - apply Qle_shift_div_r; [exact Hs|lra].
Qed.

Lemma percentage_bounds (when : Message -> bool) (ms : list Message) :
  ms <> [] -> 0 <= percentage when ms <= 100.
Proof.
  intros Hne. unfold percentage. apply (ROUND_bounds _ 1 100).
  now apply share_bounds.
Qed.

Lemma SUMZ_cons (x : Z) (l : list Z) : SUMZ (x :: l) = (x + SUMZ l)%Z.
Proof. reflexivity. Qed.

(** The groups of a [GROUP BY] hold every row once. *)
Lemma group_sizes {A K : Type} (K_dec : forall x y : K, {x = y} + {x <> y})
  (key : A -> K) (keys : list K) (rows : list A) :
  NoDup keys -> (forall a, In a rows -> In (key a) keys) ->
  SUMZ (map (fun k => COUNT (filter (has_key K_dec key k) rows)) keys)
  = COUNT rows.
Proof.
  intros Hnd. induction rows as [|a rows IH]; intros Hin.
  - cbn [filter]. clear.
    induction keys as [|k keys IH]; cbn [map]; [reflexivity|].
    rewrite SUMZ_cons, IH. reflexivity.
  - assert (Hrest : forall b, In b rows -> In (key b) keys)
      by (intros b Hb; apply Hin; now right).
    specialize (IH Hrest).
    assert (Ha : In (key a) keys) by (apply Hin; now left).
    set (hit := fun k => if K_dec (key a) k then true else false).
    assert (Hone : forall ks : list K,
              SUMZ (map (fun k => COUNT (filter (has_key K_dec key k) (a :: rows))) ks)
              = (SUMZ (map (fun k => COUNT (filter (has_key K_dec key k) rows)) ks)
                 + COUNT (filter hit ks))%Z).
    { clear. induction ks as [|k ks IHk]; [reflexivity|].
      cbn [map]. rewrite !SUMZ_cons, IHk. cbn [filter].
      change (has_key K_dec key k a) with (hit k).
      destruct (hit k); unfold COUNT; cbn [length]; lia. }
    rewrite (Hone keys), IH.
    assert (Hcount : COUNT (filter hit keys) = 1%Z).
    { clear - Hnd Ha. induction Hnd as [|k ks Hk Hks IHk]; [destruct Ha|].
      cbn [filter]. unfold hit at 1. destruct (K_dec (key a) k) as [E|E].
      - rewrite (filter_none hit); [reflexivity|].
        intros k0 Hk0. unfold hit. destruct (K_dec (key a) k0); [|reflexivity].
        congruence.
      - destruct Ha as [Ha|Ha]; [congruence|]. now apply IHk. }
    rewrite Hcount. unfold COUNT. cbn [length]. lia.
Qed.

Lemma group_by_sizes {A K : Type} (K_dec : forall x y : K, {x = y} + {x <> y})
  (key : A -> K) (rows : list A) :
  SUMZ (map (fun g => COUNT (snd g)) (group_by K_dec key rows)) = COUNT rows.
Proof.
  unfold group_by. rewrite map_map. cbn [snd].
  apply group_sizes.
  - apply NoDup_nodup.
  - intros a Ha. apply nodup_In. now apply in_map.
Qed.

(* ------------------------------------------------------------------ *)
(** ** The daily trend of one channel *)
(* ------------------------------------------------------------------ *)


(* ------------------------------------------------------------------ *)
(** ** Rows of the analytic queries *)
(* ------------------------------------------------------------------ *)

(** X6.  [getDailyMoodTrends] returns its rows in increasing date
    order, one row for a date; every message of the window is counted
    by exactly one row, so the totals add up to the number of messages
    of the window.  A row has at least one channel and one user, no
    more of either than messages, and percentages between 0 and 100. *)
Theorem daily_trend_counts_every_message_once :
  forall (days now : Z) (messages : list Message),
    let rows := getDailyMoodTrends days now messages in
    StronglySorted (fun a b => (dm_date a < dm_date b)%Z) rows /\
    SUMZ (map dm_total_messages rows)
    = COUNT (filter (since now days) messages) /\
    forall b, In b rows ->
      (now - days <= dm_date b)%Z /\
      (1 <= active_channels b <= dm_total_messages b)%Z /\
      (1 <= dm_active_users b <= dm_total_messages b)%Z /\
      0 <= positive_percentage b <= 100 /\
      0 <= neutral_percentage b <= 100 /\
      0 <= Database.negative_percentage b <= 100.
Proof.
  intros days now messages rows.
  set (sel := filter (since now days) messages).
  set (groups := group_by Z.eq_dec (fun m => DATE (timestamp m)) sel).
  assert (Edates : map dm_date (map daily_mood_row groups) = map fst groups).
  { rewrite map_map. apply map_ext. now intros [date ms]. }
  split; [|split].
  - apply (ORDER_BY_key dm_date). fold sel. fold groups.
    rewrite Edates. apply group_by_NoDup.
  - unfold rows, getDailyMoodTrends. fold sel. fold groups.
    rewrite (SUMZ_perm _ _ (Permutation_map dm_total_messages
                              (ORDER_BY_perm _ (map daily_mood_row groups)))).
    rewrite map_map.
    rewrite (map_ext _ (fun g => COUNT (snd g))) by (now intros [date ms]).
    apply group_by_sizes.
  - intros b Hb. unfold rows, getDailyMoodTrends in Hb.
    apply ORDER_BY_In in Hb. apply in_map_iff in Hb.
    destruct Hb as ([date ms] & <- & Hg).
    pose proof (group_not_empty _ _ _ _ Hg) as Hne. cbn [snd] in Hne.
    apply in_group_by in Hg. cbn [fst snd] in Hg. destruct Hg as [Hdate Ems].
    cbn [daily_mood_row dm_date dm_total_messages active_channels
         dm_active_users positive_percentage neutral_percentage
         Database.negative_percentage].
    assert (Hcount : forall f : Message -> string,
              (1 <= COUNT_DISTINCT string_dec (map f ms) <= COUNT ms)%Z).
    { intros f.
      assert (Hf : map f ms <> []) by (destruct ms; [congruence|discriminate]).
      pose proof (COUNT_DISTINCT_bounds string_dec _ Hf) as Hb.
      replace (COUNT (map f ms)) with (COUNT ms) in Hb
        by (unfold COUNT; now rewrite !length_map).
      exact Hb. }
    split; [|split; [|split; [|split; [|split]]]].
    + apply in_map_iff in Hdate. destruct Hdate as (m & <- & Hm).
      apply filter_In in Hm. destruct Hm as [_ Hm].
      unfold since in Hm. now apply Z.leb_le in Hm.
    + apply Hcount.
    + apply Hcount.
    + now apply percentage_bounds.
    + now apply percentage_bounds.
    + now apply percentage_bounds.
Qed.

(** X7.  [getChannelSummary] lists the channels lowest mean first.
    Each row belongs to a channel of the table that has a message in
    the seven-day window: the [LEFT JOIN] notwithstanding, a channel
    without such a message has no row. *)
Theorem channel_summary_lists_active_channels_lowest_first :
  forall (now : Z) (channels : list Channel) (messages : list Message),
    let rows := getChannelSummary now channels messages in
    StronglySorted (fun a b => cs_avg_sentiment a <= cs_avg_sentiment b) rows /\
    (forall s, In s rows ->
       (exists c m, In c channels /\ In m messages /\
                    cs_id s = chan_id c /\ cs_name s = chan_name c /\
                    channel_id m = chan_id c /\ since now 7 m = true) /\
       (1 <= cs_active_users s <= cs_total_messages s)%Z /\
       0 <= cs_burnout_risk_percentage s <= 100) /\
    (forall c, In c channels ->
       (forall m, In m messages -> channel_id m = chan_id c ->
                  since now 7 m = false) ->
       ~ In (chan_id c) (map cs_id rows)).
Proof.
  intros now channels messages rows.
  assert (Hrows : forall s, In s rows ->
            (exists c m, In c channels /\ In m messages /\
                         cs_id s = chan_id c /\ cs_name s = chan_name c /\
                         channel_id m = chan_id c /\ since now 7 m = true) /\
            (1 <= cs_active_users s <= cs_total_messages s)%Z /\
            0 <= cs_burnout_risk_percentage s <= 100).
  { intros s Hs. unfold rows, getChannelSummary in Hs.
    apply ORDER_BY_In in Hs. apply in_map_iff in Hs.
    destruct Hs as ([k grows] & <- & Hg).
    pose proof (group_not_empty _ _ _ _ Hg) as Hne. cbn [snd] in Hne.
    apply in_group_by in Hg. cbn [fst snd] in Hg. destruct Hg as [Hk Egrows].
    cbn [channel_summary_row cs_id cs_name cs_active_users cs_total_messages
         cs_burnout_risk_percentage].
    assert (Hms : map snd grows <> [])
      by (destruct grows; [congruence|discriminate]).
    split; [|split].
    - apply in_map_iff in Hk. destruct Hk as ([c m] & <- & Hr).
      unfold channel_join in Hr. apply in_flat_map in Hr.
      destruct Hr as (c' & Hc' & Hr). apply in_map_iff in Hr.
      destruct Hr as (m' & [= <- <-] & Hm). apply filter_In in Hm.
      destruct Hm as [Hm Hcond]. apply andb_true_iff in Hcond.
      destruct Hcond as [Hid Hwin]. apply String.eqb_eq in Hid.
      exists c', m'. cbn [channel_key fst snd]. repeat split; auto.
    - assert (Hu : map user_id (map snd grows) <> [])
        by (destruct grows; [congruence|discriminate]).
      pose proof (COUNT_DISTINCT_bounds string_dec _ Hu) as Hb.
      replace (COUNT (map user_id (map snd grows)))
        with (COUNT (map snd grows)) in Hb
        by (unfold COUNT; now rewrite !length_map).
      exact Hb.
    - now apply percentage_bounds. }
  split; [|split].
  - apply (sorted_weaken
             (fun a b => Qle_bool (cs_avg_sentiment a) (cs_avg_sentiment b) = true)).
    + intros a b H. now apply Qle_bool_iff.
    + apply ORDER_BY_sorted.
      * intros a b. rewrite !Qle_bool_iff.
        destruct (Qlt_le_dec (cs_avg_sentiment b) (cs_avg_sentiment a)) as [H|H];
          [right; now apply Qlt_le_weak|now left].
      * intros a b c. rewrite !Qle_bool_iff. apply Qle_trans.
  - exact Hrows.
  - intros c Hc Hnone Hin. apply in_map_iff in Hin.
    destruct Hin as (s & Hid & Hs).
    destruct (Hrows s Hs) as ((c' & m & _ & Hm & Hid' & _ & Hch & Hwin) & _).
    rewrite (Hnone m Hm) in Hwin; [discriminate|]. congruence.
Qed.



(** Distinct whole numbers between two bounds are no more than the
    bounds leave room for. *)
Lemma NoDup_Z_span (l : list Z) (lo hi : Z) :
  l <> [] -> NoDup l -> (forall x, In x l -> (lo <= x <= hi)%Z) ->
  (COUNT l <= hi - lo + 1)%Z.
Proof.
  intros Hne Hnd Hb.
  assert (Hlh : (lo <= hi)%Z).
  { destruct l as [|x l]; [congruence|].
    specialize (Hb x (or_introl eq_refl)). lia. }
  set (f := fun z => Z.to_nat (z - lo)).
  assert (Hnd' : NoDup (map f l)).
  { apply NoDup_map_NoDup_ForallPairs; [|exact Hnd].
    intros x y Hx Hy E. unfold f in E. apply Hb in Hx, Hy. lia. }
  assert (Hincl : incl (map f l) (seq 0 (Z.to_nat (hi - lo + 1)))).
  { intros n Hn. apply in_map_iff in Hn. destruct Hn as (x & <- & Hx).
    apply in_seq. apply Hb in Hx. unfold f. lia. }
  pose proof (NoDup_incl_length Hnd' Hincl) as Hlen.
  rewrite length_map, length_seq in Hlen. unfold COUNT. lia.
Qed.


Lemma SUM_below (vals : list Q) (hi : Q) :
  vals <> [] -> (forall x, In x vals -> x < hi) ->
  SUM vals < hi * inject_Z (COUNT vals).
Proof.
  induction vals as [|v vals IH]; intros Hne H; [congruence|].
  assert (Hv : v < hi) by (apply H; now left).
  assert (E : inject_Z (COUNT (v :: vals)) == inject_Z (COUNT vals) + 1).
  { unfold COUNT. cbn [length]. rewrite Nat2Z.inj_succ, <- Z.add_1_r.
    now rewrite inject_Z_plus. }
  rewrite E. cbn [SUM fold_right]. fold (SUM vals).
  destruct vals as [|w vals].
  - unfold COUNT, SUM. cbn [length fold_right Z.of_nat].
    change (inject_Z 0) with 0. lra.
  - assert (Hrest : SUM (w :: vals) < hi * inject_Z (COUNT (w :: vals))).
    { apply IH; [discriminate|]. intros x Hx. apply H. now right. }
    lra.
Qed.

Lemma AVG_below (vals : list Q) (hi : Q) :
  vals <> [] -> (forall x, In x vals -> x < hi) -> AVG vals < hi.
Proof.
  intros Hne H. pose proof (SUM_below vals hi Hne H) as Hs.
  pose proof (COUNT_pos vals Hne) as Hn.
  assert (Hp : 0 < inject_Z (COUNT vals)) by (apply inject_Z_pos; lia).
  unfold AVG. apply Qlt_shift_div_r; [exact Hp|lra].
Qed.

Lemma streak_days_keys (now : Z) (messages : list Message) :
  NoDup (map Views.channel_and_date (streak_daily_sentiment now messages)).
Proof.
  unfold streak_daily_sentiment. rewrite map_map.
  rewrite (map_ext _ fst) by (intros [[c d] ms]; reflexivity).
  apply group_by_NoDup.
Qed.

(** X8.  The streak query reports at most one row for a channel.  A
    row counts at least three low days and never more days than lie
    between its start and its end; the start is not before the
    seven-day window, and the mean of the streak is below 4. *)
Theorem streak_rows_are_consistent :
  forall (now : Z) (messages : list Message),
    let rows := consecutiveLowDays now messages in
    NoDup (map st_channel_id rows) /\
    forall s, In s rows ->
      (3 <= consecutive_days s <= streak_end s - streak_start s + 1)%Z /\
      (now - 7 <= streak_start s)%Z /\
      avg_sentiment_in_streak s < 4.
Proof.
  intros now messages rows. split.
  - unfold rows, consecutiveLowDays.
    set (dec := pair_dec string_dec Z.eq_dec).
    set (lkey := fun r : LowSentimentDay => (lsd_channel_id r, grp r)).
    set (groups := group_by dec lkey (low_sentiment_days now messages)).
    rewrite map_map. cbn [streak_row st_channel_id].
    apply NoDup_map_NoDup_ForallPairs.
    + intros g h Hg Hh E. apply filter_In in Hg, Hh.
      destruct Hg as [Hg _], Hh as [Hh _].
      apply (group_by_same_key dec lkey (low_sentiment_days now messages));
        auto.
      assert (Hzero : forall x, In x groups -> snd (fst x) = 0%Z).
      { intros x Hx. apply in_group_by in Hx. destruct Hx as [Hx _].
        apply in_map_iff in Hx. destruct Hx as (r & <- & Hr).
        rewrite low_sentiment_days_eq in Hr. apply in_map_iff in Hr.
        destruct Hr as (d & <- & _). reflexivity. }
      pose proof (Hzero g Hg) as Zg. pose proof (Hzero h Hh) as Zh.
      destruct g as [[cg zg] lg], h as [[ch zh] lh]. cbn [fst snd] in *.
      congruence.
    + apply NoDup_filter. apply (NoDup_map_inv fst). apply group_by_NoDup.
  - intros s Hs.
    assert (K : In s (Views.streaks_of now messages (st_channel_id s))).
    { apply filter_In. split; [exact Hs|]. apply String.eqb_refl. }
    rewrite streaks_of_channel in K. cbv zeta in K.
    set (c := st_channel_id s) in *.
    set (lows := Views.low_days now messages c) in *.
    destruct (Z.leb_spec 3 (COUNT lows)) as [H3|_]; [|destruct K].
    destruct K as [Es|[]]. rewrite <- Es.
    cbn [consecutive_days streak_start streak_end avg_sentiment_in_streak].
    assert (Hne : lows <> []).
    { intros E. rewrite E in H3. unfold COUNT in H3. cbn in H3. lia. }
    assert (Hdates : map ds_date lows <> [])
      by (destruct lows; [congruence|discriminate]).
    destruct (MINZ_spec _ Hdates) as [Hmin_in Hmin].
    destruct (MAXZ_spec _ Hdates) as [_ Hmax].
    split; [split; [exact H3|]|split].
    + replace (COUNT lows) with (COUNT (map ds_date lows))
        by (unfold COUNT; now rewrite length_map).
      apply NoDup_Z_span; [exact Hdates| |].
      * unfold lows, Views.low_days, Views.daily_buckets.
        apply NoDup_map_filter. apply channel_dates_NoDup.
        apply streak_days_keys.
      * intros x Hx. split; [now apply Hmin|now apply Hmax].
    + apply in_map_iff in Hmin_in. destruct Hmin_in as (r & <- & Hr).
      unfold lows, Views.low_days, Views.daily_buckets in Hr.
      apply filter_In in Hr. destruct Hr as [Hr _].
      apply filter_In in Hr. destruct Hr as [Hr _].
      unfold streak_daily_sentiment in Hr. apply in_map_iff in Hr.
      destruct Hr as (g & <- & Hg). apply in_group_by in Hg.
      destruct Hg as [Hg _]. apply in_map_iff in Hg.
      destruct Hg as (m & Em & Hm). apply filter_In in Hm.
      destruct Hm as [_ Hm]. unfold since in Hm. apply Z.leb_le in Hm.
      cbn [daily_sentiment_row ds_date]. rewrite <- Em. exact Hm.
    + apply AVG_below.
      * destruct lows; [congruence|discriminate].
      * intros x Hx. apply in_map_iff in Hx. destruct Hx as (r & <- & Hr).
        unfold lows, Views.low_days in Hr. apply filter_In in Hr.
        destruct Hr as [_ Hr]. unfold is_low in Hr. now apply Qltb_lt in Hr.
Qed.



(** X11.  [getWeeklyMoodTrends] groups by year and week number, so a
    week that runs over New Year is reported in two rows: two messages
    of the window whose dates lie in the same week, Monday to Sunday,
    but in different years are counted by two different rows, and the
    two rows carry the same [week_start]. *)
Theorem week_over_new_year_gives_two_rows :
  forall (weeks now : Z) (messages : list Message) (m1 m2 : Message),
    In m1 messages -> In m2 messages ->
    since now (weeks * 7) m1 = true -> since now (weeks * 7) m2 = true ->
    week_start_of (timestamp m1) = week_start_of (timestamp m2) ->
    year_of (DATE (timestamp m1)) <> year_of (DATE (timestamp m2)) ->
    exists b1 b2 : WeeklyMood,
      In b1 (getWeeklyMoodTrends weeks now messages) /\
      In b2 (getWeeklyMoodTrends weeks now messages) /\
      week b1 = strftime_Y_W (DATE (timestamp m1)) /\
      week b2 = strftime_Y_W (DATE (timestamp m2)) /\
      b1 <> b2 /\
      week_start b1 = week_start b2.
Proof.
  intros weeks now messages m1 m2 H1 H2 W1 W2 Hstart Hyear.
  destruct (weekly_buckets_start_on_monday weeks now messages m1 H1 W1)
    as (b1 & Hb1 & Hw1 & _ & Hs1 & _).
  destruct (weekly_buckets_start_on_monday weeks now messages m2 H2 W2)
    as (b2 & Hb2 & Hw2 & _ & Hs2 & _).
  exists b1, b2. repeat split; auto.
  - intros E. subst b2. rewrite Hw1 in Hw2. unfold strftime_Y_W in Hw2.
    injection Hw2 as Ey _. contradiction.
  - congruence.
Qed.

Lemma week_over_new_year_gives_two_rows_witness :
  exists b1 b2 : WeeklyMood,
    In b1 (getWeeklyMoodTrends 4 Examples.jan_1_2025 Examples.new_year_week) /\
    In b2 (getWeeklyMoodTrends 4 Examples.jan_1_2025 Examples.new_year_week) /\
    week b1 = strftime_Y_W (DATE (timestamp Examples.new_year_eve)) /\
    week b2 = strftime_Y_W (DATE (timestamp Examples.new_year_day)) /\
    b1 <> b2 /\
    week_start b1 = week_start b2.
Proof.
  apply (week_over_new_year_gives_two_rows 4 Examples.jan_1_2025
           Examples.new_year_week Examples.new_year_eve Examples.new_year_day).
  - now left.
  - right. now left.
  - reflexivity.
  - reflexivity.
  - reflexivity.
  - vm_compute. discriminate.
Defined.

(* ------------------------------------------------------------------ *)
(** ** The key-value backend: channels *)
(* ------------------------------------------------------------------ *)

Lemma findIndex_found {A} (p : A -> bool) (pre post : list A) (x : A) :
  (forall y, In y pre -> p y = false) -> p x = true ->
  StorageKV.findIndex p (pre ++ x :: post) = Z.of_nat (length pre).
Proof.
  intros Hpre Hx. induction pre as [|y pre IH]; cbn [app StorageKV.findIndex].
  - now rewrite Hx.
  - rewrite (Hpre y (or_introl eq_refl)).
    rewrite IH by (intros z Hz; apply Hpre; now right).
    cbn [length]. destruct (Z.ltb_spec (Z.of_nat (length pre)) 0); lia.
Qed.

Lemma findIndex_split {A} (p : A -> bool) (l : list A) :
  (StorageKV.findIndex p l = (-1)%Z /\ forall x, In x l -> p x = false) \/
  exists pre old post,
    l = pre ++ old :: post /\ p old = true /\
    (forall x, In x pre -> p x = false).
Proof.
  induction l as [|y l IH]; cbn [StorageKV.findIndex].
  - left. split; [reflexivity|]. intros x [].
  - destruct (p y) eqn:Ey.
    + right. exists [], y, l. repeat split; auto. intros x [].
    + destruct IH as [[E Hall]|(pre & old & post & -> & Hold & Hpre)].
      * left. rewrite E. cbn. split; [reflexivity|].
        intros x [<-|Hx]; auto.
      * right. exists (y :: pre), old, post. repeat split; auto.
        intros x [<-|Hx]; auto.
Qed.

Lemma assign_middle {A} (pre post : list A) (old x : A) :
  StorageKV.assign (length pre) x (pre ++ old :: post) = pre ++ x :: post.
Proof.
  induction pre as [|y pre IH]; cbn [length app StorageKV.assign];
    [reflexivity|]. now rewrite IH.
Qed.

(** The two cases of [saveChannel]: the channel is new and goes to the
    end of the list, or the first element with its id is replaced
    where it stands. *)
Lemma kv_saveChannel_cases (channel : Channel) (s : StorageKV.Store) :
  let p := fun c => String.eqb (Storage.row_id c) (chan_id channel) in
  let row := {| Storage.row_id := chan_id channel;
                Storage.row_name := chan_name channel;
                Storage.is_active := true;
                Storage.alert_threshold := 4 |} in
  ((forall x, In x (StorageKV.kv_channels s) -> p x = false) /\
   StorageKV.kv_channels (StorageKV.saveChannel channel s)
   = StorageKV.kv_channels s ++ [row]) \/
  exists pre old post,
    StorageKV.kv_channels s = pre ++ old :: post /\ p old = true /\
    (forall x, In x pre -> p x = false) /\
    StorageKV.kv_channels (StorageKV.saveChannel channel s) = pre ++ row :: post.
Proof.
  intros p row. cbn [StorageKV.saveChannel StorageKV.kv_channels].
  unfold StorageKV.getChannels. fold p. fold row.
  destruct (findIndex_split p (StorageKV.kv_channels s))
    as [[E Hall]|(pre & old & post & El & Hold & Hpre)].
  - left. rewrite E. auto.
  - right. exists pre, old, post.
    split; [exact El|]. split; [exact Hold|]. split; [exact Hpre|].
    rewrite El. rewrite (findIndex_found p pre post old Hpre Hold).
    destruct (Z.leb_spec 0 (Z.of_nat (length pre))) as [_|H]; [|lia].
    now rewrite Nat2Z.id, assign_middle.
Qed.

(** What a call of the key-value [saveChannel] does to the list of
    the channels. *)
Lemma kv_saveChannel_list :
  forall (channel : Channel) (s : StorageKV.Store),
    let s' := StorageKV.saveChannel channel s in
    let row := {| Storage.row_id := chan_id channel;
                  Storage.row_name := chan_name channel;
                  Storage.is_active := true;
                  Storage.alert_threshold := 4 |} in
    In row (StorageKV.getChannels s') /\
    (forall r, Storage.row_id r <> chan_id channel ->
               (In r (StorageKV.getChannels s') <->
                In r (StorageKV.getChannels s))) /\
    (In (chan_id channel) (map Storage.row_id (StorageKV.getChannels s)) ->
     map Storage.row_id (StorageKV.getChannels s')
     = map Storage.row_id (StorageKV.getChannels s)) /\
    (~ In (chan_id channel) (map Storage.row_id (StorageKV.getChannels s)) ->
     StorageKV.getChannels s' = StorageKV.getChannels s ++ [row]) /\
    StorageKV.saveChannel channel s' = s' /\
    (NoDup (map Storage.row_id (StorageKV.getChannels s)) ->
     NoDup (map Storage.row_id (StorageKV.getChannels s')) /\
     filter (fun r => String.eqb (Storage.row_id r) (chan_id channel))
       (StorageKV.getChannels s') = [row]).
Proof.
  intros channel s s' row. unfold StorageKV.getChannels.
  set (p := fun c => String.eqb (Storage.row_id c) (chan_id channel)).
  assert (Hrow : p row = true) by apply String.eqb_refl.
  assert (Hp : forall r, p r = true <-> Storage.row_id r = chan_id channel)
    by (intros r; apply String.eqb_eq).
  assert (Hidem : forall l pre post,
            l = pre ++ row :: post -> (forall x, In x pre -> p x = false) ->
            (if (0 <=? StorageKV.findIndex p l)%Z
             then StorageKV.assign (Z.to_nat (StorageKV.findIndex p l)) row l
             else l ++ [row]) = l).
  { intros l pre post -> Hpre.
    rewrite (findIndex_found p pre post row Hpre Hrow).
    destruct (Z.leb_spec 0 (Z.of_nat (length pre))) as [_|H]; [|lia].
    now rewrite Nat2Z.id, assign_middle. }
  pose proof (kv_saveChannel_cases channel s) as Hcases. cbv zeta in Hcases.
  fold p in Hcases. fold row in Hcases. fold s' in Hcases.
  destruct Hcases as [[Hall E]|(pre & old & post & El & Hold & Hpre & E)].
  - (* a new channel *)
    assert (Habsent : ~ In (chan_id channel)
                        (map Storage.row_id (StorageKV.kv_channels s))).
    { intros Hin. apply in_map_iff in Hin. destruct Hin as (r & Er & Hr).
      apply Hp in Er. rewrite (Hall r Hr) in Er. discriminate. }
    rewrite E. split; [|split; [|split; [|split; [|split]]]].
    + apply in_or_app. right. now left.
    + intros r Hr. rewrite in_app_iff. cbn [In]. split; [|auto].
      intros [H|[<-|[]]]; auto. now elim Hr.
    + intros Hin. contradiction.
    + reflexivity.
    + unfold StorageKV.saveChannel at 1. unfold StorageKV.getChannels.
      fold p. fold row.
      rewrite (Hidem _ (StorageKV.kv_channels s) [] E Hall).
      unfold s'. reflexivity.
    + intros Hnd. split.
      * rewrite map_app. cbn [map]. apply NoDup_app; [exact Hnd| |].
        -- repeat constructor. intros [].
        -- intros k Hk [<-|[]]. contradiction.
      * fold p. rewrite filter_app, (filter_none p _ Hall). cbn [filter app].
        now rewrite Hrow.
  - (* a known channel *)
    assert (Eold : Storage.row_id old = chan_id channel) by now apply Hp.
    rewrite E, El. split; [|split; [|split; [|split; [|split]]]].
    + apply in_or_app. right. now left.
    + intros r Hr. rewrite !in_app_iff. cbn [In]. split.
      * intros [H|[<-|H]]; auto. now elim Hr.
      * intros [H|[<-|H]]; auto. now elim Hr.
    + intros _. rewrite !map_app. cbn [map]. now rewrite Eold.
    + intros Habsent. elim Habsent. rewrite map_app. apply in_or_app.
      right. left. exact Eold.
    + unfold StorageKV.saveChannel at 1. unfold StorageKV.getChannels.
      fold p. fold row. rewrite (Hidem _ pre post E Hpre).
      unfold s'. reflexivity.
    + intros Hnd. rewrite map_app in Hnd. cbn [map] in Hnd.
      assert (Hpost : forall x, In x post -> p x = false).
      { intros x Hx. destruct (p x) eqn:Ex; [|reflexivity].
        apply Hp in Ex. apply NoDup_remove_2 in Hnd. elim Hnd.
        apply in_or_app. right. rewrite Eold, <- Ex. now apply in_map. }
      split.
      * rewrite map_app. cbn [map]. unfold row at 1.
        cbn [Storage.row_id]. now rewrite <- Eold.
      * fold p. rewrite filter_app. cbn [filter]. rewrite Hrow.
        now rewrite (filter_none p _ Hpre), (filter_none p _ Hpost).
Qed.

(** X12.  The key-value [saveChannel] replaces by id as well, but
    where the channel stands: the list keeps its order, a new channel
    goes to its end, and the saved row carries the new name and the
    default settings.  The rows of the other ids are untouched, saving
    the same channel again changes nothing, and ids that were distinct
    stay distinct. *)
Theorem kv_saveChannel_updates_in_place :
  forall (channel : Channel) (s : StorageKV.Store),
    let s' := StorageKV.saveChannel channel s in
    let row := {| Storage.row_id := chan_id channel;
                  Storage.row_name := chan_name channel;
                  Storage.is_active := true;
                  Storage.alert_threshold := 4 |} in
    In row (StorageKV.getChannels s') /\
    (forall r, Storage.row_id r <> chan_id channel ->
               (In r (StorageKV.getChannels s') <->
                In r (StorageKV.getChannels s))) /\
    (In (chan_id channel) (map Storage.row_id (StorageKV.getChannels s)) ->
     map Storage.row_id (StorageKV.getChannels s')
     = map Storage.row_id (StorageKV.getChannels s)) /\
    (~ In (chan_id channel) (map Storage.row_id (StorageKV.getChannels s)) ->
     StorageKV.getChannels s' = StorageKV.getChannels s ++ [row]) /\
    StorageKV.saveChannel channel s' = s' /\
    (NoDup (map Storage.row_id (StorageKV.getChannels s)) ->
     NoDup (map Storage.row_id (StorageKV.getChannels s')) /\
     filter (fun r => String.eqb (Storage.row_id r) (chan_id channel))
       (StorageKV.getChannels s') = [row]).
Proof.
  intros channel s. exact (kv_saveChannel_list channel s).
Qed.

(** One call of [saveChannel] on each side keeps the two channel
    tables equal up to the order of their rows. *)
Lemma saveChannel_both (channel : Channel) (t : Storage.Tables)
  (s : StorageKV.Store) :
  Permutation (Storage.channels t) (StorageKV.kv_channels s) ->
  NoDup (map Storage.row_id (StorageKV.kv_channels s)) ->
  Permutation (Storage.channels (Storage.saveChannel channel t))
    (StorageKV.kv_channels (StorageKV.saveChannel channel s)) /\
  NoDup (map Storage.row_id
           (StorageKV.kv_channels (StorageKV.saveChannel channel s))).
Proof.
  intros Hperm Hnd. split.
  2:{ apply (kv_saveChannel_list channel s). exact Hnd. }
  set (p := fun c => String.eqb (Storage.row_id c) (chan_id channel)).
  set (other := fun r => negb (String.eqb (Storage.row_id r) (chan_id channel))).
  set (row := {| Storage.row_id := chan_id channel;
                 Storage.row_name := chan_name channel;
                 Storage.is_active := true;
                 Storage.alert_threshold := 4 |}).
  change (Storage.channels (Storage.saveChannel channel t))
    with (filter other (Storage.channels t) ++ [row]).
  apply Permutation_trans
    with (filter other (StorageKV.kv_channels s) ++ [row]).
  { apply Permutation_app_tail. now apply filter_perm. }
  pose proof (kv_saveChannel_cases channel s) as Hcases. cbv zeta in Hcases.
  fold p in Hcases. fold row in Hcases.
  destruct Hcases as [[Hall E]|(pre & old & post & El & Hold & Hpre & E)];
    rewrite E.
  - rewrite (filter_all other); [reflexivity|].
    intros x Hx. unfold other. fold (p x). now rewrite (Hall x Hx).
  - rewrite El in Hnd |- *. rewrite map_app in Hnd. cbn [map] in Hnd.
    assert (Eold : Storage.row_id old = chan_id channel)
      by now apply String.eqb_eq.
    assert (Hpost : forall x, In x post -> p x = false).
    { intros x Hx. destruct (p x) eqn:Ex; [|reflexivity].
      apply String.eqb_eq in Ex. apply NoDup_remove_2 in Hnd. elim Hnd.
      apply in_or_app. right. rewrite Eold, <- Ex. now apply in_map. }
    rewrite filter_app. cbn [filter]. unfold other at 2. fold (p old).
    rewrite Hold. cbn [negb].
    rewrite (filter_all other pre), (filter_all other post).
    + rewrite <- app_assoc. apply Permutation_app_head.
      apply Permutation_sym, Permutation_cons_append.
    + intros x Hx. unfold other. fold (p x). now rewrite (Hpost x Hx).
    + intros x Hx. unfold other. fold (p x). now rewrite (Hpre x Hx).
Qed.

(** X13.  The two backends agree on the channels: after the same
    calls of [saveChannel] on an empty store, [getChannels] lists the
    same rows on both sides, one row for an id -- in name order from
    SQLite, in the order of the first call for each id from the
    key-value store. *)
Theorem backends_list_the_same_channels :
  forall saves : list Channel,
    let t := fold_left (fun t c => Storage.saveChannel c t) saves Storage.empty in
    let s := fold_left (fun s c => StorageKV.saveChannel c s) saves
               StorageKV.empty in
    Permutation (Storage.getChannels t) (StorageKV.getChannels s) /\
    NoDup (map Storage.row_id (StorageKV.getChannels s)) /\
    forall id, In id (map Storage.row_id (StorageKV.getChannels s)) <->
               In id (map chan_id saves).
Proof.
  intros saves.
  assert (Hgen : forall (t : Storage.Tables) (s : StorageKV.Store),
            Permutation (Storage.channels t) (StorageKV.kv_channels s) ->
            NoDup (map Storage.row_id (StorageKV.kv_channels s)) ->
            let t' := fold_left (fun t c => Storage.saveChannel c t) saves t in
            let s' := fold_left (fun s c => StorageKV.saveChannel c s) saves s in
            Permutation (Storage.channels t') (StorageKV.kv_channels s') /\
            NoDup (map Storage.row_id (StorageKV.kv_channels s')) /\
            forall id, In id (map Storage.row_id (StorageKV.kv_channels s')) <->
                       In id (map Storage.row_id (StorageKV.kv_channels s)) \/
                       In id (map chan_id saves)).
  { induction saves as [|c saves IH]; intros t s Hperm Hnd; cbn [fold_left].
    - cbn [map In]. repeat split; auto. intros [H|[]]. exact H.
    - destruct (saveChannel_both c t s Hperm Hnd) as [Hperm' Hnd'].
      destruct (IH _ _ Hperm' Hnd') as (H1 & H2 & H3).
      split; [exact H1|]. split; [exact H2|]. intros id. rewrite H3.
      cbn [map In].
      destruct (kv_saveChannel_list c s) as (Hin & Hother & _).
      unfold StorageKV.getChannels in Hin, Hother. split.
      + intros [H|H]; [|auto]. apply in_map_iff in H.
        destruct H as (r & <- & Hr).
        destruct (string_dec (Storage.row_id r) (chan_id c)) as [E|E].
        * right. left. now symmetry.
        * left. apply in_map. now apply (Hother r E).
      + intros [H|[<-|H]]; [| |auto].
        * apply in_map_iff in H. destruct H as (r & <- & Hr).
          destruct (string_dec (Storage.row_id r) (chan_id c)) as [E|E].
          -- left. rewrite E.
             exact (in_map Storage.row_id _ _ Hin).
          -- left. apply in_map. now apply (Hother r E).
        * left. exact (in_map Storage.row_id _ _ Hin). }
  cbv zeta.
  destruct (Hgen Storage.empty StorageKV.empty) as (H1 & H2 & H3).
  - constructor.
  - constructor.
  - split; [|split; [exact H2|]].
    + unfold Storage.getChannels, StorageKV.getChannels.
      apply Permutation_trans with (2 := H1). apply ORDER_BY_perm.
    + intros id. unfold StorageKV.getChannels. rewrite H3.
      cbn [StorageKV.empty StorageKV.kv_channels map In]. tauto.
Qed.

(* ------------------------------------------------------------------ *)
(** ** The key-value backend: messages, summaries and ids *)
(* ------------------------------------------------------------------ *)

Lemma newest_first_sorted (l : list Message) :
  StronglySorted (fun a b => ts_leb (timestamp b) (timestamp a) = true)
    (ORDER_BY Storage.newest_first l).
Proof.
  apply (ORDER_BY_sorted Storage.newest_first).
  - intros a b. apply ts_leb_total.
  - intros a b c Hab Hbc. unfold Storage.newest_first in *.
    now apply (ts_leb_trans _ (timestamp b)).
Qed.

Lemma firstn_incl {A} (n : nat) (l : list A) (x : A) :
  In x (firstn n l) -> In x l.
Proof.
  intros H. rewrite <- (firstn_skipn n l). apply in_or_app. now left.
Qed.

(** X14.  The key-value [getMessages] returns the newest messages
    first as well, and as many as a limit that is not negative allows;
    a negative limit, which sets no limit in SQLite, here cuts that
    many messages off the end.  Without a channel it only looks at the
    messages of the channels of the channel list. *)
Theorem kv_getMessages_sorts_before_it_slices :
  forall (channelId : option string) (limit : Z) (s : StorageKV.Store),
    let all :=
      match Storage.given channelId with
      | Some c =>
          filter (fun m => String.eqb (channel_id m) c) (StorageKV.kv_messages s)
      | None =>
          flat_map (fun channel =>
                      DatabaseKV.stored (StorageKV.kv_messages s)
                        (Storage.channel_of channel))
            (StorageKV.getChannels s)
      end in
    let result := StorageKV.getMessages channelId limit s in
    COUNT result
    = (if (limit <? 0)%Z then Z.max 0 (COUNT all + limit)
       else Z.min limit (COUNT all)) /\
    StronglySorted
      (fun a b => ts_leb (timestamp b) (timestamp a) = true) result /\
    (exists left_out : list Message,
       Permutation (result ++ left_out) all /\
       forall m m', In m result -> In m' left_out ->
                    ts_leb (timestamp m') (timestamp m) = true) /\
    forall m, In m result ->
      In m (StorageKV.kv_messages s) /\
      (Storage.given channelId = None ->
       In (channel_id m) (map Storage.row_id (StorageKV.getChannels s))).
Proof.
  intros channelId limit s all result.
  set (k := if (limit <? 0)%Z then Z.to_nat (COUNT all + limit)
            else Z.to_nat limit).
  assert (E : result = firstn k (ORDER_BY Storage.newest_first all)).
  { unfold result, k, all, StorageKV.getMessages, StorageKV.slice_to.
    destruct (Storage.given channelId);
      unfold COUNT;
      rewrite (Permutation_length (ORDER_BY_perm Storage.newest_first _));
      destruct (limit <? 0)%Z; reflexivity. }
  pose proof (newest_first_sorted all) as Hs.
  pose proof (ORDER_BY_perm Storage.newest_first all) as Hperm.
  split; [|split; [|split]].
  - rewrite E. unfold COUNT. rewrite length_firstn.
    rewrite (Permutation_length Hperm). unfold k, COUNT.
    destruct (Z.ltb_spec limit 0); lia.
  - rewrite E. now apply (sorted_firstn Storage.newest_first).
  - exists (skipn k (ORDER_BY Storage.newest_first all)). split.
    + rewrite E, firstn_skipn. exact Hperm.
    + rewrite E. intros m m' Hm Hm'.
      exact (proj2 (sorted_firstn Storage.newest_first k _ Hs) m m' Hm Hm').
  - intros m Hm. rewrite E in Hm. apply firstn_incl in Hm.
    apply (Permutation_in _ Hperm) in Hm. unfold all in Hm.
    destruct (Storage.given channelId) as [c|].
    + apply filter_In in Hm. split; [tauto|discriminate].
    + apply in_flat_map in Hm. destruct Hm as (channel & Hc & Hm).
      unfold DatabaseKV.stored in Hm. apply filter_In in Hm.
      destruct Hm as [Hm Hid]. apply String.eqb_eq in Hid.
      split; [exact Hm|]. intros _. rewrite Hid.
      cbn [Storage.channel_of chan_id]. now apply in_map.
Qed.

Lemma kv_summary_row (now : Timestamp) (messages : list Message) (c : Channel)
  (s : ChannelSummary) :
  In s (StorageKV.summary_of now messages c) ->
  let recentMessages :=
    filter (DatabaseKV.recent now 7) (DatabaseKV.stored messages c) in
  recentMessages <> [] /\
  cs_id s = chan_id c /\ cs_name s = chan_name c /\
  cs_total_messages s = COUNT recentMessages /\
  cs_avg_sentiment s = DatabaseKV.mean recentMessages /\
  (exists m, In m recentMessages /\ timestamp m = last_message s) /\
  (forall m, In m recentMessages ->
             ts_leb (timestamp m) (last_message s) = true).
Proof.
  intros Hs recentMessages. unfold StorageKV.summary_of in Hs.
  fold recentMessages in Hs.
  pose proof (newest_first_sorted recentMessages) as Hsorted.
  pose proof (ORDER_BY_perm Storage.newest_first recentMessages) as Hperm.
  destruct (ORDER_BY Storage.newest_first recentMessages) as [|lastMessage rest];
    [destruct Hs|].
  destruct Hs as [<-|[]].
  cbn [cs_id cs_name cs_total_messages cs_avg_sentiment last_message].
  split; [|repeat split].
  - intros E. rewrite E in Hperm. apply Permutation_sym in Hperm.
    now apply Permutation_nil_cons in Hperm.
  - exists lastMessage. split; [|reflexivity].
    apply (Permutation_in _ Hperm). now left.
  - intros m Hm. apply (Permutation_in _ (Permutation_sym Hperm)) in Hm.
    apply StronglySorted_inv in Hsorted. destruct Hsorted as [_ Hall].
    rewrite Forall_forall in Hall. destruct Hm as [<-|Hm].
    + apply ts_leb_refl.
    + now apply Hall.
Qed.

(** X15.  The key-value [getChannelSummary] lists the channels lowest
    mean first, and a channel of the list has a row exactly when it
    has a message in the seven-day window.  The row counts and averages
    these messages, and its [last_message] is the time of the newest
    of them. *)
Theorem kv_summary_lists_active_channels_lowest_mean_first :
  forall (now : Timestamp) (channels : list Channel) (messages : list Message),
    let rows := StorageKV.getChannelSummary now channels messages in
    let recent_of := fun c : Channel =>
      filter (DatabaseKV.recent now 7) (DatabaseKV.stored messages c) in
    StronglySorted (fun a b => cs_avg_sentiment a <= cs_avg_sentiment b) rows /\
    (forall s, In s rows ->
       exists c, In c channels /\
         cs_id s = chan_id c /\ cs_name s = chan_name c /\
         cs_total_messages s = COUNT (recent_of c) /\
         cs_avg_sentiment s = DatabaseKV.mean (recent_of c) /\
         (exists m, In m (recent_of c) /\ timestamp m = last_message s) /\
         (forall m, In m (recent_of c) ->
                    ts_leb (timestamp m) (last_message s) = true)) /\
    (forall c, In c channels ->
       (In (chan_id c, chan_name c) (map (fun s => (cs_id s, cs_name s)) rows)
        <-> recent_of c <> [])).
Proof.
  intros now channels messages rows recent_of.
  split; [|split].
  - apply (sorted_weaken
             (fun a b => Qle_bool (cs_avg_sentiment a) (cs_avg_sentiment b) = true)).
    + intros a b H. now apply Qle_bool_iff.
    + apply ORDER_BY_sorted.
      * intros a b. rewrite !Qle_bool_iff.
        destruct (Qlt_le_dec (cs_avg_sentiment b) (cs_avg_sentiment a)) as [H|H];
          [right; now apply Qlt_le_weak|now left].
      * intros a b c. rewrite !Qle_bool_iff. apply Qle_trans.
  - intros s Hs. unfold rows, StorageKV.getChannelSummary in Hs.
    apply ORDER_BY_In in Hs. apply in_flat_map in Hs.
    destruct Hs as (c & Hc & Hs). exists c. split; [exact Hc|].
    apply kv_summary_row in Hs. cbv zeta in Hs. tauto.
  - intros c Hc. split.
    + intros Hin. apply in_map_iff in Hin. destruct Hin as (s & Es & Hs).
      unfold rows, StorageKV.getChannelSummary in Hs.
      apply ORDER_BY_In in Hs. apply in_flat_map in Hs.
      destruct Hs as (c' & _ & Hs). apply kv_summary_row in Hs.
      cbv zeta in Hs. destruct Hs as (Hne & Eid & Ename & _).
      injection Es as E1 E2.
      assert (Ec : c' = c).
      { destruct c, c'. cbn [chan_id chan_name] in *. congruence. }
      unfold recent_of. now rewrite <- Ec.
    + intros Hne. unfold rows, StorageKV.getChannelSummary.
      assert (Hrow : exists s, In s (StorageKV.summary_of now messages c)).
      { unfold StorageKV.summary_of. fold (recent_of c).
        pose proof (ORDER_BY_perm Storage.newest_first (recent_of c)) as Hperm.
        destruct (ORDER_BY Storage.newest_first (recent_of c)) as [|m rest].
        - apply Permutation_nil in Hperm. contradiction.
        - eexists. now left. }
      destruct Hrow as (s & Hs). apply in_map_iff. exists s. split.
      * apply kv_summary_row in Hs. cbv zeta in Hs.
        destruct Hs as (_ & -> & -> & _). reflexivity.
      * apply ORDER_BY_In. apply in_flat_map. now exists c.
Qed.

(** X16.  [generateId] returns a number from the current millisecond
    up to 999 above it, and not a unique one: for two calls less than
    a second apart there are values of [Math.random] that give both
    calls the same id. *)
Theorem generateId_can_repeat :
  (forall (now : Z) (random : Q), 0 <= random < 1 ->
     (now <= StorageKV.generateId now random <= now + 999)%Z) /\
  (forall now1 now2 : Z, (now1 <= now2 < now1 + 1000)%Z ->
     exists random1 random2 : Q,
       0 <= random1 < 1 /\ 0 <= random2 < 1 /\
       StorageKV.generateId now1 random1 = StorageKV.generateId now2 random2).
Proof.
  split.
  - intros now random [H0 H1]. unfold StorageKV.generateId.
    assert (Hlo : (0 <= Qfloor (random * 1000))%Z).
    { change 0%Z with (Qfloor 0). apply Qfloor_resp_le. lra. }
    assert (Hhi : (Qfloor (random * 1000) < 1000)%Z).
    { rewrite Zlt_Qlt. apply Qle_lt_trans with (random * 1000).
      - apply Qfloor_le.
      - change (inject_Z 1000) with 1000. lra. }
    lia.
  - intros now1 now2 H. set (d := (now2 - now1)%Z).
    exists (inject_Z d * (1 # 1000)), 0.
    assert (Hd0 : 0 <= inject_Z d) by (apply inject_Z_nonneg; unfold d; lia).
    assert (Hd1 : inject_Z d < 1000).
    { change 1000 with (inject_Z 1000). rewrite <- Zlt_Qlt. unfold d. lia. }
    split; [split; lra|]. split; [split; lra|].
    unfold StorageKV.generateId.
    assert (E1 : Qfloor (inject_Z d * (1 # 1000) * 1000) = d).
    { rewrite <- (Qfloor_Z d) at 2. apply Qfloor_comp. field. }
    assert (E2 : Qfloor (0 * 1000) = 0%Z) by reflexivity.
    rewrite E1, E2. unfold d. lia.
Qed.

Lemma flat_map_same {A B} (f g : A -> list B) (l : list A) :
  (forall a, In a l -> f a = g a) -> flat_map f l = flat_map g l.
Proof.
  induction l as [|a l IH]; intros H; cbn [flat_map]; [reflexivity|].
  rewrite (H a (or_introl eq_refl)), IH; [reflexivity|].
  intros b Hb. apply H. now right.
Qed.

(** X30.  The key-value [saveMessage] files a message under its
    channel and leaves the list of the channels alone.  The messages
    of the other channels read as before, and the new message is read
    back under its channel when the limit leaves room.  Without a
    channel, [getMessages] walks the list of the channels: a message
    of a channel that was never saved there is stored, but it is not
    listed. *)
Theorem kv_message_of_an_unlisted_channel_is_not_listed :
  forall (message : Message) (id limit : Z) (s : StorageKV.Store),
    let s' := snd (StorageKV.saveMessage message id s) in
    let row := Storage.message_row id message in
    fst (StorageKV.saveMessage message id s) = id /\
    StorageKV.getChannels s' = StorageKV.getChannels s /\
    (forall channelId c,
       Storage.given channelId = Some c -> c <> channel_id message ->
       StorageKV.getMessages channelId limit s'
       = StorageKV.getMessages channelId limit s) /\
    (forall channelId,
       Storage.given channelId = Some (channel_id message) ->
       (COUNT (StorageKV.kv_messages s) < limit)%Z ->
       In row (StorageKV.getMessages channelId limit s')) /\
    (~ In (channel_id message)
         (map Storage.row_id (StorageKV.getChannels s)) ->
     StorageKV.getMessages None limit s' = StorageKV.getMessages None limit s /\
     forall m, In m (StorageKV.getMessages None limit s') ->
               channel_id m <> channel_id message).
Proof.
  intros message id limit s s' row.
  split; [reflexivity|]. split; [reflexivity|]. split; [|split].
  - intros channelId c Hc Hne. unfold StorageKV.getMessages. rewrite Hc.
    unfold s'. cbn [StorageKV.saveMessage snd StorageKV.kv_messages].
    rewrite filter_app. cbn [filter]. fold row.
    replace (String.eqb (channel_id row) c) with false;
      [now rewrite app_nil_r|].
    symmetry. apply String.eqb_neq. cbn [row Storage.message_row channel_id].
    congruence.
  - intros channelId Hc Hroom. unfold StorageKV.getMessages. rewrite Hc.
    unfold s'. cbn [StorageKV.saveMessage snd StorageKV.kv_messages].
    set (sel := filter _ _).
    assert (Hrow : In row sel).
    { unfold sel. apply filter_In. split.
      - apply in_or_app. right. now left.
      - apply String.eqb_refl. }
    assert (Hlen : (length sel <= S (length (StorageKV.kv_messages s)))%nat).
    { unfold sel. etransitivity; [apply filter_length_le|].
      rewrite length_app. cbn [length]. lia. }
    unfold StorageKV.slice_to, COUNT in *.
    destruct (Z.ltb_spec limit 0) as [H|H]; [lia|].
    rewrite firstn_all2.
    + now apply ORDER_BY_In.
    + rewrite (Permutation_length (ORDER_BY_perm Storage.newest_first sel)).
      lia.
  - intros Hunlisted.
    assert (E : StorageKV.getMessages None limit s'
                = StorageKV.getMessages None limit s).
    { unfold StorageKV.getMessages. cbn [Storage.given].
      unfold s'.
      cbn [StorageKV.saveMessage snd StorageKV.kv_messages
           StorageKV.getChannels StorageKV.kv_channels].
      f_equal. f_equal. apply flat_map_same. intros r Hr.
      unfold DatabaseKV.stored. rewrite filter_app. cbn [filter]. fold row.
      replace (String.eqb (channel_id row) (chan_id (Storage.channel_of r)))
        with false; [now rewrite app_nil_r|].
      symmetry. apply String.eqb_neq.
      cbn [row Storage.message_row channel_id Storage.channel_of chan_id].
      intros Eid. apply Hunlisted. rewrite Eid. now apply in_map. }
    split; [exact E|]. intros m Hm. rewrite E in Hm.
    unfold StorageKV.getMessages in Hm. cbn [Storage.given] in Hm.
    unfold StorageKV.slice_to in Hm.
    assert (Hin : In m (flat_map
                          (fun channel =>
                             DatabaseKV.stored (StorageKV.kv_messages s)
                               (Storage.channel_of channel))
                          (StorageKV.getChannels s))).
    { destruct (limit <? 0)%Z; apply firstn_incl in Hm;
        now apply ORDER_BY_In in Hm. }
    apply in_flat_map in Hin. destruct Hin as (r & Hr & Hin).
    unfold DatabaseKV.stored in Hin. apply filter_In in Hin.
    destruct Hin as [_ Hid]. apply String.eqb_eq in Hid.
    intros Eid. apply Hunlisted. rewrite <- Eid, Hid.
    cbn [Storage.channel_of chan_id]. now apply in_map.
Qed.

(* ------------------------------------------------------------------ *)
(** ** The alerts route: counts and the weekly insight *)
(* ------------------------------------------------------------------ *)

Lemma from_end_last_two {A} (l : list A) (a b : A) :
  Insights.from_end 1 (l ++ [a; b]) = Some b /\
  Insights.from_end 2 (l ++ [a; b]) = Some a.
Proof.
  unfold Insights.from_end. rewrite rev_app_distr. split; reflexivity.
Qed.

Lemma channel_loop_length (channels : list ChannelSummary) (acc : list Alert) :
  (length (fold_left channel_step channels acc)
   <= length acc + length channels)%nat.
Proof.
  revert acc. induction channels as [|ch channels IH]; intros acc;
    cbn [fold_left length]; [lia|].
  specialize (IH (channel_step acc ch)).
  assert (Hstep : (length (channel_step acc ch) <= length acc + 1)%nat).
  { unfold channel_step.
    destruct (_ && _); [rewrite length_app; cbn; lia|].
    destruct (_ && _); [rewrite length_app; cbn; lia|lia]. }
  lia.
Qed.

(** The alerts of [POST]: a critical alert for each streak, then a
    warning for each trend, then the threshold alerts. *)
Lemma POST_alerts (channels : list ChannelSummary) (risks : BurnoutRisks) :
  exists pushed : list Alert,
    alerts (POST channels risks)
    = map (streak_alert channels) (consecutive_low_channels risks)
      ++ map (trend_alert channels) (declining_trend_channels risks)
      ++ pushed /\
    Forall threshold_severity pushed /\
    (length pushed <= length channels)%nat.
Proof.
  cbn [POST alerts]. rewrite streak_loop, trend_loop. cbn [fst app].
  set (acc := map (streak_alert channels) (consecutive_low_channels risks)
              ++ map (trend_alert channels) (declining_trend_channels risks)).
  destruct (channel_loop channels acc) as (pushed & E & Hsev & _).
  pose proof (channel_loop_length channels acc) as Hlen.
  rewrite E, length_app in Hlen.
  exists pushed. rewrite E. unfold acc. rewrite <- app_assoc.
  repeat split; auto. lia.
Qed.

Lemma filter_map_const {A B} (p : B -> bool) (f : A -> B) (l : list A) (b : bool) :
  (forall a, p (f a) = b) ->
  filter p (map f l) = if b then map f l else [].
Proof.
  intros H. induction l as [|a l IH]; cbn [map filter].
  - now destruct b.
  - rewrite H, IH. now destruct b.
Qed.

(** X17.  The summary of an analysis counts a critical alert for each
    streak and nothing else as critical; its warnings are the
    declining trends and the channels below 4.0 that got an alert.
    Only the critical alerts are saved.  Alerts of medium severity are
    in no count: the alerts are the critical ones, the warnings and
    the medium ones together. *)
Theorem analysis_counts_streaks_as_critical :
  forall (channels : list ChannelSummary) (risks : BurnoutRisks),
    let r := POST channels risks in
    let medium_alerts :=
      COUNT (filter (fun a => match severity a with
                              | medium => true
                              | _ => false
                              end) (alerts r)) in
    critical_alerts (summary r) = COUNT (consecutive_low_channels risks) /\
    COUNT (saved r) = COUNT (consecutive_low_channels risks) /\
    Forall (fun a => sa_alert_type a = burnout_critical) (saved r) /\
    (COUNT (declining_trend_channels risks) <= warning_alerts (summary r)
     <= COUNT (declining_trend_channels risks) + COUNT channels)%Z /\
    COUNT (alerts r)
    = (critical_alerts (summary r) + warning_alerts (summary r)
       + medium_alerts)%Z /\
    individual_risks (summary r) = COUNT (insights r).
Proof.
  intros channels risks r medium_alerts.
  destruct (POST_alerts channels risks) as (pushed & E & Hsev & Hlen).
  fold r in E.
  set (is_medium := fun a => match severity a with
                             | medium => true
                             | _ => false
                             end) in *.
  assert (Hpushed : forall q : Alert -> bool,
            (COUNT (filter q pushed) <= COUNT channels)%Z).
  { intros q. unfold COUNT. pose proof (filter_length_le q pushed). lia. }
  assert (Hcrit : filter is_critical pushed = []).
  { apply filter_none. intros a Ha. rewrite Forall_forall in Hsev.
    unfold is_critical. destruct (Hsev a Ha) as [-> | ->]; reflexivity. }
  assert (Hpart : (COUNT pushed
                   = COUNT (filter is_warning_or_high pushed)
                     + COUNT (filter is_medium pushed))%Z).
  { clear - Hsev. unfold COUNT.
    induction Hsev as [|a pushed Ha _ IH]; [reflexivity|].
    cbn [filter length]. unfold is_warning_or_high at 1, is_medium at 1.
    destruct Ha as [-> | ->]; cbn [length]; lia. }
  assert (Esaved : saved r
                   = map (fun risk => {| sa_channel_id := st_channel_id risk;
                                         sa_alert_type := burnout_critical |})
                       (consecutive_low_channels risks)).
  { unfold r. cbn [POST saved]. now rewrite saved_loop. }
  assert (Ec : critical_alerts (summary r)
               = COUNT (filter is_critical (alerts r))) by reflexivity.
  assert (Ew : warning_alerts (summary r)
               = COUNT (filter is_warning_or_high (alerts r))) by reflexivity.
  assert (Ei : individual_risks (summary r) = COUNT (insights r)).
  { unfold r. cbn [POST summary individual_risks insights]. unfold COUNT.
    now rewrite length_map. }
  rewrite Ec, Ew, Ei.
  unfold medium_alerts. rewrite E, !filter_app.
  rewrite (filter_map_const is_critical (streak_alert channels) _ true)
    by reflexivity.
  rewrite (filter_map_const is_critical (trend_alert channels) _ false)
    by reflexivity.
  rewrite (filter_map_const is_warning_or_high (streak_alert channels) _ false)
    by reflexivity.
  rewrite (filter_map_const is_warning_or_high (trend_alert channels) _ true)
    by reflexivity.
  rewrite (filter_map_const is_medium (streak_alert channels) _ false)
    by reflexivity.
  rewrite (filter_map_const is_medium (trend_alert channels) _ false)
    by reflexivity.
  rewrite Hcrit. cbn [app]. rewrite !app_nil_r, !COUNT_app.
  assert (Hmap : forall (A B : Type) (f : A -> B) (l : list A),
            COUNT (map f l) = COUNT l).
  { intros A B f l. unfold COUNT. now rewrite length_map. }
  rewrite !Hmap, Esaved, Hmap.
  pose proof (Hpushed is_warning_or_high) as Hw.
  assert (H0 : (0 <= COUNT (filter is_warning_or_high pushed))%Z)
    by (unfold COUNT; lia).
  split; [reflexivity|]. split; [reflexivity|]. split.
  { apply Forall_forall. intros a Ha. apply in_map_iff in Ha.
    now destruct Ha as (s & <- & _). }
  split; [lia|]. split; [lia|]. reflexivity.
Qed.

(** The lines of the executive summary, one by one. *)
Lemma summary_lines (alerts : list Alert) (weeklyTrends : list WeeklyMood)
  (x : Insights.SummaryLine) :
  let c := COUNT (filter is_critical alerts) in
  let w := COUNT (filter is_warning_or_high alerts) in
  In x (Insights.generateExecutiveSummary alerts weeklyTrends) <->
  x = Insights.Title \/
  (x = Insights.CriticalRisks c /\ (0 < c)%Z) \/
  (x = Insights.ModerateConcerns w /\ (0 < w)%Z) \/
  (x = Insights.NoImmediateRisks /\ c = 0%Z /\ w = 0%Z) \/
  (exists current previous,
     Insights.from_end 1 weeklyTrends = Some current /\
     Insights.from_end 2 weeklyTrends = Some previous /\
     x = Insights.WeeklyTrend
           (Qltb (weekly_mood previous) (weekly_mood current))) \/
  x = Insights.FocusAreas.
Proof.
  intros c w. unfold Insights.generateExecutiveSummary. fold c. fold w.
  rewrite !in_app_iff.
  assert (H1 : In x (if (0 <? c)%Z then [Insights.CriticalRisks c] else [])
               <-> x = Insights.CriticalRisks c /\ (0 < c)%Z).
  { destruct (Z.ltb_spec 0 c); cbn [In]; split.
    - intros [<-|[]]. auto.
    - intros [-> _]. auto.
    - intros [].
    - intros [_ H']. lia. }
  assert (H2 : In x (if (0 <? w)%Z then [Insights.ModerateConcerns w] else [])
               <-> x = Insights.ModerateConcerns w /\ (0 < w)%Z).
  { destruct (Z.ltb_spec 0 w); cbn [In]; split.
    - intros [<-|[]]. auto.
    - intros [-> _]. auto.
    - intros [].
    - intros [_ H']. lia. }
  assert (H3 : In x (if (c =? 0)%Z && (w =? 0)%Z
                     then [Insights.NoImmediateRisks] else [])
               <-> x = Insights.NoImmediateRisks /\ c = 0%Z /\ w = 0%Z).
  { destruct (Z.eqb_spec c 0); destruct (Z.eqb_spec w 0); cbn [andb In]; split;
      try (intros [<-|[]]; now auto); try (intros []; fail);
      try (intros (-> & _ & _); now auto); intros (_ & Hc & Hw); congruence. }
  assert (H4 : In x (match Insights.from_end 1 weeklyTrends,
                           Insights.from_end 2 weeklyTrends with
                     | Some current, Some previous =>
                         [Insights.WeeklyTrend
                            (Qltb (weekly_mood previous) (weekly_mood current))]
                     | _, _ => []
                     end)
               <-> exists current previous,
                     Insights.from_end 1 weeklyTrends = Some current /\
                     Insights.from_end 2 weeklyTrends = Some previous /\
                     x = Insights.WeeklyTrend
                           (Qltb (weekly_mood previous) (weekly_mood current))).
  { destruct (Insights.from_end 1 weeklyTrends) as [current|];
      destruct (Insights.from_end 2 weeklyTrends) as [previous|];
      cbn [In]; split;
      try (intros []; fail);
      try (intros (cu & pr & E1 & E2 & _); discriminate).
    - intros [<-|[]]. exists current, previous. auto.
    - intros (cu & pr & [= <-] & [= <-] & ->). now left. }
  rewrite H1, H2, H3, H4. cbn [In]. split.
  - intros H. decompose [or] H; subst; auto 10; contradiction.
  - intros H. decompose [or] H; subst; auto 10.
Qed.

(** X18.  The weekly insight is missing without a weekly row and is
    ['stable'] with a single one.  With two rows or more it is never
    ['stable']: it is ['improving'] when the mood of the last week is
    above the mood of the week before, and ['declining'] otherwise,
    also when the two moods are equal; the executive summary carries
    the same verdict. *)
Theorem weekly_insight_is_never_stable_with_two_weeks :
  forall (alerts : list Alert) (weeks : list WeeklyMood)
         (previous current : WeeklyMood),
    Insights.weeklyInsight alerts [] = None /\
    (exists w, Insights.weeklyInsight alerts [current] = Some w /\
               Insights.trend_direction w = Insights.Stable /\
               Insights.current_week_mood w = weekly_mood current) /\
    exists w,
      Insights.weeklyInsight alerts (weeks ++ [previous; current]) = Some w /\
      Insights.current_week_mood w = weekly_mood current /\
      (Insights.trend_direction w = Insights.Improving <->
       weekly_mood previous < weekly_mood current) /\
      (Insights.trend_direction w = Insights.Declining <->
       weekly_mood current <= weekly_mood previous) /\
      (In (Insights.WeeklyTrend true) (Insights.executive_summary w) <->
       Insights.trend_direction w = Insights.Improving) /\
      (In (Insights.WeeklyTrend false) (Insights.executive_summary w) <->
       Insights.trend_direction w = Insights.Declining).
Proof.
  intros alerts weeks previous current.
  split; [reflexivity|]. split.
  { eexists. split; [reflexivity|]. split; reflexivity. }
  destruct (from_end_last_two weeks previous current) as [E1 E2].
  unfold Insights.weeklyInsight. rewrite E1, E2.
  eexists. split; [reflexivity|].
  cbn [Insights.current_week_mood Insights.trend_direction
       Insights.executive_summary].
  split; [reflexivity|].
  assert (Hin : forall b : bool,
            In (Insights.WeeklyTrend b)
              (Insights.generateExecutiveSummary alerts
                 (weeks ++ [previous; current]))
            <-> b = Qltb (weekly_mood previous) (weekly_mood current)).
  { intros b. rewrite summary_lines. cbv zeta. rewrite E1, E2. split.
    - intros [H|[[H _]|[[H _]|[[H _]|[(cu & pr & Ecu & Epr & H)|H]]]]];
        try discriminate.
      injection Ecu as <-. injection Epr as <-. now injection H as ->.
    - intros ->. do 4 right. left. exists current, previous. auto. }
  rewrite !Hin.
  destruct (Qltb (weekly_mood previous) (weekly_mood current)) eqn:E.
  - apply Qltb_lt in E. repeat split; auto; try discriminate;
      try (intros H; exfalso; lra).
  - apply Qltb_ge in E. repeat split; auto; try discriminate;
      try (intros H; exfalso; lra).
Qed.

(** X19.  The executive summary says that there is no immediate risk
    exactly when no alert is critical, a warning or high: alerts of
    medium severity do not count.  Otherwise it names the number of
    critical alerts, if there is one, and the number of warnings and
    high alerts, if there is one. *)
Theorem executive_summary_overlooks_medium_alerts :
  forall (alerts : list Alert) (weeklyTrends : list WeeklyMood),
    let lines := Insights.generateExecutiveSummary alerts weeklyTrends in
    (In Insights.NoImmediateRisks lines <->
     forall a, In a alerts -> severity a = medium) /\
    (forall n, In (Insights.CriticalRisks n) lines <->
               n = COUNT (filter is_critical alerts) /\ (0 < n)%Z) /\
    (forall n, In (Insights.ModerateConcerns n) lines <->
               n = COUNT (filter is_warning_or_high alerts) /\ (0 < n)%Z) /\
    hd_error lines = Some Insights.Title /\
    last lines Insights.Title = Insights.FocusAreas.
Proof.
  intros alerts weeklyTrends lines.
  set (criticalCount := COUNT (filter is_critical alerts)).
  set (warningCount := COUNT (filter is_warning_or_high alerts)).
  assert (Hmedium : (criticalCount = 0 /\ warningCount = 0)%Z <->
                    forall a, In a alerts -> severity a = medium).
  { unfold criticalCount, warningCount, COUNT. split.
    - intros [H1 H2] a Ha.
      assert (N1 : filter is_critical alerts = [])
        by (destruct (filter is_critical alerts); [reflexivity|discriminate]).
      assert (N2 : filter is_warning_or_high alerts = [])
        by (destruct (filter is_warning_or_high alerts);
            [reflexivity|discriminate]).
      assert (F1 : is_critical a = false).
      { destruct (is_critical a) eqn:E; [|reflexivity].
        assert (K : In a (filter is_critical alerts))
          by (apply filter_In; auto).
        rewrite N1 in K. destruct K. }
      assert (F2 : is_warning_or_high a = false).
      { destruct (is_warning_or_high a) eqn:E; [|reflexivity].
        assert (K : In a (filter is_warning_or_high alerts))
          by (apply filter_In; auto).
        rewrite N2 in K. destruct K. }
      unfold is_critical in F1. unfold is_warning_or_high in F2.
      destruct (severity a); try discriminate; reflexivity.
    - intros H. split.
      + rewrite (filter_none is_critical); [reflexivity|].
        intros a Ha. unfold is_critical. now rewrite (H a Ha).
      + rewrite (filter_none is_warning_or_high); [reflexivity|].
        intros a Ha. unfold is_warning_or_high. now rewrite (H a Ha). }
  rewrite <- Hmedium. unfold lines.
  split; [|split; [|split; [|split]]].
  - rewrite summary_lines. cbv zeta. fold criticalCount. fold warningCount.
    split.
    + intros [H|[[H _]|[[H _]|[[_ H]|[(cu & pr & _ & _ & H)|H]]]]];
        try discriminate. exact H.
    + intros H. do 3 right. left. tauto.
  - intros n. rewrite summary_lines. cbv zeta. fold criticalCount. split.
    + intros [H|[[H Hpos]|[[H _]|[[H _]|[(cu & pr & _ & _ & H)|H]]]]];
        try discriminate. injection H as ->. auto.
    + intros [-> Hpos]. right. left. auto.
  - intros n. rewrite summary_lines. cbv zeta. fold warningCount. split.
    + intros [H|[[H _]|[[H Hpos]|[[H _]|[(cu & pr & _ & _ & H)|H]]]]];
        try discriminate. injection H as ->. auto.
    + intros [-> Hpos]. do 2 right. left. auto.
  - reflexivity.
  - unfold Insights.generateExecutiveSummary. rewrite !app_assoc.
    apply last_last.
Qed.

(* ------------------------------------------------------------------ *)
(** ** The dashboard *)
(* ------------------------------------------------------------------ *)

Lemma parseFloat_or_eq (x d : Q) : ~ x == 0 -> parseFloat_or x d = x.
Proof.
  intros H. unfold parseFloat_or. destruct (Qeq_bool x 0) eqn:E; [|reflexivity].
  apply Qeq_bool_iff in E. contradiction.
Qed.

Lemma parseFloat_or_0 (x : Q) : parseFloat_or x 0 == x.
Proof.
  unfold parseFloat_or. destruct (Qeq_bool x 0) eqn:E; [|reflexivity].
  apply Qeq_bool_iff in E. now symmetry.
Qed.

Lemma label_of_positive (score : Q) :
  Dashboard.label_of score = Dashboard.positive <-> 7 <= score.
Proof.
  unfold Dashboard.label_of. destruct (Qle_bool 7 score) eqn:E7.
  - apply Qle_bool_iff in E7. tauto.
  - split; [destruct (Qle_bool 4 score); discriminate|].
    intros H. apply Qle_bool_iff in H. congruence.
Qed.

Lemma label_of_negative (score : Q) :
  Dashboard.label_of score = Dashboard.negative <-> score < 4.
Proof.
  unfold Dashboard.label_of. destruct (Qle_bool 7 score) eqn:E7.
  - apply Qle_bool_iff in E7. split; [discriminate|]. intros H. lra.
  - destruct (Qle_bool 4 score) eqn:E4.
    + apply Qle_bool_iff in E4. split; [discriminate|]. intros H. lra.
    + split; [|reflexivity]. intros _. apply Qnot_le_lt. intros H.
      apply Qle_bool_iff in H. congruence.
Qed.

Lemma label_of_neutral (score : Q) :
  Dashboard.label_of score = Dashboard.neutral <-> 4 <= score < 7.
Proof.
  unfold Dashboard.label_of. destruct (Qle_bool 7 score) eqn:E7.
  - apply Qle_bool_iff in E7. split; [discriminate|]. intros H. lra.
  - assert (H7 : score < 7).
    { apply Qnot_le_lt. intros H. apply Qle_bool_iff in H. congruence. }
    destruct (Qle_bool 4 score) eqn:E4.
    + apply Qle_bool_iff in E4. tauto.
    + split; [discriminate|]. intros [H _]. apply Qle_bool_iff in H.
      congruence.
Qed.

(** The loop that fills [sentimentDistribution]. *)
Lemma distribution_loop (l : list ChannelSummary)
  (d : Dashboard.SentimentDistribution) :
  let label := fun c => Dashboard.label_of (parseFloat_or (cs_avg_sentiment c) 5) in
  let r := fold_left Dashboard.count_channel l d in
  Dashboard.sd_positive r
  = (Dashboard.sd_positive d
     + COUNT (filter (fun c => match label c with
                               | Dashboard.positive => true
                               | _ => false
                               end) l))%Z /\
  Dashboard.sd_neutral r
  = (Dashboard.sd_neutral d
     + COUNT (filter (fun c => match label c with
                               | Dashboard.neutral => true
                               | _ => false
                               end) l))%Z /\
  Dashboard.sd_negative r
  = (Dashboard.sd_negative d
     + COUNT (filter (fun c => match label c with
                               | Dashboard.negative => true
                               | _ => false
                               end) l))%Z.
Proof.
  intros label. revert d.
  induction l as [|c l IH]; intros d; cbn [fold_left filter].
  - unfold COUNT. cbn [length Z.of_nat]. repeat split; lia.
  - destruct (IH (Dashboard.count_channel d c)) as (Hp & Hn & Hg).
    cbv zeta. rewrite Hp, Hn, Hg. clear IH Hp Hn Hg.
    unfold Dashboard.count_channel, label, Dashboard.label_of.
    destruct (Qle_bool 7 (parseFloat_or (cs_avg_sentiment c) 5));
      [|destruct (Qle_bool 4 (parseFloat_or (cs_avg_sentiment c) 5))];
      cbn [Dashboard.sd_positive Dashboard.sd_neutral Dashboard.sd_negative];
      unfold COUNT; cbn [length]; repeat split; lia.
Qed.

(** X20.  The sentiment distribution of the dashboard counts every
    channel of the summary once: its three counts are the numbers of
    channels labelled positive, neutral and negative in [channels],
    and they add up to [total_channels].  A channel is positive from
    the mean 7, negative below 4 and neutral in between. *)
Theorem dashboard_distribution_counts_every_channel_once :
  forall (now : Z) (t : Storage.Tables),
    let r := Dashboard.GET now t in
    let d := Dashboard.sentiment_distribution r in
    let labelled := fun l => COUNT (filter (fun c =>
      match snd c, l with
      | Dashboard.positive, Dashboard.positive => true
      | Dashboard.neutral, Dashboard.neutral => true
      | Dashboard.negative, Dashboard.negative => true
      | _, _ => false
      end) (Dashboard.channels r)) in
    (Dashboard.sd_positive d + Dashboard.sd_neutral d + Dashboard.sd_negative d
     = Dashboard.total_channels (Dashboard.summary r))%Z /\
    Dashboard.sd_positive d = labelled Dashboard.positive /\
    Dashboard.sd_neutral d = labelled Dashboard.neutral /\
    Dashboard.sd_negative d = labelled Dashboard.negative /\
    forall c l, In (c, l) (Dashboard.channels r) ->
      (l = Dashboard.positive <-> 7 <= parseFloat_or (cs_avg_sentiment c) 5) /\
      (l = Dashboard.neutral <-> 4 <= parseFloat_or (cs_avg_sentiment c) 5 < 7) /\
      (l = Dashboard.negative <-> parseFloat_or (cs_avg_sentiment c) 5 < 4).
Proof.
  intros now t r d labelled.
  set (rows := getChannelSummary now
                 (map Storage.channel_of (Storage.channels t))
                 (Storage.messages t)).
  set (label := fun c => Dashboard.label_of (parseFloat_or (cs_avg_sentiment c) 5)).
  assert (Ech : Dashboard.channels r = map (fun c => (c, label c)) rows)
    by reflexivity.
  assert (Ed : d = Dashboard.sentimentDistribution rows) by reflexivity.
  destruct (distribution_loop rows
              {| Dashboard.sd_positive := 0; Dashboard.sd_neutral := 0;
                 Dashboard.sd_negative := 0 |}) as (Hp & Hn & Hg).
  fold label in Hp, Hn, Hg.
  cbn [Dashboard.sd_positive Dashboard.sd_neutral Dashboard.sd_negative]
    in Hp, Hn, Hg.
  unfold Dashboard.sentimentDistribution in Ed. rewrite <- Ed in Hp, Hn, Hg.
  assert (Hlab : forall l, labelled l
            = COUNT (filter (fun c => match label c, l with
                                      | Dashboard.positive, Dashboard.positive => true
                                      | Dashboard.neutral, Dashboard.neutral => true
                                      | Dashboard.negative, Dashboard.negative => true
                                      | _, _ => false
                                      end) rows)).
  { intros l. unfold labelled. rewrite Ech, filter_of_map. cbn [snd].
    unfold COUNT. now rewrite length_map. }
  assert (Hsum : (COUNT (filter (fun c => match label c with
                                          | Dashboard.positive => true
                                          | _ => false
                                          end) rows)
                  + COUNT (filter (fun c => match label c with
                                            | Dashboard.neutral => true
                                            | _ => false
                                            end) rows)
                  + COUNT (filter (fun c => match label c with
                                            | Dashboard.negative => true
                                            | _ => false
                                            end) rows)
                  = COUNT rows)%Z).
  { clear. unfold COUNT. induction rows as [|c rows IH]; [reflexivity|].
    cbn [filter]. destruct (label c); cbn [length]; lia. }
  split; [|split; [|split; [|split]]].
  - rewrite Hp, Hn, Hg. cbn [Z.add]. exact Hsum.
  - rewrite Hp, Hlab. reflexivity.
  - rewrite Hn, Hlab. reflexivity.
  - rewrite Hg, Hlab. reflexivity.
  - intros c l Hin. rewrite Ech in Hin. apply in_map_iff in Hin.
    destruct Hin as (c' & [= <- <-] & _). unfold label.
    split; [apply label_of_positive|].
    split; [apply label_of_neutral|apply label_of_negative].
Qed.

(** [reduce] with "take the current element when it is below the
    worst so far" returns a least element, and the first element when
    no later one is below it. *)
Lemma reduce_least {A} (f : A -> Q) (rest : list A) (x : A) :
  let r := fold_left (fun worst current =>
                        if Qltb (f current) (f worst) then current else worst)
             rest x in
  In r (x :: rest) /\
  (forall c, In c (x :: rest) -> f r <= f c) /\
  ((forall c, In c rest -> f x <= f c) -> r = x).
Proof.
  revert x. induction rest as [|y rest IH]; intros x; cbn [fold_left].
  - cbv zeta. split; [now left|]. split; [|auto].
    intros c [<-|[]]. apply Qle_refl.
  - cbv zeta. destruct (Qltb (f y) (f x)) eqn:E.
    + apply Qltb_lt in E. destruct (IH y) as (Hin & Hle & _).
      split; [destruct Hin; [right; now left|right; now right]|].
      split.
      * intros c [<-|Hc]; [|now apply Hle].
        apply Qle_trans with (f y); [apply Hle; now left|lra].
      * intros Hx. specialize (Hx y (or_introl eq_refl)). lra.
    + apply Qltb_ge in E. destruct (IH x) as (Hin & Hle & Hfirst).
      split; [destruct Hin; [now left|right; now right]|].
      split.
      * intros c [<-|[<-|Hc]].
        -- apply Hle. now left.
        -- apply Qle_trans with (f x); [apply Hle; now left|exact E].
        -- apply Hle. now right.
      * intros Hx. apply Hfirst. intros c Hc. apply Hx. now right.
Qed.

(** [reduce] with "take the current element when it is above the best
    so far" returns a greatest element. *)
Lemma reduce_greatest {A} (f : A -> Q) (rest : list A) (x : A) :
  let r := fold_left (fun best current =>
                        if Qltb (f best) (f current) then current else best)
             rest x in
  In r (x :: rest) /\ forall c, In c (x :: rest) -> f c <= f r.
Proof.
  revert x. induction rest as [|y rest IH]; intros x; cbn [fold_left].
  - cbv zeta. split; [now left|]. intros c [<-|[]]. apply Qle_refl.
  - cbv zeta. destruct (Qltb (f x) (f y)) eqn:E.
    + apply Qltb_lt in E. destruct (IH y) as (Hin & Hle).
      split; [destruct Hin; [right; now left|right; now right]|].
      intros c [<-|Hc]; [|now apply Hle].
      apply Qle_trans with (f y); [lra|apply Hle; now left].
    + apply Qltb_ge in E. destruct (IH x) as (Hin & Hle).
      split; [destruct Hin; [now left|right; now right]|].
      intros c [<-|[<-|Hc]].
      * apply Hle. now left.
      * apply Qle_trans with (f x); [exact E|apply Hle; now left].
      * apply Hle. now right.
Qed.

Lemma SUM_above (vals : list Q) (lo : Q) :
  vals <> [] -> (forall x, In x vals -> lo < x) ->
  lo * inject_Z (COUNT vals) < SUM vals.
Proof.
  induction vals as [|v vals IH]; intros Hne H; [congruence|].
  assert (Hv : lo < v) by (apply H; now left).
  assert (E : inject_Z (COUNT (v :: vals)) == inject_Z (COUNT vals) + 1).
  { unfold COUNT. cbn [length]. rewrite Nat2Z.inj_succ, <- Z.add_1_r.
    now rewrite inject_Z_plus. }
  rewrite E. cbn [SUM fold_right]. fold (SUM vals).
  destruct vals as [|w vals].
  - unfold COUNT, SUM. cbn [length fold_right Z.of_nat].
    change (inject_Z 0) with 0. lra.
  - assert (Hrest : lo * inject_Z (COUNT (w :: vals)) < SUM (w :: vals)).
    { apply IH; [discriminate|]. intros x Hx. apply H. now right. }
    lra.
Qed.

Lemma AVG_above (vals : list Q) (lo : Q) :
  vals <> [] -> (forall x, In x vals -> lo < x) -> lo < AVG vals.
Proof.
  intros Hne H. pose proof (SUM_above vals lo Hne H) as Hs.
  pose proof (COUNT_pos vals Hne) as Hn.
  assert (Hp : 0 < inject_Z (COUNT vals)) by (apply inject_Z_pos; lia).
  unfold AVG. apply Qlt_shift_div_l; [exact Hp|lra].
Qed.

Lemma channel_summary_sorted (now : Z) (channels : list Channel)
  (messages : list Message) :
  StronglySorted
    (fun a b => Qle_bool (cs_avg_sentiment a) (cs_avg_sentiment b) = true)
    (getChannelSummary now channels messages).
Proof.
  apply ORDER_BY_sorted.
  - intros a b. rewrite !Qle_bool_iff.
    destruct (Qlt_le_dec (cs_avg_sentiment b) (cs_avg_sentiment a)) as [H|H];
      [right; now apply Qlt_le_weak|now left].
  - intros a b c. rewrite !Qle_bool_iff. apply Qle_trans.
Qed.

(** With scores above 0 the mean of a summary row is above 0. *)
Lemma channel_summary_positive (now : Z) (channels : list Channel)
  (messages : list Message) (s : ChannelSummary) :
  (forall m, In m messages -> 0 < sentiment_score m) ->
  In s (getChannelSummary now channels messages) -> 0 < cs_avg_sentiment s.
Proof.
  intros Hpos Hs. unfold getChannelSummary in Hs.
  apply ORDER_BY_In in Hs. apply in_map_iff in Hs.
  destruct Hs as ([k grows] & <- & Hg).
  pose proof (group_not_empty _ _ _ _ Hg) as Hne. cbn [snd] in Hne.
  apply in_group_by in Hg. cbn [fst snd] in Hg. destruct Hg as [_ Egrows].
  cbn [channel_summary_row cs_avg_sentiment]. apply AVG_above.
  - unfold scores. destruct grows; [congruence|discriminate].
  - intros x Hx. unfold scores in Hx. apply in_map_iff in Hx.
    destruct Hx as (m & <- & Hm). apply in_map_iff in Hm.
    destruct Hm as ([c m'] & <- & Hr). rewrite Egrows in Hr.
    apply filter_In in Hr. destruct Hr as [Hr _].
    unfold channel_join in Hr. apply in_flat_map in Hr.
    destruct Hr as (c' & _ & Hr). apply in_map_iff in Hr.
    destruct Hr as (m'' & [= _ <-] & Hm). apply filter_In in Hm.
    apply Hpos. tauto.
Qed.

(** X21.  When every stored score is above 0, the dashboard's most
    concerning channel is the first row of the channel summary, which
    comes lowest mean first; its top performing channel has the
    greatest mean; and the channels for which it fetches the daily
    trend, "top 3", are the first three rows, so the three channels
    with the lowest means. *)
Theorem dashboard_reads_the_summary_lowest_first :
  forall (now : Z) (t : Storage.Tables),
    (forall m, In m (Storage.messages t) -> 0 < sentiment_score m) ->
    let r := Dashboard.GET now t in
    let rows := map fst (Dashboard.channels r) in
    Dashboard.most_concerning r = hd_error rows /\
    (Dashboard.top_performing r = None <-> rows = []) /\
    (forall best, Dashboard.top_performing r = Some best ->
       In best rows /\
       forall c, In c rows -> cs_avg_sentiment c <= cs_avg_sentiment best) /\
    map Dashboard.ct_channel_id (Dashboard.channel_trends r)
    = map cs_id (firstn 3 rows) /\
    forall c c', In c (firstn 3 rows) -> In c' (skipn 3 rows) ->
                 cs_avg_sentiment c <= cs_avg_sentiment c'.
Proof.
  intros now t Hpos r rows.
  set (summary := getChannelSummary now
                    (map Storage.channel_of (Storage.channels t))
                    (Storage.messages t)).
  assert (Erows : rows = summary).
  { unfold rows, r. cbn [Dashboard.GET Dashboard.channels].
    rewrite map_map. cbn [fst]. apply map_id. }
  pose proof (channel_summary_sorted now
                (map Storage.channel_of (Storage.channels t))
                (Storage.messages t)) as Hsorted.
  fold summary in Hsorted.
  assert (Hnz : forall s d, In s summary ->
            parseFloat_or (cs_avg_sentiment s) d = cs_avg_sentiment s).
  { intros s d Hs. apply parseFloat_or_eq.
    pose proof (channel_summary_positive now _ _ s Hpos Hs) as H. lra. }
  rewrite Erows.
  change (Dashboard.most_concerning r)
    with (Dashboard.most_concerning_channel summary).
  change (Dashboard.top_performing r)
    with (Dashboard.top_performing_channel summary).
  change (Dashboard.channel_trends r)
    with (map (fun channel =>
                 {| Dashboard.ct_channel_id := cs_id channel;
                    Dashboard.ct_channel_name := cs_name channel;
                    Dashboard.trend_data :=
                      Storage.getChannelSentimentTrend (cs_id channel) 7 now
                        (Storage.messages t) |}) (firstn 3 summary)).
  split; [|split; [|split; [|split]]].
  - unfold Dashboard.most_concerning_channel, Dashboard.reduce.
    destruct summary as [|x rest] eqn:E; [reflexivity|]. cbn [hd_error].
    f_equal.
    apply (reduce_least (fun c => parseFloat_or (cs_avg_sentiment c) 10) rest x).
    intros c Hc. rewrite !Hnz by (rewrite ?E; cbn [In]; auto).
    apply StronglySorted_inv in Hsorted. destruct Hsorted as [_ Hall].
    rewrite Forall_forall in Hall. apply Qle_bool_iff. now apply Hall.
  - unfold Dashboard.top_performing_channel, Dashboard.reduce.
    destruct summary; split; congruence.
  - intros best Hbest.
    unfold Dashboard.top_performing_channel, Dashboard.reduce in Hbest.
    destruct summary as [|x rest] eqn:E; [discriminate|].
    injection Hbest as Hbest.
    destruct (reduce_greatest
                (fun c => parseFloat_or (cs_avg_sentiment c) 0) rest x)
      as (Hin & Hle).
    cbv zeta in Hin, Hle. rewrite Hbest in Hin, Hle.
    split; [exact Hin|]. intros c Hc. specialize (Hle c Hc).
    cbn beta in Hle. rewrite !Hnz in Hle by (rewrite ?E; auto). exact Hle.
  - rewrite map_map. reflexivity.
  - intros c c' Hc Hc'. apply Qle_bool_iff.
    exact (proj2 (sorted_firstn _ 3 summary Hsorted) c c' Hc Hc').
Qed.

Lemma dashboard_reads_the_summary_lowest_first_witness :
  let r := Dashboard.GET Samples.jan_1_2024 Examples.two_channel_tables in
  let rows := map fst (Dashboard.channels r) in
  Dashboard.most_concerning r = hd_error rows /\
  (Dashboard.top_performing r = None <-> rows = []) /\
  (forall best, Dashboard.top_performing r = Some best ->
     In best rows /\
     forall c, In c rows -> cs_avg_sentiment c <= cs_avg_sentiment best) /\
  map Dashboard.ct_channel_id (Dashboard.channel_trends r)
  = map cs_id (firstn 3 rows) /\
  forall c c', In c (firstn 3 rows) -> In c' (skipn 3 rows) ->
               cs_avg_sentiment c <= cs_avg_sentiment c'.
Proof.
  apply (dashboard_reads_the_summary_lowest_first Samples.jan_1_2024
           Examples.two_channel_tables).
  intros m Hm. cbn in Hm.
  destruct Hm as [<-|[<-|[<-|[]]]]; reflexivity.
Defined.

Lemma rounded_above_2 (x : Q) : 0 <= x -> (2 < ROUND x 1 <-> 41 # 20 <= x).
Proof.
  intros Hx. destruct (ROUND_1_tenths x Hx) as (k & -> & Hlo & Hup). split.
  - intros H. assert (Hk : (20 < k)%Z).
    { rewrite Zlt_Qlt. change (inject_Z 20) with 20. lra. }
    assert (Hk' : (21 <= k)%Z) by lia.
    rewrite Zle_Qle in Hk'. change (inject_Z 21) with 21 in Hk'. lra.
  - intros H. assert (Hk : (21 < k + 1)%Z).
    { rewrite Zlt_Qlt, inject_Z_plus. change (inject_Z 21) with 21.
      change (inject_Z 1) with 1. lra. }
    assert (Hk' : (21 <= k)%Z) by lia.
    rewrite Zle_Qle in Hk'. change (inject_Z 21) with 21 in Hk'. lra.
Qed.

Lemma ROUND_1_sign (x : Q) :
  (0 <= x -> 0 <= ROUND x 1) /\
  (x < 0 -> ROUND x 1 = - ROUND (- x) 1 /\ ROUND x 1 <= 0).
Proof.
  split.
  - intros Hx. destruct (ROUND_1_tenths x Hx) as (k & -> & Hlo & Hup).
    assert (Hk : (0 < k + 1)%Z).
    { rewrite Zlt_Qlt, inject_Z_plus. change (inject_Z 0) with 0.
      change (inject_Z 1) with 1. lra. }
    assert (Hk' : (0 <= k)%Z) by lia.
    apply inject_Z_nonneg in Hk'. lra.
  - intros Hx.
    assert (Hneg : Qle_bool 0 x = false).
    { destruct (Qle_bool 0 x) eqn:E; [|reflexivity].
      apply Qle_bool_iff in E. lra. }
    assert (Hpos : Qle_bool 0 (- x) = true) by (apply Qle_bool_iff; lra).
    assert (E : ROUND x 1 = - ROUND (- x) 1).
    { unfold ROUND. now rewrite Hneg, Hpos. }
    split; [exact E|]. rewrite E.
    assert (H0 : 0 <= - x) by lra.
    destruct (ROUND_1_tenths (- x) H0) as (k & -> & Hlo & Hup).
    assert (Hk : (0 < k + 1)%Z).
    { rewrite Zlt_Qlt, inject_Z_plus. change (inject_Z 0) with 0.
      change (inject_Z 1) with 1. lra. }
    assert (Hk' : (0 <= k)%Z) by lia.
    apply inject_Z_nonneg in Hk'. lra.
Qed.

(** The rounded change is above 2 from 2.05 on, and below -2 down
    from -2.05. *)
Lemma rounded_change (x : Q) :
  (2 < ROUND x 1 <-> 41 # 20 <= x) /\ (ROUND x 1 < -2 <-> x <= - (41 # 20)).
Proof.
  destruct (ROUND_1_sign x) as [Hnonneg Hneg].
  destruct (Qlt_le_dec x 0) as [Hx|Hx].
  - destruct (Hneg Hx) as [E Hle]. split.
    + split; intros H; exfalso; lra.
    + rewrite E. assert (H0 : 0 <= - x) by lra.
      pose proof (rounded_above_2 (- x) H0) as [H1 H2]. split.
      * intros H. assert (K : 2 < ROUND (- x) 1) by lra.
        specialize (H1 K). lra.
      * intros H. assert (K : 41 # 20 <= - x) by lra.
        specialize (H2 K). lra.
  - specialize (Hnonneg Hx). split.
    + now apply rounded_above_2.
    + split; intros H; exfalso; lra.
Qed.

(** Two numbers that are equal have the same binary64 number. *)
Lemma round_comp (x y : Q) : x == y -> Binary64.round x = Binary64.round y.
Proof.
  intros H. unfold Binary64.round. now rewrite (Qred_complete x y H).
Qed.

Lemma round_zero (x : Q) : x == 0 -> Binary64.round x = 0.
Proof. intros H. now rewrite (round_comp x 0 H). Qed.

(** On these quotients [round] gives the float of the kernel, and on
    the moods 4 and 4.082 the three operations of [Dashboard.change]
    give what the kernel computes. *)
Lemma round_agrees_with_the_kernel :
  forallb (fun p => Binary64.agrees (fst p) (snd p))
    [(4082, 1000); (333, 10); (1, 3); (2, 3); (41, 20); (1, 10); (7, 5);
     (9007199254740991, 3); (6004799503160661, 7); (1, 1024);
     (123456789, 1000); (4503599627370497, 2); (4503599627370499, 2);
     (999999999999, 7); (5, 1); (100, 1); (0, 1)]%Z = true /\
  Binary64.of_float
    (PrimFloat.mul
       (PrimFloat.div
          (PrimFloat.sub (Binary64.quotient 4082 1000) (Binary64.quotient 4 1))
          (Binary64.quotient 4 1))
       (Binary64.quotient 100 1))
  = Some (Dashboard.change (Binary64.round (4082 # 1000)) (Binary64.round 4)
            (Binary64.round 4)).
Proof.
  split; vm_compute; reflexivity.
Qed.

(** The change from a mood to itself is 0. *)
Lemma change_of_equal_moods (mood divisor : Q) :
  Dashboard.change mood mood divisor = 0.
Proof.
  unfold Dashboard.change, Binary64.mul, Binary64.div, Binary64.sub.
  rewrite (round_zero (mood - mood)) by ring.
  rewrite (round_zero (0 / divisor)) by (unfold Qdiv; ring).
  now apply round_zero.
Qed.

(** X22.  The dashboard computes the change of the weekly mood in
    binary64 and calls the trend ['improving'] when the computed change
    is 2.05 percent or more, so that [toFixed(1)] shows more than 2,
    ['declining'] when it is -2.05 or less, and ['stable'] otherwise and
    when there are fewer than two weeks.  The rounding of the three
    operations counts: from the mood 4 to the mood 4.082 the change is
    2.05 percent, and the trend is ['stable'].  For two equal moods it
    says ['stable'], where the weekly insight of the alerts route says
    ['declining']. *)
Theorem dashboard_direction_needs_two_percent :
  forall (alerts : list Alert) (weeks : list WeeklyMood)
         (previous current : WeeklyMood),
    let weeklyTrends := weeks ++ [previous; current] in
    let current_mood := Binary64.round (parseFloat_or (weekly_mood current) 0) in
    let previous_mood := Binary64.round (parseFloat_or (weekly_mood previous) 0) in
    let divisor := Binary64.round (parseFloat_or (weekly_mood previous) 5) in
    let change :=
      Binary64.mul
        (Binary64.div (Binary64.sub current_mood previous_mood) divisor) 100 in
    Dashboard.trend_direction [] = Insights.Stable /\
    Dashboard.trend_direction [current] = Insights.Stable /\
    (Dashboard.trend_direction weeklyTrends = Insights.Improving <->
     41 # 20 <= change) /\
    (Dashboard.trend_direction weeklyTrends = Insights.Declining <->
     change <= - (41 # 20)) /\
    (weekly_mood current == weekly_mood previous ->
     Dashboard.trend_direction weeklyTrends = Insights.Stable /\
     exists w, Insights.weeklyInsight alerts weeklyTrends = Some w /\
               Insights.trend_direction w = Insights.Declining) /\
    (let before := Examples.week_of_mood 4 in
     let after := Examples.week_of_mood (4082 # 1000) in
     (weekly_mood after - weekly_mood before) / weekly_mood before * 100
     == 41 # 20 /\
     Dashboard.trend_direction [before; after] = Insights.Stable).
Proof.
  intros alerts weeks previous current weeklyTrends current_mood previous_mood
    divisor change.
  destruct (from_end_last_two weeks previous current) as [E1 E2].
  fold weeklyTrends in E1, E2.
  assert (Edir : Dashboard.trend_direction weeklyTrends
                 = if Qltb 2 (ROUND change 1) then Insights.Improving
                   else if Qltb (ROUND change 1) (-2) then Insights.Declining
                   else Insights.Stable).
  { unfold Dashboard.trend_direction, Dashboard.weekly_comparison.
    rewrite E1, E2. reflexivity. }
  destruct (rounded_change change) as [Hup Hdown].
  assert (Hcases : (Dashboard.trend_direction weeklyTrends = Insights.Improving
                    <-> 41 # 20 <= change) /\
                   (Dashboard.trend_direction weeklyTrends = Insights.Declining
                    <-> change <= - (41 # 20))).
  { rewrite Edir. destruct (Qltb 2 (ROUND change 1)) eqn:Ea.
    - apply Qltb_lt in Ea. apply Hup in Ea. split; [tauto|].
      split; [discriminate|]. intros H. lra.
    - apply Qltb_ge in Ea.
      assert (Hnot : ~ 41 # 20 <= change).
      { intros H. apply Hup in H. lra. }
      destruct (Qltb (ROUND change 1) (-2)) eqn:Eb.
      + apply Qltb_lt in Eb. apply Hdown in Eb. split; [|tauto].
        split; [discriminate|]. intros H. contradiction.
      + apply Qltb_ge in Eb.
        assert (Hnot' : ~ change <= - (41 # 20)).
        { intros H. apply Hdown in H. lra. }
        split; split; try discriminate; intros H; contradiction. }
  split; [reflexivity|]. split; [reflexivity|].
  split; [apply Hcases|]. split; [apply Hcases|]. split.
  - intros Heq. split.
    + assert (Hzero : change = 0).
      { unfold change, current_mood, previous_mood.
        rewrite (round_comp (parseFloat_or (weekly_mood current) 0)
                   (parseFloat_or (weekly_mood previous) 0))
          by (rewrite !parseFloat_or_0; exact Heq).
        apply change_of_equal_moods. }
      rewrite Edir, Hzero. reflexivity.
    + unfold Insights.weeklyInsight. rewrite E1, E2. eexists.
      split; [reflexivity|]. cbn [Insights.trend_direction].
      assert (E : Qltb (weekly_mood previous) (weekly_mood current) = false)
        by (apply Qltb_ge; lra).
      now rewrite E.
  - split; vm_compute; reflexivity.
Qed.

Lemma sorted_map {A B} (f : A -> B) (R : B -> B -> Prop) (l : list A) :
  StronglySorted (fun a b => R (f a) (f b)) l -> StronglySorted R (map f l).
Proof.
  induction 1 as [|x l _ IH Hx]; cbn [map]; constructor; auto.
  rewrite Forall_forall in *. intros y Hy. apply in_map_iff in Hy.
  destruct Hy as (a & <- & Ha). now apply Hx.
Qed.

(** X23.  The dashboard's recent activity shows the five newest
    messages of the table, newest first -- all of them when there are
    fewer -- each with the label of its score. *)
Theorem recent_activity_shows_the_five_newest :
  forall (now : Z) (t : Storage.Tables),
    let r := Dashboard.GET now t in
    Dashboard.recent_activity r
    = map Dashboard.activity_of (Storage.getMessages None 5 t) /\
    COUNT (Dashboard.recent_activity r)
    = Z.min 5 (COUNT (Storage.messages t)) /\
    StronglySorted
      (fun a b => ts_leb (Dashboard.act_timestamp b) (Dashboard.act_timestamp a)
                  = true) (Dashboard.recent_activity r) /\
    forall a, In a (Dashboard.recent_activity r) ->
      (Dashboard.sentiment_label a = Dashboard.positive <->
       7 <= Dashboard.act_sentiment_score a) /\
      (Dashboard.sentiment_label a = Dashboard.neutral <->
       4 <= Dashboard.act_sentiment_score a < 7) /\
      (Dashboard.sentiment_label a = Dashboard.negative <->
       Dashboard.act_sentiment_score a < 4).
Proof.
  intros now t r.
  set (sorted := ORDER_BY Storage.newest_first (Storage.messages t)).
  assert (E : Dashboard.recent_activity r
              = map Dashboard.activity_of (firstn 5 sorted)).
  { unfold r. cbn [Dashboard.GET Dashboard.recent_activity].
    unfold Storage.getMessages, Storage.LIMIT. cbn [Storage.given].
    change (10 <? 0)%Z with false. cbv iota. fold sorted.
    now rewrite firstn_firstn. }
  assert (E5 : Storage.getMessages None 5 t = firstn 5 sorted) by reflexivity.
  rewrite E, E5. split; [reflexivity|]. split; [|split].
  - unfold COUNT. rewrite length_map, length_firstn. unfold sorted.
    rewrite (Permutation_length (ORDER_BY_perm _ _)). lia.
  - apply sorted_map. cbn [Dashboard.activity_of Dashboard.act_timestamp].
    apply (sorted_firstn Storage.newest_first). apply newest_first_sorted.
  - intros a Ha. apply in_map_iff in Ha. destruct Ha as (m & <- & _).
    cbn [Dashboard.activity_of Dashboard.sentiment_label
         Dashboard.act_sentiment_score].
    split; [apply label_of_positive|].
    split; [apply label_of_neutral|apply label_of_negative].
Qed.

(* ------------------------------------------------------------------ *)
(** ** The sentiment analysis *)
(* ------------------------------------------------------------------ *)

(** One turn of the loop adds one result, made for its message, and
    counts it as a success or as an error when it is one. *)
Lemma analyze_message_step (cleanText : string -> string)
  (generateText : Message -> Analyze.Reply) (reanalyze : bool)
  (st : Analyze.Progress) (m : Message) :
  exists a : Analyze.AnalyzedMessage,
    Outcomes.recorded cleanText generateText reanalyze m a /\
    Analyze.analyzedMessages
      (Analyze.analyze_message cleanText generateText reanalyze st m)
    = Analyze.analyzedMessages st ++ [a] /\
    Analyze.successCount
      (Analyze.analyze_message cleanText generateText reanalyze st m)
    = (Analyze.successCount st + if Outcomes.is_analyzed a then 1 else 0)%Z /\
    Analyze.errorCount
      (Analyze.analyze_message cleanText generateText reanalyze st m)
    = (Analyze.errorCount st + if Outcomes.is_error a then 1 else 0)%Z.
Proof.
  unfold Analyze.analyze_message.
  destruct (Analyze.already_analyzed reanalyze m) eqn:Edone.
  - eexists. split; [|repeat split].
    unfold Analyze.already_analyzed in Edone.
    apply andb_true_iff in Edone. destruct Edone as [Edone Hre].
    apply andb_true_iff in Edone. destruct Edone as [H0 H5].
    apply negb_true_iff in Hre, H0, H5.
    split; [reflexivity|]. cbn [Analyze.status Analyze.am_sentiment_score].
    repeat split; auto.
    + intros H. apply Qeq_bool_iff in H. congruence.
    + intros H. apply Qeq_bool_iff in H. congruence.
  - destruct (Nat.ltb_spec (String.length (cleanText (text m))) 3) as [Hshort|_].
    + eexists. split; [|repeat split]. split; [reflexivity|].
      cbn [Analyze.status Analyze.am_sentiment_score]. auto.
    + destruct (generateText m) as [|[score|]] eqn:Ereply.
      * eexists. split; [|repeat split]. split; [reflexivity|].
        cbn [Analyze.status Analyze.am_sentiment_score].
        split; [reflexivity|exact Ereply].
      * destruct (Analyze.invalid (Num score)) eqn:Einv.
        -- eexists. split; [|repeat split]. split; [reflexivity|].
           cbn [Analyze.status Analyze.am_sentiment_score].
           split; [reflexivity|]. exists (Num score). split; [exact Ereply|].
           cbn [Analyze.invalid] in Einv. apply orb_true_iff in Einv.
           cbn [in_range]. rewrite !Qltb_lt in Einv. lra.
        -- eexists. split; [|repeat split]. split; [reflexivity|].
           cbn [Analyze.status Analyze.am_sentiment_score].
           split; [exact Ereply|].
           cbn [Analyze.invalid] in Einv. apply orb_false_iff in Einv.
           rewrite !Qltb_ge in Einv. tauto.
      * eexists. split; [|repeat split]. split; [reflexivity|].
        cbn [Analyze.status Analyze.am_sentiment_score].
        split; [reflexivity|]. exists NaN. split; [exact Ereply|].
        cbn [in_range]. tauto.
Qed.

Lemma analyze_loop (cleanText : string -> string)
  (generateText : Message -> Analyze.Reply) (reanalyze : bool)
  (messages : list Message) (st : Analyze.Progress) :
  exists results : list Analyze.AnalyzedMessage,
    let st' := fold_left (Analyze.analyze_message cleanText generateText reanalyze)
                 messages st in
    Forall2 (Outcomes.recorded cleanText generateText reanalyze) messages results /\
    Analyze.analyzedMessages st' = Analyze.analyzedMessages st ++ results /\
    Analyze.successCount st'
    = (Analyze.successCount st + COUNT (filter Outcomes.is_analyzed results))%Z /\
    Analyze.errorCount st'
    = (Analyze.errorCount st + COUNT (filter Outcomes.is_error results))%Z.
Proof.
  revert st. induction messages as [|m messages IH]; intros st.
  - exists []. cbn. rewrite app_nil_r. repeat split; auto; unfold COUNT; cbn; lia.
  - cbn [fold_left].
    destruct (analyze_message_step cleanText generateText reanalyze st m)
      as (a & Ha & E1 & E2 & E3).
    destruct (IH (Analyze.analyze_message cleanText generateText reanalyze st m))
      as (results & Hall & F1 & F2 & F3).
    exists (a :: results). cbv zeta in *. split; [now constructor|].
    rewrite F1, F2, F3, E1, E2, E3, <- app_assoc. cbn [app filter].
    split; [reflexivity|].
    destruct (Outcomes.is_analyzed a); destruct (Outcomes.is_error a);
      unfold COUNT; cbn [length]; split; lia.
Qed.

(** The loop from its first state. *)
Lemma analyze_all_outcomes (cleanText : string -> string)
  (generateText : Message -> Analyze.Reply) (reanalyze : bool)
  (messages : list Message) :
  let st := Analyze.analyze_all cleanText generateText reanalyze messages in
  let results := Analyze.analyzedMessages st in
  Forall2 (Outcomes.recorded cleanText generateText reanalyze)
    messages results /\
  Analyze.successCount st = COUNT (filter Outcomes.is_analyzed results) /\
  Analyze.errorCount st = COUNT (filter Outcomes.is_error results) /\
  (COUNT messages - Analyze.successCount st - Analyze.errorCount st)%Z
  = COUNT (filter Outcomes.is_skipped results).
Proof.
  intros st results.
  destruct (analyze_loop cleanText generateText reanalyze messages
              {| Analyze.analyzedMessages := [];
                 Analyze.successCount := 0;
                 Analyze.errorCount := 0 |})
    as (res & Hall & E1 & E2 & E3).
  cbv zeta in E1, E2, E3.
  cbn [Analyze.analyzedMessages Analyze.successCount Analyze.errorCount app]
    in E1, E2, E3.
  fold (Analyze.analyze_all cleanText generateText reanalyze messages)
    in E1, E2, E3.
  fold st in E1, E2, E3. fold results in E1. subst res.
  split; [exact Hall|]. split; [lia|]. split; [lia|].
  rewrite E2, E3.
  assert (Hlen : COUNT messages = COUNT results).
  { unfold COUNT. f_equal. exact (Forall2_length Hall). }
  rewrite Hlen. clear. unfold COUNT.
  induction results as [|a results IH]; [reflexivity|].
  cbn [filter]. unfold Outcomes.is_analyzed at 1, Outcomes.is_error at 1,
    Outcomes.is_skipped at 1.
  destruct (Analyze.status a); cbn [length]; lia.
Qed.

(** X24.  The analysis records one result for each message, in the
    order of the messages.  A result is counted as analyzed exactly
    when the model answered a number from 1 to 10, which is then its
    score; it is counted as an error when the call failed or the
    answer was no such number, and its score is then 5; every other
    result is a skip, of a message that has a score other than 0 and 5
    already and is taken over as it is, or of a text that is too
    short.  The three counts add up to the number of messages. *)
Theorem analysis_counts_add_up :
  forall (cleanText : string -> string)
         (generateText : Message -> Analyze.Reply) (reanalyze : bool)
         (messages : list Message),
    let st := Analyze.analyze_all cleanText generateText reanalyze messages in
    let results := Analyze.analyzedMessages st in
    Forall2 (Outcomes.recorded cleanText generateText reanalyze)
      messages results /\
    Analyze.successCount st = COUNT (filter Outcomes.is_analyzed results) /\
    Analyze.errorCount st = COUNT (filter Outcomes.is_error results) /\
    (COUNT messages - Analyze.successCount st - Analyze.errorCount st)%Z
    = COUNT (filter Outcomes.is_skipped results) /\
    forall a, In a results ->
      (Outcomes.is_analyzed a = true -> 1 <= Analyze.am_sentiment_score a <= 10) /\
      (Outcomes.is_error a = true -> Analyze.am_sentiment_score a = 5).
Proof.
  intros cleanText generateText reanalyze messages st results.
  destruct (analyze_all_outcomes cleanText generateText reanalyze messages)
    as (Hall & Hs & He & Hk).
  fold st in Hall, Hs, He, Hk. fold results in Hall, Hs, He, Hk.
  split; [exact Hall|]. split; [exact Hs|]. split; [exact He|].
  split; [exact Hk|].
  intros a Ha.
  assert (Hrec : exists m, Outcomes.recorded cleanText generateText reanalyze m a).
  { clear - Hall Ha. induction Hall as [|m a' ms rs Hm _ IH]; [destruct Ha|].
    destruct Ha as [<-|Ha]; [now exists m|now apply IH]. }
  destruct Hrec as (m & _ & Hm).
  unfold Outcomes.is_analyzed, Outcomes.is_error.
  destruct (Analyze.status a); split; try discriminate; intros _; tauto.
Qed.

(** X25.  The handler of the analysis answers 500 without a key and
    404 whenever message ids are given, whatever the database holds,
    or when there is no message.  Otherwise it analyses the newest
    messages, 100 at most: the total is between 1 and 100, the counts
    of analyzed, failed and skipped messages are not negative and add
    up to the total, and the sample shows the first ten results. *)
Theorem analysis_handler_reads_at_most_100_messages :
  forall (cleanText : string -> string)
         (generateText : Message -> Analyze.Reply)
         (OPENAI_API_KEY : bool) (channelId : option string)
         (messageIds : option (list Z)) (reanalyze : bool)
         (t : Storage.Tables),
    let response :=
      Analyze.POST cleanText generateText OPENAI_API_KEY channelId messageIds
        reanalyze t in
    (OPENAI_API_KEY = false -> response = Analyze.Status500) /\
    (OPENAI_API_KEY = true ->
     (exists i ids, messageIds = Some (i :: ids)) ->
     response = Analyze.Status404) /\
    (OPENAI_API_KEY = true -> Storage.getMessages channelId 100 t = [] ->
     response = Analyze.Status404) /\
    forall report, response = Analyze.Status200 report ->
      OPENAI_API_KEY = true /\
      Analyze.total_messages report
      = Z.min 100 (COUNT (Storage.getMessages channelId (-1) t)) /\
      (1 <= Analyze.total_messages report <= 100)%Z /\
      (0 <= Analyze.analyzed_count report)%Z /\
      (0 <= Analyze.errors report)%Z /\
      (0 <= Analyze.skipped_count report)%Z /\
      (Analyze.analyzed_count report + Analyze.errors report
       + Analyze.skipped_count report = Analyze.total_messages report)%Z /\
      COUNT (Analyze.sample_results report)
      = Z.min 10 (Analyze.total_messages report) /\
      map Analyze.am_id (Analyze.sample_results report)
      = firstn 10 (map id (Storage.getMessages channelId 100 t)).
Proof.
  intros cleanText generateText key channelId messageIds reanalyze t response.
  assert (Eget : match Storage.given channelId with
                 | Some c => Storage.getMessages (Some c) 100 t
                 | None => Storage.getMessages None 100 t
                 end = Storage.getMessages channelId 100 t).
  { unfold Storage.getMessages.
    destruct channelId as [c|]; cbn [Storage.given]; [|reflexivity].
    destruct (String.eqb c EmptyString) eqn:E; [reflexivity|].
    cbn [Storage.given]. now rewrite E. }
  split; [|split; [|split]].
  - intros ->. reflexivity.
  - intros -> (i & ids & ->). reflexivity.
  - intros -> Hnone. unfold response, Analyze.POST. cbn [negb].
    rewrite Eget, Hnone. destruct messageIds as [[|i ids]|]; reflexivity.
  - intros report Hreport. unfold response, Analyze.POST in Hreport.
    destruct key; cbn [negb] in Hreport; [|discriminate].
    rewrite Eget in Hreport.
    set (messages := match messageIds with
                     | Some (_ :: _) => []
                     | _ => Storage.getMessages channelId 100 t
                     end) in Hreport.
    destruct (Z.eqb_spec (COUNT messages) 0) as [|Hne]; [discriminate|].
    pose proof (f_equal (fun r => match r with
                                  | Analyze.Status200 x => x
                                  | _ => report
                                  end) Hreport) as Er.
    cbv beta iota in Er. rewrite <- Er. clear Er Hreport.
    cbn [Analyze.total_messages Analyze.analyzed_count Analyze.errors
         Analyze.skipped_count Analyze.sample_results].
    assert (Emsgs : messages = Storage.getMessages channelId 100 t).
    { unfold messages in *. destruct messageIds as [[|i ids]|]; try reflexivity.
      elim Hne. reflexivity. }
    destruct (analyze_all_outcomes cleanText generateText reanalyze messages)
      as (Hall & Hs & He & Hk).
    set (st := Analyze.analyze_all cleanText generateText reanalyze messages) in *.
    assert (Htotal : COUNT messages
                     = Z.min 100 (COUNT (Storage.getMessages channelId (-1) t))).
    { rewrite Emsgs. unfold Storage.getMessages, Storage.LIMIT.
      change (100 <? 0)%Z with false. change (-1 <? 0)%Z with true. cbv iota.
      destruct (Storage.given channelId); unfold COUNT;
        rewrite length_firstn; lia. }
    assert (Hpos : (0 <= COUNT messages)%Z) by (unfold COUNT; lia).
    assert (Hlen : length (Analyze.analyzedMessages st) = length messages)
      by (symmetry; exact (Forall2_length Hall)).
    split; [reflexivity|]. split; [exact Htotal|].
    split; [lia|]. split; [rewrite Hs; unfold COUNT; lia|].
    split; [rewrite He; unfold COUNT; lia|].
    split; [rewrite Hk; unfold COUNT; lia|].
    split; [lia|]. split.
    + unfold COUNT. rewrite length_firstn, Hlen. lia.
    + rewrite <- Emsgs, <- firstn_map. f_equal.
      clear - Hall. induction Hall as [|m a ms rs [Hm _] _ IH]; [reflexivity|].
      cbn [map]. now rewrite Hm, IH.
Qed.

(* ------------------------------------------------------------------ *)
(** ** The ingestion of Slack messages *)
(* ------------------------------------------------------------------ *)

(** The loop makes the requests that [Pages.pages] lists: from a count
    of no more than ten requests, the turns that the safety limit
    leaves are enough. *)
Lemma fetch_pages (history : option string -> option Ingest.History)
  (turns : nat) (cursor : option string)
  (allMessages : list Ingest.SlackMessage) (requestCount : Z) :
  (0 <= requestCount <= 10)%Z -> (11 - requestCount <= Z.of_nat turns)%Z ->
  Ingest.fetch history turns cursor allMessages requestCount
  = option_map (fun ps => (allMessages ++ flat_map Pages.messages_of ps,
                           (requestCount + COUNT ps)%Z))
      (Pages.pages history (Z.to_nat (11 - requestCount)) cursor).
Proof.
  revert cursor allMessages requestCount.
  induction turns as [|turns IH]; intros cursor allMessages requestCount Hn Ht;
    [lia|].
  replace (Z.to_nat (11 - requestCount))
    with (S (Z.to_nat (11 - (requestCount + 1)))) by lia.
  cbn [Ingest.fetch Pages.pages].
  destruct (history cursor) as [result|]; [|reflexivity].
  assert (Emsgs : match Ingest.history_messages result with
                  | Some messages => allMessages ++ messages
                  | None => allMessages
                  end = allMessages ++ Pages.messages_of result).
  { unfold Pages.messages_of.
    destruct (Ingest.history_messages result); [reflexivity|].
    now rewrite app_nil_r. }
  rewrite Emsgs.
  assert (Eone : forall k : Z,
            (allMessages ++ Pages.messages_of result, (requestCount + 1)%Z)
            = (allMessages ++ flat_map Pages.messages_of [result],
               (requestCount + COUNT [result])%Z)).
  { intros _. cbn [flat_map]. now rewrite app_nil_r. }
  destruct (Z.ltb_spec 10 (requestCount + 1)) as [Hlast|Hmore].
  - replace (Z.to_nat (11 - (requestCount + 1))) with O by lia.
    cbn [Pages.pages option_map].
    destruct (Ingest.truthy_string (Ingest.next_cursor result));
      cbn [option_map]; now rewrite (Eone 0%Z).
  - destruct (Ingest.truthy_string (Ingest.next_cursor result)).
    + rewrite IH by lia.
      destruct (Pages.pages history (Z.to_nat (11 - (requestCount + 1)))
                  (Ingest.next_cursor result)) as [ps|]; [|reflexivity].
      cbn [option_map flat_map]. rewrite <- app_assoc. f_equal. f_equal.
      unfold COUNT. cbn [length]. lia.
    + cbn [option_map]. now rewrite (Eone 0%Z).
Qed.

Lemma pages_bounds (history : option string -> option Ingest.History)
  (n : nat) (cursor : option string) (ps : list Ingest.History) :
  Pages.pages history n cursor = Some ps ->
  (length ps <= n)%nat /\ (0 < n -> 0 < length ps)%nat /\
  forall p, In p ps -> exists c, history c = Some p.
Proof.
  revert cursor ps. induction n as [|n IH]; intros cursor ps; cbn [Pages.pages].
  - intros [= <-]. cbn. repeat split; try lia.
  - destruct (history cursor) as [result|] eqn:Eh; [|discriminate].
    destruct (Ingest.truthy_string (Ingest.next_cursor result)).
    + destruct (Pages.pages history n (Ingest.next_cursor result)) as [qs|] eqn:Eq;
        [|discriminate].
      cbn [option_map]. intros [= <-]. destruct (IH _ _ Eq) as (H1 & _ & H3).
      cbn [length]. repeat split; try lia.
      intros p [<-|Hp]; [now exists cursor|now apply H3].
    + intros [= <-]. cbn [length]. repeat split; try lia.
      intros p [<-|[]]. now exists cursor.
Qed.

Lemma flat_map_length_bound {A B} (f : A -> list B) (l : list A) (k : nat) :
  (forall a, In a l -> (length (f a) <= k)%nat) ->
  (length (flat_map f l) <= k * length l)%nat.
Proof.
  induction l as [|a l IH]; intros H; cbn [flat_map length]; [lia|].
  rewrite length_app.
  assert (Ha : (length (f a) <= k)%nat) by (apply H; now left).
  assert (Hl : (length (flat_map f l) <= k * length l)%nat)
    by (apply IH; intros b Hb; apply H; now right).
  lia.
Qed.

Lemma fetch_history_pages (history : option string -> option Ingest.History) :
  forall turns, (11 <= turns)%nat ->
    Ingest.fetch history turns None [] 0
    = option_map (fun ps => (flat_map Pages.messages_of ps, COUNT ps))
        (Pages.pages history 11 None).
Proof.
  intros turns Ht. rewrite fetch_pages by lia.
  change (Z.to_nat (11 - 0)) with 11%nat.
  destruct (Pages.pages history 11 None); reflexivity.
Qed.

Lemma fetch_history_requests
  (history : option string -> option Ingest.History)
  (allMessages : list Ingest.SlackMessage) (requestCount : Z) :
  Ingest.fetch_history history = Some (allMessages, requestCount) ->
  (1 <= requestCount <= 11)%Z /\
  exists ps, allMessages = flat_map Pages.messages_of ps /\
             (length ps <= 11)%nat /\
             forall p, In p ps -> exists c, history c = Some p.
Proof.
  unfold Ingest.fetch_history. rewrite fetch_history_pages by lia.
  intros Hfetch.
  destruct (Pages.pages history 11 None) as [ps|] eqn:Eps; [|discriminate].
  cbn [option_map] in Hfetch. injection Hfetch as <- <-.
  destruct (pages_bounds history 11 None ps Eps) as (Hle & Hpos & Hfrom).
  split; [unfold COUNT; lia|]. exists ps. auto.
Qed.

(** X26.  The history of a channel is fetched page by page along the
    cursors, and in eleven requests at most: the safety limit ends the
    loop after the eleventh request even when its result carries a
    cursor, and the messages of the later pages are not fetched.  More
    turns than eleven change nothing.  When every page holds at most
    100 messages, as the request asks, no more than 1100 messages are
    fetched. *)
Theorem history_takes_eleven_requests_at_most :
  forall (history : option string -> option Ingest.History) (more : nat),
    Ingest.fetch history (11 + more) None [] 0 = Ingest.fetch_history history /\
    Ingest.fetch_history history
    = option_map (fun ps => (flat_map Pages.messages_of ps, COUNT ps))
        (Pages.pages history 11 None) /\
    forall allMessages requestCount,
      Ingest.fetch_history history = Some (allMessages, requestCount) ->
      (1 <= requestCount <= 11)%Z /\
      ((forall cursor result, history cursor = Some result ->
          (COUNT (Pages.messages_of result) <= 100)%Z) ->
       (COUNT allMessages <= 1100)%Z).
Proof.
  intros history more.
  unfold Ingest.fetch_history at 1 2. rewrite !fetch_history_pages by lia.
  split; [reflexivity|]. split; [reflexivity|].
  intros allMessages requestCount Hfetch.
  destruct (fetch_history_requests history _ _ Hfetch)
    as (Hcount & ps & -> & Hle & Hfrom).
  split; [exact Hcount|].
  intros Hlimit.
  pose proof (flat_map_length_bound Pages.messages_of ps 100) as Hb.
  unfold COUNT.
  assert (Hall : forall a, In a ps -> (length (Pages.messages_of a) <= 100)%nat).
  { intros p Hp. destruct (Hfrom p Hp) as (c & Hc).
    specialize (Hlimit c p Hc). unfold COUNT in Hlimit. lia. }
  specialize (Hb Hall). lia.
Qed.

Lemma fetch_thread_loop
  (replies : option Q -> option (option (list Ingest.SlackMessage)))
  (messages : list Ingest.SlackMessage) (st : list Ingest.SlackMessage * Z) :
  (snd st
   <= snd (fold_left (Ingest.fetch_thread replies) messages st)
   <= snd st + COUNT messages)%Z.
Proof.
  revert st. induction messages as [|m messages IH]; intros st;
    cbn [fold_left].
  - unfold COUNT. cbn. lia.
  - specialize (IH (Ingest.fetch_thread replies st m)).
    assert (Hstep : (snd st <= snd (Ingest.fetch_thread replies st m)
                     <= snd st + 1)%Z).
    { unfold Ingest.fetch_thread. destruct (Ingest.reply_count m) as [n|];
        [|lia].
      destruct (0 <? n)%Z; [|lia].
      destruct (replies (Ingest.sm_ts m)) as [[ms|]|]; cbn [snd]; lia. }
    unfold COUNT in *. cbn [length]. lia.
Qed.

Lemma process_one (channel : string) (message : Ingest.SlackMessage) :
  (length (Ingest.process channel message) <= 1)%nat /\
  forall d, In d (Ingest.process channel message) ->
    Ingest.md_channel_id d = channel /\
    Ingest.sm_text message = Some (Ingest.md_text d) /\
    Ingest.sm_user message = Some (Ingest.md_user_id d) /\
    Ingest.md_text d <> EmptyString /\ Ingest.md_user_id d <> EmptyString /\
    Ingest.md_sentiment_score d
    = stored_sentiment (Pages.reactions_of message).
Proof.
  unfold Ingest.process.
  destruct (Ingest.sm_text message) as [text|]; [|cbn; split; [lia|tauto]].
  destruct (Ingest.sm_user message) as [user|]; [|cbn; split; [lia|tauto]].
  destruct (Ingest.sm_ts message) as [ts|]; [|cbn; split; [lia|tauto]].
  destruct (Ingest.truthy_string (Some text) && Ingest.truthy_string (Some user))
    eqn:E; [|cbn; split; [lia|tauto]].
  apply andb_true_iff in E. destruct E as [Ht Hu].
  cbn [Ingest.truthy_string] in Ht, Hu.
  apply negb_true_iff in Ht, Hu. apply String.eqb_neq in Ht, Hu.
  split; [cbn; lia|]. intros d [<-|[]].
  cbn [Ingest.md_channel_id Ingest.md_text Ingest.md_user_id
       Ingest.md_sentiment_score].
  repeat split; auto.
Qed.

(** X27.  The ingestion answers 400 without a channel id and 500
    without a token.  In its report the total is the sum of the main
    and the thread messages; it makes at least one request and never
    more than eleven and one for each main message; and it processes
    no more messages than it fetched, all of them for the channel of
    the request and each with a text and a user. *)
Theorem ingestion_report_adds_up :
  forall (history : option string -> option Ingest.History)
         (replies : option Q -> option (option (list Ingest.SlackMessage)))
         (channelId : option string) (SLACK_BOT_TOKEN : bool),
    let response := Ingest.POST history replies channelId SLACK_BOT_TOKEN in
    (Storage.given channelId = None -> response = Ingest.Status400) /\
    (Storage.given channelId <> None -> SLACK_BOT_TOKEN = false ->
     response = Ingest.Status500) /\
    forall report, response = Ingest.Status200 report ->
      (Ingest.total_messages_fetched report
       = Ingest.main_messages_fetched report
         + Ingest.thread_messages_fetched report)%Z /\
      (1 <= Ingest.requests_made report
       <= 11 + Ingest.main_messages_fetched report)%Z /\
      Ingest.messages_processed report
      = COUNT (Ingest.processedMessages report) /\
      (0 <= Ingest.messages_processed report
       <= Ingest.total_messages_fetched report)%Z /\
      forall d, In d (Ingest.processedMessages report) ->
        Storage.given channelId = Some (Ingest.md_channel_id d) /\
        Ingest.md_text d <> EmptyString /\
        Ingest.md_user_id d <> EmptyString.
Proof.
  intros history replies channelId token response.
  unfold response, Ingest.POST.
  destruct (Storage.given channelId) as [channel|].
  2:{ split; [reflexivity|]. split; [congruence|]. discriminate. }
  split; [discriminate|]. split; [now intros _ ->|].
  intros report Hreport. destruct token; cbn [negb] in Hreport; [|discriminate].
  destruct (Ingest.fetch_history history) as [[allMessages requestCount]|] eqn:Ef;
    [|discriminate].
  destruct (fetch_history_requests history allMessages requestCount Ef)
    as [Hr1 _].
  pose proof (fetch_thread_loop replies allMessages ([], 0%Z)) as Hthreads.
  cbn [snd] in Hthreads.
  set (threads := fold_left (Ingest.fetch_thread replies) allMessages ([], 0%Z))
    in *.
  pose proof (f_equal (fun r => match r with
                                | Ingest.Status200 x => x
                                | _ => report
                                end) Hreport) as Er.
  cbv beta iota in Er. rewrite <- Er. clear Er Hreport.
  cbn [Ingest.total_messages_fetched Ingest.main_messages_fetched
       Ingest.thread_messages_fetched Ingest.requests_made
       Ingest.messages_processed Ingest.processedMessages].
  split; [apply COUNT_app|]. split; [lia|]. split; [reflexivity|]. split.
  - unfold COUNT. split; [lia|]. apply inj_le.
    pose proof (flat_map_length_bound (Ingest.process channel)
                  (allMessages ++ fst threads) 1) as Hb.
    rewrite Nat.mul_1_l in Hb. apply Hb. intros m _. apply process_one.
  - intros d Hd. apply in_flat_map in Hd. destruct Hd as (m & _ & Hd).
    destruct (process_one channel m) as [_ Hone].
    destruct (Hone d Hd) as (-> & _ & _ & Ht & Hu & _). auto.
Qed.

(** X28.  A message is stored with the placeholder score 5 when it has
    no reaction, and otherwise with the blend of 5 and its reactions.
    As long as no reaction is named like a property of
    [Object.prototype], the stored score lies between 3.8 and 6.5: no
    message leaves the ingestion with a positive score, 7 or more. *)
Theorem ingested_score_is_between_3_8_and_6_5 :
  forall (channelId : string) (message : Ingest.SlackMessage)
         (d : Ingest.MessageData),
    In d (Ingest.process channelId message) ->
    Forall (fun r => lookup Object_prototype (name r) = None)
      (Pages.reactions_of message) ->
    exists q : Q,
      Ingest.md_sentiment_score d = Num q /\
      19 # 5 <= q <= 13 # 2 /\
      Dashboard.label_of q <> Dashboard.positive /\
      (Pages.reactions_of message = [] -> q = 5).
Proof.
  intros channelId message d Hd Hnames.
  destruct (process_one channelId message) as [_ Hone].
  destruct (Hone d Hd) as (_ & _ & _ & _ & _ & ->).
  unfold stored_sentiment, combinedSentiment, placeholder_score.
  destruct (reaction_loop (Pages.reactions_of message) 0 0 Hnames)
    as (sum & n & E & Hn & Hpos & Hsum).
  - lia.
  - change (inject_Z 0) with 0. lra.
  - rewrite E. cbn [fst snd].
    assert (Hrange : forall q, 19 # 5 <= q <= 13 # 2 ->
              Dashboard.label_of q <> Dashboard.positive).
    { intros q Hq H. apply label_of_positive in H. lra. }
    destruct (Z.ltb_spec 0 n) as [Hp|Hz].
    + cbn [div mul add]. eexists. split; [reflexivity|].
      assert (Hi : 0 < inject_Z n) by now apply inject_Z_pos.
      assert (Havg : 1 <= sum / inject_Z n <= 10).
      { split.
        - apply Qle_shift_div_l; [exact Hi|lra].
        - apply Qle_shift_div_r; [exact Hi|lra]. }
      assert (Hq : 19 # 5 <= 5 * (7 # 10) + sum / inject_Z n * (3 # 10) <= 13 # 2)
        by lra.
      split; [exact Hq|]. split; [now apply Hrange|].
      intros Hnil. rewrite Hnil in E. cbn [fold_left] in E.
      injection E as _ En. lia.
    + exists 5. split; [reflexivity|]. split; [lra|].
      split; [apply Hrange; lra|reflexivity].
Qed.

Lemma ingested_score_is_between_3_8_and_6_5_witness :
  exists q : Q,
    Ingest.md_sentiment_score Examples.liked_data = Num q /\
    19 # 5 <= q <= 13 # 2 /\
    Dashboard.label_of q <> Dashboard.positive /\
    (Pages.reactions_of Examples.liked_message = [] -> q = 5).
Proof.
  apply (ingested_score_is_between_3_8_and_6_5 "C1" Examples.liked_message
           Examples.liked_data).
  - vm_compute. left. reflexivity.
  - vm_compute. repeat constructor.
Defined.

(* ------------------------------------------------------------------ *)
(** ** The message evidence *)
(* ------------------------------------------------------------------ *)

Lemma sorted_filter {A} (R : A -> A -> Prop) (p : A -> bool) (l : list A) :
  StronglySorted R l -> StronglySorted R (filter p l).
Proof.
  induction 1 as [|x l _ IH Hx]; cbn [filter]; [constructor|].
  destruct (p x); [|exact IH]. constructor; [exact IH|].
  rewrite Forall_forall in *. intros y Hy. apply filter_In in Hy.
  now apply Hx.
Qed.

Lemma has_label_iff (l : Dashboard.Label) (p : Evidence.ProcessedMessage) :
  Evidence.has_label l p = true <-> Evidence.sentiment_label p = l.
Proof.
  unfold Evidence.has_label.
  destruct (Evidence.sentiment_label p), l; split; congruence.
Qed.

(** X29.  The evidence route labels every selected message once, so
    the three counts of its distribution add up to the total, and it
    shows the first twenty messages.  Its examples are cut from the
    sorted selection: the selection is sorted by falling score unless
    the filter is ['negative'], so [most_negative] then holds the
    three negative messages with the highest scores, not the lowest --
    no negative message that is left out has a higher score than one
    that is shown.  Under the filter ['negative'] the order is by
    rising score and [most_negative] holds the lowest scores. *)
Theorem evidence_examples_follow_the_sort_order :
  forall (channelId sentiment : option string) (days now : Z)
         (messages : list Message),
    let r := Evidence.GET channelId sentiment days now messages in
    let all := map Evidence.processed
                 (Evidence.messagesWithReactions channelId sentiment days now
                    messages) in
    let score := fun p => sentiment_score (Evidence.pm_message p) in
    let ordered := fun a b =>
      if Evidence.ascending sentiment then score a <= score b
      else score b <= score a in
    (Dashboard.sd_positive (Evidence.distribution r)
     + Dashboard.sd_neutral (Evidence.distribution r)
     + Dashboard.sd_negative (Evidence.distribution r)
     = Evidence.total_messages r)%Z /\
    Evidence.total_messages r = COUNT all /\
    Evidence.shown_messages r = firstn 20 all /\
    StronglySorted ordered all /\
    (forall p, In p all ->
       (Evidence.sentiment_label p = Dashboard.positive <-> 7 <= score p) /\
       (Evidence.sentiment_label p = Dashboard.negative <-> score p < 4)) /\
    (exists rest,
       filter (Evidence.has_label Dashboard.negative) all
       = Evidence.most_negative r ++ rest /\
       (length (Evidence.most_negative r) <= 3)%nat /\
       (rest <> [] -> length (Evidence.most_negative r) = 3%nat) /\
       forall a b, In a (Evidence.most_negative r) -> In b rest -> ordered a b) /\
    (exists rest,
       filter (Evidence.has_label Dashboard.positive) all
       = Evidence.most_positive r ++ rest /\
       (length (Evidence.most_positive r) <= 3)%nat /\
       (rest <> [] -> length (Evidence.most_positive r) = 3%nat) /\
       forall a b, In a (Evidence.most_positive r) -> In b rest -> ordered a b).
Proof.
  intros channelId sentiment days now messages r all score ordered.
  assert (Hsorted : StronglySorted ordered all).
  { unfold all. apply sorted_map.
    apply (sorted_weaken
             (fun a b => Evidence.by_score sentiment a b = true)).
    - intros a b. unfold ordered, score, Evidence.by_score.
      cbn [Evidence.processed Evidence.pm_message].
      destruct (Evidence.ascending sentiment); apply Qle_bool_iff.
    - apply ORDER_BY_sorted.
      + intros a b. unfold Evidence.by_score.
        destruct (Evidence.ascending sentiment); rewrite !Qle_bool_iff.
        * destruct (Qlt_le_dec (sentiment_score b) (sentiment_score a));
            [right; now apply Qlt_le_weak|now left].
        * destruct (Qlt_le_dec (sentiment_score a) (sentiment_score b));
            [right; now apply Qlt_le_weak|now left].
      + intros a b c. unfold Evidence.by_score.
        destruct (Evidence.ascending sentiment); rewrite !Qle_bool_iff;
          intros H1 H2; now apply Qle_trans with (sentiment_score b). }
  assert (Hexamples : forall l,
            exists rest,
              filter (Evidence.has_label l) all
              = firstn 3 (filter (Evidence.has_label l) all) ++ rest /\
              (length (firstn 3 (filter (Evidence.has_label l) all)) <= 3)%nat /\
              (rest <> [] ->
               length (firstn 3 (filter (Evidence.has_label l) all)) = 3%nat) /\
              forall a b, In a (firstn 3 (filter (Evidence.has_label l) all)) ->
                          In b rest -> ordered a b).
  { intros l. set (sel := filter (Evidence.has_label l) all).
    exists (skipn 3 sel). split; [now rewrite firstn_skipn|].
    split; [apply firstn_le_length|]. split.
    - intros Hrest. rewrite length_firstn.
      assert (Hlen : (3 < length sel)%nat).
      { destruct (Nat.ltb_spec 3 (length sel)) as [H|H]; [exact H|].
        elim Hrest. apply skipn_all2. lia. }
      lia.
    - assert (Hsel : StronglySorted ordered sel)
        by (apply sorted_filter; exact Hsorted).
      rewrite <- (firstn_skipn 3 sel) in Hsel.
      apply sorted_app in Hsel. apply Hsel. }
  split; [|split; [reflexivity|split; [reflexivity|split; [exact Hsorted|split]]]].
  - unfold r.
    cbn [Evidence.GET Evidence.distribution Evidence.total_messages
         Dashboard.sd_positive Dashboard.sd_neutral Dashboard.sd_negative].
    fold all. generalize all. clear. intros l. unfold COUNT.
    induction l as [|p l IH]; [reflexivity|].
    cbn [filter].
    destruct (Evidence.has_label Dashboard.positive p) eqn:E1,
             (Evidence.has_label Dashboard.neutral p) eqn:E2,
             (Evidence.has_label Dashboard.negative p) eqn:E3;
      unfold Evidence.has_label in E1, E2, E3;
      destruct (Evidence.sentiment_label p); try discriminate;
      cbn [length]; lia.
  - intros p Hp. unfold all in Hp. apply in_map_iff in Hp.
    destruct Hp as (m & <- & _). unfold score.
    cbn [Evidence.processed Evidence.sentiment_label Evidence.pm_message].
    split; [apply label_of_positive|apply label_of_negative].
  - split; [apply (Hexamples Dashboard.negative)|
            apply (Hexamples Dashboard.positive)].
Qed.

(* ------------------------------------------------------------------ *)
(** ** The queries on a table with [NULL] scores *)
(* ------------------------------------------------------------------ *)

Lemma has_day (day : Z) (rows : list Nullable.Row) :
  filter (has_key Z.eq_dec (fun r => DATE (Nullable.timestamp r)) day) rows
  = filter (fun r => (DATE (Nullable.timestamp r) =? day)%Z) rows.
Proof.
  apply filter_ext. intros r. apply eq_true_iff_eq.
  rewrite has_key_true, Z.eqb_eq. reflexivity.
Qed.

(** A group of the daily query holds the rows of the window that have
    its date. *)
Lemma daily_group_rows (days now day : Z) (table : list Nullable.Row) :
  filter (has_key Z.eq_dec (fun r => DATE (Nullable.timestamp r)) day)
    (filter (Nullable.since now days) table)
  = Nullable.rows_of_day days now table day.
Proof.
  unfold Nullable.rows_of_day. now rewrite has_day, filter_andb.
Qed.

(** Every daily bucket is the row of the rows of its date, and there
    is such a row. *)
Lemma daily_bucket_rows (ROUND_1 : Q -> Q) (days now : Z)
  (table : list Nullable.Row) (b : Nullable.DailyMood) :
  In b (Nullable.getDailyMoodTrends ROUND_1 days now table) ->
  Nullable.rows_of_day days now table (Nullable.date b) <> [] /\
  b = Nullable.daily_mood_row ROUND_1
        (Nullable.date b,
         Nullable.rows_of_day days now table (Nullable.date b)).
Proof.
  intros Hb. unfold Nullable.getDailyMoodTrends in Hb.
  apply ORDER_BY_In in Hb. apply in_map_iff in Hb.
  destruct Hb as ([day rows] & <- & Hg).
  pose proof (group_not_empty _ _ _ _ Hg) as Hne.
  apply in_group_by in Hg. cbn [fst snd] in Hg, Hne. destruct Hg as [_ Hrows].
  rewrite daily_group_rows in Hrows. subst rows.
  cbn [Nullable.daily_mood_row Nullable.date]. split; [exact Hne|reflexivity].
Qed.

(** A row of the window has a daily bucket. *)
Lemma daily_bucket_of_row (ROUND_1 : Q -> Q) (days now : Z)
  (table : list Nullable.Row) (m : Nullable.Row) :
  In m table -> Nullable.since now days m = true ->
  In m (Nullable.rows_of_day days now table (DATE (Nullable.timestamp m))) /\
  In (Nullable.daily_mood_row ROUND_1
        (DATE (Nullable.timestamp m),
         Nullable.rows_of_day days now table (DATE (Nullable.timestamp m))))
     (Nullable.getDailyMoodTrends ROUND_1 days now table).
Proof.
  intros Hin Hwin. split.
  - apply filter_In. split; [exact Hin|]. now rewrite Hwin, Z.eqb_refl.
  - unfold Nullable.getDailyMoodTrends. apply ORDER_BY_In. apply in_map.
    apply in_group_by. cbn [fst snd]. split.
    + apply (in_map (fun r => DATE (Nullable.timestamp r))).
      apply filter_In. auto.
    + now rewrite daily_group_rows.
Qed.

Lemma joined_rows_channel (now : Z) (channels : list Channel)
  (table : list Nullable.Row) (r : Channel * Nullable.Row) :
  In r (Nullable.channel_join now channels table) -> In (fst r) channels.
Proof.
  unfold Nullable.channel_join. rewrite in_flat_map. intros (c & Hc & Hr).
  apply in_map_iff in Hr. destruct Hr as (m & <- & _). exact Hc.
Qed.

(** [channels.id] is the primary key: the group of a channel holds its
    rows of the window. *)
Lemma joined_group (now : Z) (channels : list Channel)
  (table : list Nullable.Row) (c : Channel) :
  NoDup (map chan_id channels) -> In c channels ->
  map snd (filter (has_key (pair_dec string_dec string_dec)
                     Nullable.channel_key (chan_id c, chan_name c))
             (Nullable.channel_join now channels table))
  = Nullable.rows_of_channel now table (chan_id c).
Proof.
  set (dec := pair_dec string_dec string_dec).
  set (k := (chan_id c, chan_name c)).
  induction channels as [|c' channels IH]; intros Hnd Hc; [destruct Hc|].
  cbn [map] in Hnd. apply NoDup_cons_iff in Hnd. destruct Hnd as [Hfresh Hnd].
  change (Nullable.channel_join now (c' :: channels) table)
    with (map (fun r => (c', r))
            (filter (fun r => String.eqb (chan_id c') (Nullable.channel_id r)
                              && Nullable.since now 7 r) table)
          ++ Nullable.channel_join now channels table).
  rewrite filter_app, map_app.
  destruct Hc as [->|Hc].
  - rewrite (filter_all (has_key dec Nullable.channel_key k)).
    2:{ intros r Hr. apply in_map_iff in Hr. destruct Hr as (m & <- & _).
        now apply has_key_true. }
    rewrite (filter_none (has_key dec Nullable.channel_key k)).
    2:{ intros r Hr. destruct (has_key dec Nullable.channel_key k r) eqn:E; auto.
        apply has_key_true in E. apply joined_rows_channel in Hr.
        elim Hfresh. injection E as E _. rewrite <- E. now apply in_map. }
    rewrite map_map. cbn [snd]. rewrite map_id, app_nil_r. reflexivity.
  - rewrite (filter_none (has_key dec Nullable.channel_key k)).
    2:{ intros r Hr. apply in_map_iff in Hr. destruct Hr as (m & <- & _).
        destruct (has_key dec Nullable.channel_key k (c', m)) eqn:E; auto.
        apply has_key_true in E. injection E as E _. cbn [fst] in E.
        elim Hfresh. rewrite E. now apply in_map. }
    cbn [map app]. now apply IH.
Qed.

(** A row of the window has a summary of its channel. *)
Lemma channel_summary_of_row (ROUND_1 : Q -> Q) (now : Z)
  (channels : list Channel) (table : list Nullable.Row) (c : Channel)
  (m : Nullable.Row) :
  NoDup (map chan_id channels) -> In c channels ->
  chan_id c = Nullable.channel_id m ->
  In m table -> Nullable.since now 7 m = true ->
  In m (Nullable.rows_of_channel now table (chan_id c)) /\
  exists s : Nullable.ChannelSummary,
    In s (Nullable.getChannelSummary ROUND_1 now channels table) /\
    Nullable.cs_id s = Nullable.channel_id m /\
    Nullable.cs_total_messages s
    = COUNT (Nullable.rows_of_channel now table (chan_id c)) /\
    Nullable.avg_sentiment s
    = Nullable.AVG
        (Nullable.scores (Nullable.rows_of_channel now table (chan_id c))).
Proof.
  intros Hnd Hc Hid Hin Hwin.
  assert (Hm : In m (Nullable.rows_of_channel now table (chan_id c))).
  { apply filter_In. split; auto. rewrite Hid, String.eqb_refl. exact Hwin. }
  split; [exact Hm|].
  set (dec := pair_dec string_dec string_dec).
  set (k := (chan_id c, chan_name c)).
  set (joined := Nullable.channel_join now channels table).
  exists (Nullable.channel_summary_row ROUND_1
            (k, filter (has_key dec Nullable.channel_key k) joined)).
  split; [|split; [|split]].
  - unfold Nullable.getChannelSummary. apply ORDER_BY_In. apply in_map.
    apply in_group_by. cbn [fst snd]. split; [|reflexivity].
    apply in_map_iff. exists (c, m). split; [reflexivity|].
    apply in_flat_map. exists c. split; auto. apply in_map. exact Hm.
  - cbn. exact Hid.
  - unfold Nullable.channel_summary_row. cbn [Nullable.cs_total_messages].
    unfold joined, dec, k. now rewrite joined_group.
  - unfold Nullable.channel_summary_row. cbn [Nullable.avg_sentiment].
    unfold joined, dec, k. now rewrite joined_group.
Qed.

(** *** What [AVG] sees *)

Lemma known_scores (rows : list Nullable.Row) (m : Nullable.Row) (q : Q) :
  In m rows -> Nullable.sentiment_score m = Some q ->
  In q (Nullable.known (Nullable.scores rows)).
Proof.
  intros Hin Hq. unfold Nullable.known, Nullable.scores.
  apply in_flat_map. exists (Some q). split.
  - rewrite <- Hq. now apply in_map.
  - now left.
Qed.

Lemma known_of_scored (rows : list Nullable.Row) :
  Nullable.known (Nullable.scores (filter Nullable.has_score rows))
  = Nullable.known (Nullable.scores rows) /\
  COUNT (Nullable.known (Nullable.scores rows))
  = COUNT (filter Nullable.has_score rows).
Proof.
  unfold Nullable.known, Nullable.scores, COUNT.
  induction rows as [|r rows [IH1 IH2]]; [split; reflexivity|].
  cbn [filter map flat_map].
  destruct (Nullable.has_score r) eqn:Hs; unfold Nullable.has_score in Hs;
    destruct (Nullable.sentiment_score r) as [q|] eqn:E; try discriminate.
  - cbn [map flat_map app length]. rewrite E. cbn [app length].
    rewrite IH1. split; [reflexivity|lia].
  - cbn [app]. split; [exact IH1|exact IH2].
Qed.

(** An average is there as soon as one row has a score, and it is the
    mean of the scores that are there. *)
Lemma AVG_of_known (rows : list Nullable.Row) (m : Nullable.Row) (q : Q) :
  In m rows -> Nullable.sentiment_score m = Some q ->
  Nullable.AVG (Nullable.scores rows)
  = Some (AVG (Nullable.known (Nullable.scores rows))).
Proof.
  intros Hin Hq. pose proof (known_scores rows m q Hin Hq) as Hk.
  unfold Nullable.AVG.
  destruct (Nullable.known (Nullable.scores rows)); [destruct Hk|reflexivity].
Qed.

(** *** The three classes *)

(** A row with a score falls in exactly one class, a row without a
    score in none. *)
Lemma classes_of_scored (rows : list Nullable.Row) :
  (COUNT (filter Nullable.is_positive rows)
   + COUNT (filter Nullable.is_neutral rows)
   + COUNT (filter Nullable.is_negative rows)
   = COUNT (filter Nullable.has_score rows))%Z.
Proof.
  unfold COUNT. induction rows as [|r rows IH]; [reflexivity|].
  cbn [filter].
  unfold Nullable.is_positive at 1, Nullable.is_neutral at 1,
    Nullable.is_negative at 1, Nullable.has_score at 1.
  destruct (Nullable.sentiment_score r) as [s|];
    cbn [Nullable.at_least Nullable.below andb]; [|exact IH].
  unfold Qltb.
  destruct (Qle_bool 7 s) eqn:E7; destruct (Qle_bool 4 s) eqn:E4;
    cbn [negb andb length]; try lia.
  apply Qle_bool_iff in E7.
  assert (H : 4 <= s) by lra.
  apply Qle_bool_iff in H. congruence.
Qed.

Lemma share_bounds_of (when : Nullable.Row -> bool) (rows : list Nullable.Row) :
  rows <> [] -> 0 <= Nullable.share when rows <= 100.
Proof.
  intros Hne. unfold Nullable.share.
  pose proof (COUNT_pos rows Hne) as Hn.
  assert (Hp : 0 < inject_Z (COUNT rows)) by (apply inject_Z_pos; lia).
  assert (Hk : (0 <= COUNT (filter when rows) <= COUNT rows)%Z).
  { unfold COUNT. pose proof (filter_length_le when rows). lia. }
  destruct Hk as [Hk0 Hk1].
  apply inject_Z_nonneg in Hk0. rewrite Zle_Qle in Hk1. split.
  - apply Qle_shift_div_l; [exact Hp|]. lra.
  - apply Qle_shift_div_r; [exact Hp|]. lra.
Qed.

(** *** Tenths next to three shares *)

Lemma ROUND_is_half_away : Nullable.rounds_to_tenths Nullable.half_away.
Proof.
  intros x [Hx _]. unfold Nullable.half_away.
  destruct (ROUND_1_tenths x Hx) as (k & E & Hlo & Hup).
  split; [now exists k|]. rewrite E. unfold Nullable.margin.
  apply Qabs_Qle_condition. split; lra.
Qed.

Lemma tenth_bounds (x t : Q) :
  Nullable.tenth_next_to x t ->
  exists k : Z, t == inject_Z k * (1 # 10) /\
                x - (1 # 20) - Nullable.margin <= inject_Z k * (1 # 10) /\
                inject_Z k * (1 # 10) <= x + (1 # 20) + Nullable.margin.
Proof.
  intros [(k & E) H]. exists k. split; [exact E|].
  rewrite E in H. apply Qabs_Qle_condition in H. split; lra.
Qed.

(** A whole number of tenths next to 0 is 0. *)
Lemma tenth_next_to_0 (x t : Q) :
  x == 0 -> Nullable.tenth_next_to x t -> t == 0.
Proof.
  intros Hx Ht. destruct (tenth_bounds x t Ht) as (k & E & Hlo & Hup).
  unfold Nullable.margin in Hlo, Hup. rewrite E.
  assert (Hk : (k = 0)%Z).
  { assert (H1 : (-1 < k)%Z).
    { rewrite Zlt_Qlt. change (inject_Z (-1)) with (-1). lra. }
    assert (H2 : (k < 1)%Z).
    { rewrite Zlt_Qlt. change (inject_Z 1) with 1. lra. }
    lia. }
  rewrite Hk. reflexivity.
Qed.

(** Three tenths next to three shares differ from the sum of the
    shares by 0.15 at most, up to the margin; next to three shares
    that make up the whole, they add up to 99.9, 100.0 or 100.1. *)
Lemma tenths_of_three_shares (sa sb sc ta tb tc : Q) :
  Nullable.tenth_next_to sa ta -> Nullable.tenth_next_to sb tb ->
  Nullable.tenth_next_to sc tc ->
  Qabs (ta + tb + tc - (sa + sb + sc)) <= (3 # 20) + 3 * Nullable.margin /\
  (sa + sb + sc == 100 -> Qabs (ta + tb + tc - 100) <= 1 # 10).
Proof.
  intros Ha Hb Hc.
  destruct (tenth_bounds sa ta Ha) as (ka & Ea & La & Ua).
  destruct (tenth_bounds sb tb Hb) as (kb & Eb & Lb & Ub).
  destruct (tenth_bounds sc tc Hc) as (kc & Ec & Lc & Uc).
  unfold Nullable.margin in *. rewrite Ea, Eb, Ec. split.
  - apply Qabs_Qle_condition. split; lra.
  - intros Hwhole. set (k := (ka + kb + kc)%Z).
    assert (Ek : inject_Z k == inject_Z ka + inject_Z kb + inject_Z kc).
    { unfold k. rewrite !inject_Z_plus. reflexivity. }
    assert (Hup : (k < 1002)%Z).
    { rewrite Zlt_Qlt. change (inject_Z 1002) with 1002. lra. }
    assert (Hlo : (998 < k)%Z).
    { rewrite Zlt_Qlt. change (inject_Z 998) with 998. lra. }
    assert (Hup' : (k <= 1001)%Z) by lia.
    assert (Hlo' : (999 <= k)%Z) by lia.
    rewrite Zle_Qle in Hup', Hlo'.
    change (inject_Z 1001) with 1001 in Hup'.
    change (inject_Z 999) with 999 in Hlo'.
    apply Qabs_Qle_condition. split; lra.
Qed.

Lemma shares_of_classes (rows : list Nullable.Row) :
  rows <> [] ->
  Nullable.share Nullable.is_positive rows
  + Nullable.share Nullable.is_neutral rows
  + Nullable.share Nullable.is_negative rows
  == Nullable.share Nullable.has_score rows.
Proof.
  intros Hne. unfold Nullable.share.
  pose proof (COUNT_pos rows Hne) as Hn.
  assert (Hp : 0 < inject_Z (COUNT rows)) by (apply inject_Z_pos; lia).
  rewrite <- (classes_of_scored rows), !inject_Z_plus. field. lra.
Qed.

Lemma share_of_all (when : Nullable.Row -> bool) (rows : list Nullable.Row) :
  rows <> [] -> forallb when rows = true -> Nullable.share when rows == 100.
Proof.
  intros Hne Hall. unfold Nullable.share.
  rewrite filter_all by (now apply forallb_forall).
  pose proof (COUNT_pos rows Hne) as Hn.
  assert (Hp : 0 < inject_Z (COUNT rows)) by (apply inject_Z_pos; lia).
  field. lra.
Qed.

Lemma share_of_none (when : Nullable.Row -> bool) (rows : list Nullable.Row) :
  (forall r, In r rows -> when r = false) -> Nullable.share when rows == 0.
Proof.
  intros Hnone. unfold Nullable.share. rewrite filter_none by exact Hnone.
  unfold COUNT. cbn [length Z.of_nat]. unfold Qdiv.
  change (inject_Z 0) with 0. ring.
Qed.

(** *** A table without [NULL] *)

Lemma insert_by_map {A B} (f : A -> B) (le : A -> A -> bool)
  (le' : B -> B -> bool) (x : A) (l : list A) :
  (forall a b, le' (f a) (f b) = le a b) ->
  insert_by le' (f x) (map f l) = map f (insert_by le x l).
Proof.
  intros Hle. induction l as [|y l IH]; cbn [map insert_by]; [reflexivity|].
  rewrite Hle. destruct (le x y); cbn [map]; [reflexivity|]. now rewrite IH.
Qed.

Lemma ORDER_BY_map {A B} (f : A -> B) (le : A -> A -> bool)
  (le' : B -> B -> bool) (l : list A) :
  (forall a b, le' (f a) (f b) = le a b) ->
  ORDER_BY le' (map f l) = map f (ORDER_BY le l).
Proof.
  intros Hle. unfold ORDER_BY.
  induction l as [|x l IH]; cbn [map fold_right]; [reflexivity|].
  rewrite IH. now apply insert_by_map.
Qed.

Lemma group_by_map {A B K} (K_dec : forall x y : K, {x = y} + {x <> y})
  (key : A -> K) (key' : B -> K) (f : A -> B) (rows : list A) :
  (forall a, key' (f a) = key a) ->
  group_by K_dec key' (map f rows)
  = map (fun g => (fst g, map f (snd g))) (group_by K_dec key rows).
Proof.
  intros Hkey. unfold group_by. rewrite !map_map.
  rewrite (map_ext (fun a => key' (f a)) key Hkey).
  apply map_ext. intros k. cbn [fst snd]. f_equal.
  rewrite filter_of_map. f_equal. apply filter_ext. intros a.
  unfold has_key. now rewrite Hkey.
Qed.

Lemma scores_not_null (ms : list Message) :
  Nullable.known (Nullable.scores (map Nullable.not_null ms)) = scores ms.
Proof.
  unfold Nullable.known, Nullable.scores, scores.
  induction ms as [|m ms IH]; [reflexivity|].
  cbn [map flat_map Nullable.not_null Nullable.sentiment_score app].
  now rewrite IH.
Qed.

Lemma AVG_not_null (ms : list Message) :
  ms <> [] ->
  Nullable.AVG (Nullable.scores (map Nullable.not_null ms))
  = Some (AVG (scores ms)).
Proof.
  intros Hne. unfold Nullable.AVG. rewrite scores_not_null.
  destruct ms as [|m ms]; [contradiction|reflexivity].
Qed.

Lemma percentage_not_null (when : Message -> bool)
  (when' : Nullable.Row -> bool) (ms : list Message) :
  (forall m, when' (Nullable.not_null m) = when m) ->
  Nullable.percentage Nullable.half_away when' (map Nullable.not_null ms)
  = percentage when ms.
Proof.
  intros Hwhen.
  unfold Nullable.percentage, percentage, Nullable.half_away, COUNT_CASE.
  rewrite filter_of_map, (filter_ext _ _ Hwhen).
  unfold COUNT. now rewrite !length_map.
Qed.

Lemma MAX_timestamp_not_null (ms : list Message) :
  Nullable.MAX_timestamp (map Nullable.not_null ms) = MAX_timestamp ms.
Proof.
  unfold Nullable.MAX_timestamp, MAX_timestamp.
  induction ms as [|m ms IH]; [reflexivity|].
  cbn [map fold_right]. now rewrite IH.
Qed.

(** On a table without [NULL], and with the halves rounded away from
    zero, the daily query is the one of [Database]. *)
Lemma getDailyMoodTrends_not_null (days now : Z) (messages : list Message) :
  Nullable.getDailyMoodTrends Nullable.half_away days now
    (map Nullable.not_null messages)
  = map Nullable.daily_mood (getDailyMoodTrends days now messages).
Proof.
  unfold Nullable.getDailyMoodTrends, getDailyMoodTrends.
  rewrite filter_of_map.
  change (fun x => Nullable.since now days (Nullable.not_null x))
    with (since now days).
  rewrite (group_by_map Z.eq_dec (fun m => DATE (timestamp m))
             (fun r => DATE (Nullable.timestamp r)) Nullable.not_null)
    by reflexivity.
  rewrite map_map.
  rewrite <- (ORDER_BY_map Nullable.daily_mood
                (fun a b => (dm_date a <=? dm_date b)%Z)
                (fun a b => (Nullable.date a <=? Nullable.date b)%Z))
    by reflexivity.
  f_equal. rewrite map_map. apply map_ext_in. intros [day ms] Hg.
  apply group_not_empty in Hg. cbn [fst snd] in Hg |- *.
  unfold Nullable.daily_mood_row, daily_mood_row, Nullable.daily_mood.
  cbn [dm_date overall_mood dm_total_messages active_channels dm_active_users
       positive_percentage negative_percentage neutral_percentage].
  rewrite (AVG_not_null ms Hg), !map_map.
  rewrite (percentage_not_null is_positive Nullable.is_positive) by reflexivity.
  rewrite (percentage_not_null is_negative Nullable.is_negative) by reflexivity.
  rewrite (percentage_not_null is_neutral Nullable.is_neutral) by reflexivity.
  unfold COUNT. rewrite length_map. reflexivity.
Qed.

Lemma channel_join_not_null (now : Z) (channels : list Channel)
  (messages : list Message) :
  Nullable.channel_join now channels (map Nullable.not_null messages)
  = map (fun r => (fst r, Nullable.not_null (snd r)))
      (channel_join now channels messages).
Proof.
  unfold Nullable.channel_join, channel_join.
  induction channels as [|c channels IH]; [reflexivity|].
  cbn [flat_map]. rewrite map_app, IH. f_equal.
  rewrite filter_of_map, !map_map. reflexivity.
Qed.

(** And so is the channel summary. *)
Lemma getChannelSummary_not_null (now : Z) (channels : list Channel)
  (messages : list Message) :
  Nullable.getChannelSummary Nullable.half_away now channels
    (map Nullable.not_null messages)
  = map Nullable.channel_summary (getChannelSummary now channels messages).
Proof.
  unfold Nullable.getChannelSummary, getChannelSummary.
  rewrite channel_join_not_null.
  rewrite (group_by_map (pair_dec string_dec string_dec) channel_key
             Nullable.channel_key
             (fun r => (fst r, Nullable.not_null (snd r)))) by reflexivity.
  rewrite map_map.
  rewrite <- (ORDER_BY_map Nullable.channel_summary
                (fun a b => Qle_bool (cs_avg_sentiment a) (cs_avg_sentiment b))
                (fun a b => Nullable.avg_leb (Nullable.avg_sentiment a)
                              (Nullable.avg_sentiment b)))
    by reflexivity.
  f_equal. rewrite map_map. apply map_ext_in. intros [k joined] Hg.
  apply group_not_empty in Hg. cbn [fst snd] in Hg |- *.
  unfold Nullable.channel_summary_row, channel_summary_row,
    Nullable.channel_summary.
  cbn [cs_id cs_name cs_avg_sentiment cs_total_messages last_message
       cs_active_users cs_burnout_risk_percentage].
  rewrite !map_map. cbn [snd].
  rewrite <- (map_map snd Nullable.not_null).
  assert (Hne : map snd joined <> []) by (destruct joined; [contradiction|discriminate]).
  rewrite (AVG_not_null _ Hne), MAX_timestamp_not_null.
  rewrite (percentage_not_null is_negative Nullable.is_negative) by reflexivity.
  rewrite !map_map. unfold COUNT. rewrite !length_map. reflexivity.
Qed.

(* ------------------------------------------------------------------ *)
(** ** Daily buckets: the percentage triple on the stored table *)
(* ------------------------------------------------------------------ *)

(** C5, as stated, fails.  The ingestion stores [NULL] for a message
    with a reaction named [constructor]; the bucket of its day counts
    this message and shows 0, 0 and 0 percent. *)
Lemma unscored_bucket_shows_three_zeros :
  In Examples.inherited_data
    (Ingest.process "C1" Examples.inherited_message) /\
  Nullable.sentiment_score (Nullable.stored 1 Examples.inherited_data) = None /\
  exists b : Nullable.DailyMood,
    Nullable.getDailyMoodTrends Nullable.half_away 14 Samples.jan_1_2024
      Examples.unscored_table = [b] /\
    Nullable.total_messages b = 1%Z /\
    Nullable.overall_mood b = None /\
    Nullable.positive_percentage b == 0 /\
    Nullable.neutral_percentage b == 0 /\
    Nullable.negative_percentage b == 0 /\
    ~ Qabs (Nullable.positive_percentage b + Nullable.neutral_percentage b
            + Nullable.negative_percentage b - 100) <= 1 # 10.
Proof.
  split; [vm_compute; left; reflexivity|]. split; [vm_compute; reflexivity|].
  eexists. split; [vm_compute; reflexivity|].
  cbn [Nullable.total_messages Nullable.overall_mood
       Nullable.positive_percentage Nullable.neutral_percentage
       Nullable.negative_percentage].
  repeat split. intros H. vm_compute in H. now apply H.
Qed.

(** C5, amended.  A daily bucket holds at least one row.  Each of its
    three percentage fields is a whole number of tenths next to the
    share of its class among the rows of the bucket, whatever [ROUND]
    does with a half.  A row without a score is in no class: the three
    fields add up to the share of the rows that have a score, within
    0.15, and to 0 when no row has one.  When every row of the bucket
    has a score, they add up to 99.9, 100.0 or 100.1. *)
Theorem scored_daily_percentages_sum_to_100 :
  forall (ROUND_1 : Q -> Q) (days now : Z) (table : list Nullable.Row)
         (b : Nullable.DailyMood),
    Nullable.rounds_to_tenths ROUND_1 ->
    In b (Nullable.getDailyMoodTrends ROUND_1 days now table) ->
    let rows := Nullable.rows_of_day days now table (Nullable.date b) in
    let positive := fun r => Nullable.at_least 7 (Nullable.sentiment_score r) in
    let neutral := fun r =>
      Nullable.at_least 4 (Nullable.sentiment_score r)
      && Nullable.below 7 (Nullable.sentiment_score r) in
    let negative := fun r => Nullable.below 4 (Nullable.sentiment_score r) in
    let sum :=
      Nullable.positive_percentage b + Nullable.neutral_percentage b
      + Nullable.negative_percentage b in
    (1 <= Nullable.total_messages b)%Z /\
    Nullable.total_messages b = COUNT rows /\
    Nullable.tenth_next_to (Nullable.share positive rows)
      (Nullable.positive_percentage b) /\
    Nullable.tenth_next_to (Nullable.share neutral rows)
      (Nullable.neutral_percentage b) /\
    Nullable.tenth_next_to (Nullable.share negative rows)
      (Nullable.negative_percentage b) /\
    Qabs (sum - Nullable.share Nullable.has_score rows)
    <= (3 # 20) + 3 * Nullable.margin /\
    ((forall r, In r rows -> Nullable.sentiment_score r <> None) ->
     Qabs (sum - 100) <= 1 # 10) /\
    ((forall r, In r rows -> Nullable.sentiment_score r = None) ->
     sum == 0).
Proof.
  intros ROUND_1 days now table b Hround Hb rows positive neutral negative sum.
  destruct (daily_bucket_rows ROUND_1 days now table b Hb) as [Hne Eb].
  fold rows in Hne, Eb.
  pose proof (COUNT_pos rows Hne) as Hn.
  assert (Et : Nullable.total_messages b = COUNT rows)
    by exact (f_equal Nullable.total_messages Eb).
  assert (Ep : Nullable.positive_percentage b
               = ROUND_1 (Nullable.share positive rows))
    by exact (f_equal Nullable.positive_percentage Eb).
  assert (Eu : Nullable.neutral_percentage b
               = ROUND_1 (Nullable.share neutral rows))
    by exact (f_equal Nullable.neutral_percentage Eb).
  assert (Eg : Nullable.negative_percentage b
               = ROUND_1 (Nullable.share negative rows))
    by exact (f_equal Nullable.negative_percentage Eb).
  assert (Hp : Nullable.tenth_next_to (Nullable.share positive rows)
                 (Nullable.positive_percentage b))
    by (rewrite Ep; apply Hround; now apply share_bounds_of).
  assert (Hu : Nullable.tenth_next_to (Nullable.share neutral rows)
                 (Nullable.neutral_percentage b))
    by (rewrite Eu; apply Hround; now apply share_bounds_of).
  assert (Hg : Nullable.tenth_next_to (Nullable.share negative rows)
                 (Nullable.negative_percentage b))
    by (rewrite Eg; apply Hround; now apply share_bounds_of).
  pose proof (shares_of_classes rows Hne) as Hshares.
  change (Nullable.share positive rows + Nullable.share neutral rows
          + Nullable.share negative rows
          == Nullable.share Nullable.has_score rows) in Hshares.
  destruct (tenths_of_three_shares _ _ _ _ _ _ Hp Hu Hg) as [Hsum Hwhole].
  fold sum in Hsum, Hwhole.
  split; [lia|]. split; [exact Et|]. split; [exact Hp|].
  split; [exact Hu|]. split; [exact Hg|]. split; [|split].
  - rewrite <- Hshares. exact Hsum.
  - intros Hall. apply Hwhole. rewrite Hshares.
    apply share_of_all; [exact Hne|]. apply forallb_forall. intros r Hr.
    specialize (Hall r Hr). unfold Nullable.has_score.
    destruct (Nullable.sentiment_score r); [reflexivity|contradiction].
  - intros Hnone.
    assert (H0 : forall when : Nullable.Row -> bool,
              (forall r, Nullable.sentiment_score r = None -> when r = false) ->
              Nullable.share when rows == 0).
    { intros when Hwhen. apply share_of_none. intros r Hr.
      apply Hwhen. now apply Hnone. }
    assert (Zp : Nullable.positive_percentage b == 0).
    { apply (tenth_next_to_0 (Nullable.share positive rows)); [|exact Hp].
      apply H0. intros r Er. unfold positive. now rewrite Er. }
    assert (Zu : Nullable.neutral_percentage b == 0).
    { apply (tenth_next_to_0 (Nullable.share neutral rows)); [|exact Hu].
      apply H0. intros r Er. unfold neutral. now rewrite Er. }
    assert (Zg : Nullable.negative_percentage b == 0).
    { apply (tenth_next_to_0 (Nullable.share negative rows)); [|exact Hg].
      apply H0. intros r Er. unfold negative. now rewrite Er. }
    unfold sum. rewrite Zp, Zu, Zg. reflexivity.
Qed.

Lemma scored_daily_percentages_sum_to_100_witness :
  let b := Nullable.daily_mood_row Nullable.half_away
             (Samples.jan_1_2024, Examples.four_rows) in
  let rows := Nullable.rows_of_day 14 Samples.jan_1_2024 Examples.four_rows
                (Nullable.date b) in
  let positive := fun r => Nullable.at_least 7 (Nullable.sentiment_score r) in
  let neutral := fun r =>
    Nullable.at_least 4 (Nullable.sentiment_score r)
    && Nullable.below 7 (Nullable.sentiment_score r) in
  let negative := fun r => Nullable.below 4 (Nullable.sentiment_score r) in
  let sum :=
    Nullable.positive_percentage b + Nullable.neutral_percentage b
    + Nullable.negative_percentage b in
  (1 <= Nullable.total_messages b)%Z /\
  Nullable.total_messages b = COUNT rows /\
  Nullable.tenth_next_to (Nullable.share positive rows)
    (Nullable.positive_percentage b) /\
  Nullable.tenth_next_to (Nullable.share neutral rows)
    (Nullable.neutral_percentage b) /\
  Nullable.tenth_next_to (Nullable.share negative rows)
    (Nullable.negative_percentage b) /\
  Qabs (sum - Nullable.share Nullable.has_score rows)
  <= (3 # 20) + 3 * Nullable.margin /\
  ((forall r, In r rows -> Nullable.sentiment_score r <> None) ->
   Qabs (sum - 100) <= 1 # 10) /\
  ((forall r, In r rows -> Nullable.sentiment_score r = None) ->
   sum == 0).
Proof.
  apply (scored_daily_percentages_sum_to_100 Nullable.half_away 14
           Samples.jan_1_2024 Examples.four_rows).
  - exact ROUND_is_half_away.
  - vm_compute. left. reflexivity.
Defined.

(** The bucket of the four rows: three classes of 25 percent each
    beside the row without a score. *)
Lemma unscored_row_takes_its_share :
  exists b : Nullable.DailyMood,
    Nullable.getDailyMoodTrends Nullable.half_away 14 Samples.jan_1_2024
      Examples.four_rows = [b] /\
    Nullable.total_messages b = 4%Z /\
    (exists q : Q, Nullable.overall_mood b = Some q /\ q == 5) /\
    Nullable.positive_percentage b == 25 /\
    Nullable.neutral_percentage b == 25 /\
    Nullable.negative_percentage b == 25.
Proof.
  eexists. split; [vm_compute; reflexivity|].
  split; [reflexivity|]. split; [eexists; split; reflexivity|].
  repeat split.
Qed.

(** The three fields are binary64 numbers next to their tenths.  Three
    times 33.3 is 99.9 as decimal numbers; the three binary64 numbers
    miss 100 by a little more than a tenth, added exactly or added by
    JavaScript. *)
Lemma three_times_33_3_in_binary64 :
  let x := Binary64.round (333 # 10) in
  Qabs ((333 # 10) + (333 # 10) + (333 # 10) - 100) == 1 # 10 /\
  1 # 10 < Qabs (x + x + x - 100) /\
  1 # 10 < Qabs (Binary64.add (Binary64.add x x) x - 100) /\
  Qabs (x + x + x - 100) < (1 # 10) + (1 # 100000000000000).
Proof.
  cbv zeta. repeat split; vm_compute; reflexivity.
Qed.

(* ------------------------------------------------------------------ *)
(** ** Scores outside the range 1..10 *)
(* ------------------------------------------------------------------ *)

Lemma filter_leaves_out {A} (keep : A -> bool) (l : list A) (x : A) :
  In x l -> keep x = false -> (COUNT (filter keep l) < COUNT l)%Z.
Proof.
  unfold COUNT. intros Hin Hx.
  induction l as [|y l IH]; [destruct Hin|]. cbn [filter].
  pose proof (filter_length_le keep l) as Hle.
  destruct Hin as [->|Hin].
  - rewrite Hx. cbn [length]. lia.
  - specialize (IH Hin). destruct (keep y); cbn [length]; lia.
Qed.

(** C9, as stated, fails.  A row with the score 15 is counted and
    averaged by the daily bucket of its date and by the summary of its
    channel; the row of the NaN blend, which has no score, is counted
    by both. *)
Lemma out_of_range_score_is_aggregated :
  Nullable.sentiment_score Examples.row_15 = Some 15 /\
  ~ (1 <= 15 <= 10) /\
  map (fun b => (Nullable.date b, Nullable.total_messages b,
                 Nullable.overall_mood b))
    (Nullable.getDailyMoodTrends Nullable.half_away 14 Samples.jan_1_2024
       [Examples.row_15])
  = [(Samples.jan_1_2024, 1%Z, Some 15)] /\
  map (fun s => (Nullable.cs_id s, Nullable.cs_total_messages s,
                 Nullable.avg_sentiment s))
    (Nullable.getChannelSummary Nullable.half_away Samples.jan_1_2024
       Samples.channels_table [Examples.row_15])
  = [("C1"%string, 1%Z, Some 15)] /\
  map (fun b => (Nullable.date b, Nullable.total_messages b,
                 Nullable.overall_mood b))
    (Nullable.getDailyMoodTrends Nullable.half_away 14 Samples.jan_1_2024
       Examples.unscored_table)
  = [(Samples.jan_1_2024, 1%Z, None)] /\
  map (fun s => (Nullable.cs_id s, Nullable.cs_total_messages s,
                 Nullable.avg_sentiment s))
    (Nullable.getChannelSummary Nullable.half_away Samples.jan_1_2024
       Samples.channels_table Examples.unscored_table)
  = [("C1"%string, 1%Z, None)].
Proof.
  split; [reflexivity|]. split; [intros [_ H]; vm_compute in H; now apply H|].
  repeat split; vm_compute; reflexivity.
Qed.

(** C9, amended.  No query looks at the range of [sentiment_score].
    For a row of the window, the daily bucket of its date counts all
    the rows of the window with that date, the row among them, and
    its mood is the [AVG] of their scores; the summary of its channel
    does the same with the rows of the channel in the seven-day window.
    Among any rows, a score that is a number is one of the scores that
    [AVG] averages, whatever the number; a row without a score is left
    out of the average, which is the one of the rows that have a
    score, and only there: it is counted. *)
Theorem every_score_is_aggregated :
  forall (ROUND_1 : Q -> Q) (days now : Z) (channels : list Channel)
         (table : list Nullable.Row) (c : Channel) (m : Nullable.Row),
    NoDup (map chan_id channels) -> In c channels ->
    chan_id c = Nullable.channel_id m ->
    In m table ->
    Nullable.since now days m = true -> Nullable.since now 7 m = true ->
    (let rows := Nullable.rows_of_day days now table
                   (DATE (Nullable.timestamp m)) in
     In m rows /\
     exists b : Nullable.DailyMood,
       In b (Nullable.getDailyMoodTrends ROUND_1 days now table) /\
       Nullable.date b = DATE (Nullable.timestamp m) /\
       Nullable.total_messages b = COUNT rows /\
       Nullable.overall_mood b = Nullable.AVG (Nullable.scores rows)) /\
    (let rows := Nullable.rows_of_channel now table (chan_id c) in
     In m rows /\
     exists s : Nullable.ChannelSummary,
       In s (Nullable.getChannelSummary ROUND_1 now channels table) /\
       Nullable.cs_id s = Nullable.channel_id m /\
       Nullable.cs_total_messages s = COUNT rows /\
       Nullable.avg_sentiment s = Nullable.AVG (Nullable.scores rows)) /\
    (forall rows : list Nullable.Row, In m rows ->
       (forall q : Q, Nullable.sentiment_score m = Some q ->
          In q (Nullable.known (Nullable.scores rows)) /\
          Nullable.AVG (Nullable.scores rows)
          = Some (AVG (Nullable.known (Nullable.scores rows)))) /\
       (Nullable.sentiment_score m = None ->
        ~ In m (filter Nullable.has_score rows) /\
        Nullable.AVG (Nullable.scores rows)
        = Nullable.AVG (Nullable.scores (filter Nullable.has_score rows)) /\
        (COUNT (Nullable.known (Nullable.scores rows)) < COUNT rows)%Z)).
Proof.
  intros ROUND_1 days now channels table c m Hnd Hc Hid Hin Hdays Hweek.
  split; [|split].
  - destruct (daily_bucket_of_row ROUND_1 days now table m Hin Hdays)
      as [Hm Hb].
    cbv zeta. split; [exact Hm|].
    eexists. split; [exact Hb|]. repeat split.
  - now apply channel_summary_of_row.
  - intros rows Hrows. split.
    + intros q Hq. split.
      * now apply (known_scores rows m q).
      * now apply (AVG_of_known rows m q).
    + intros Hnull.
      assert (Hs : Nullable.has_score m = false)
        by (unfold Nullable.has_score; now rewrite Hnull).
      destruct (known_of_scored rows) as [Ek Ec]. split; [|split].
      * intros H. apply filter_In in H. destruct H as [_ H]. congruence.
      * unfold Nullable.AVG. now rewrite Ek.
      * rewrite Ec. now apply (filter_leaves_out Nullable.has_score rows m).
Qed.

Lemma every_score_is_aggregated_witness :
  (let rows := Nullable.rows_of_day 14 Samples.jan_1_2024 Examples.five_rows
                 (DATE (Nullable.timestamp Examples.row_15)) in
   In Examples.row_15 rows /\
   exists b : Nullable.DailyMood,
     In b (Nullable.getDailyMoodTrends Nullable.half_away 14
             Samples.jan_1_2024 Examples.five_rows) /\
     Nullable.date b = DATE (Nullable.timestamp Examples.row_15) /\
     Nullable.total_messages b = COUNT rows /\
     Nullable.overall_mood b = Nullable.AVG (Nullable.scores rows)) /\
  (let rows := Nullable.rows_of_channel Samples.jan_1_2024 Examples.five_rows
                 "C1" in
   In Examples.row_15 rows /\
   exists s : Nullable.ChannelSummary,
     In s (Nullable.getChannelSummary Nullable.half_away Samples.jan_1_2024
             Samples.two_channels Examples.five_rows) /\
     Nullable.cs_id s = Nullable.channel_id Examples.row_15 /\
     Nullable.cs_total_messages s = COUNT rows /\
     Nullable.avg_sentiment s = Nullable.AVG (Nullable.scores rows)) /\
  (forall rows : list Nullable.Row, In Examples.row_15 rows ->
     (forall q : Q, Nullable.sentiment_score Examples.row_15 = Some q ->
        In q (Nullable.known (Nullable.scores rows)) /\
        Nullable.AVG (Nullable.scores rows)
        = Some (AVG (Nullable.known (Nullable.scores rows)))) /\
     (Nullable.sentiment_score Examples.row_15 = None ->
      ~ In Examples.row_15 (filter Nullable.has_score rows) /\
      Nullable.AVG (Nullable.scores rows)
      = Nullable.AVG (Nullable.scores (filter Nullable.has_score rows)) /\
      (COUNT (Nullable.known (Nullable.scores rows)) < COUNT rows)%Z)).
Proof.
  apply (every_score_is_aggregated Nullable.half_away 14 Samples.jan_1_2024
           Samples.two_channels Examples.five_rows
           {| chan_id := "C1"; chan_name := "general" |} Examples.row_15).
  - vm_compute. constructor; [intros [H|[]]; discriminate|].
    constructor; [intros []|constructor].
  - left. reflexivity.
  - reflexivity.
  - vm_compute. left. reflexivity.
  - reflexivity.
  - reflexivity.
Defined.
